(** * Verification of the synthetic-data ETL project

    The development embeds, as executable Rocq functions, the parts of
    [etl_medallion.py], [main.py] and [data_generator.py] that the stated
    properties are about: credential resolution, the three stages and the
    run of the pipeline with its verification, the detailed verification
    and the samples, the routes that trigger, verify and sample, the
    generators of employees, products and sales, and the batch job that
    writes and uploads their files.  ([etl_pipeline.py] only calls
    [run_etl] and times it.)

    Conventions of the embedding.
    - Python [str] is [string] (a sequence of bytes, UTF-8 for the
      non-ASCII literals of the source); slicing and case conversion are
      byte-wise and agree with Python on ASCII text.
    - Python [int] is [Z]; Python [float] is idealised as an exact
      rational [Q], so that [round(x, 2)] is rounding of the exact value
      to the nearest multiple of 1/100, ties to even.
    - A function that can raise returns an [outcome]; effects are threaded
      through the state monad [M], whose state survives a raised
      exception, as a Python process's state does.
    - Everything outside the process (the warehouse, the clock, the
      pseudo-random generators, the Faker providers, the file system) is an
      arbitrary oracle; the theorems quantify over it. *)

From Stdlib Require Import String Ascii ZArith QArith Qround List Lia Lqa.
From Stdlib Require Import DecimalString DecimalZ DecimalNat DecimalFacts.
From stdpp Require Import gmap strings list.

Local Open Scope Z_scope.

(** ** Python prelude *)

(** An exception of class [Exception]: its class name and its message
    ([str(e)]). *)
Inductive exn : Type := Exn (cls : string) (msg : string).

Definition str_exn (e : exn) : string := let 'Exn _ m := e in m.

Inductive outcome (A : Type) : Type :=
| Returned (a : A)
| Raised (e : exn).
Arguments Returned {A} a.
Arguments Raised {A} e.

(** Sequencing of calls that may raise. *)
Definition and_then {A B} (o : outcome A) (k : A -> outcome B) : outcome B :=
  match o with
  | Returned a => k a
  | Raised e => Raised e
  end.

(** Computations over a mutable process state [S]. *)
Definition M (S A : Type) : Type := S -> outcome A * S.

Definition ret {S A} (a : A) : M S A := fun s => (Returned a, s).

Definition bind {S A B} (c : M S A) (k : A -> M S B) : M S B :=
  fun s => match c s with
           | (Returned a, s') => k a s'
           | (Raised e, s') => (Raised e, s')
           end.

Definition raise {S A} (e : exn) : M S A := fun s => (Raised e, s).

(** [try: body  except Exception as e: handler e] *)
Definition try_except {S A} (body : M S A) (handler : exn -> M S A) : M S A :=
  fun s => match body s with
           | (Returned a, s') => (Returned a, s')
           | (Raised e, s') => handler e s'
           end.

Definition lift {S A} (o : outcome A) : M S A := fun s => (o, s).

Notation "x <- c ;; k" := (bind c (fun x => k))
  (at level 100, c at next level, right associativity).
Notation "c ;;; k" := (bind c (fun _ => k))
  (at level 100, right associativity).

(** [for x in xs: acc = body(acc, x)] *)
Fixpoint for_each {S A X} (xs : list X) (acc : A) (body : A -> X -> M S A) : M S A :=
  match xs with
  | [] => ret acc
  | x :: xs' => acc' <- body acc x ;; for_each xs' acc' body
  end.

(** Standard output: one entry per [print] call. *)
Class Console (S : Type) := put_line : string -> S -> S.

Definition print {S} `{Console S} (line : string) : M S unit :=
  fun s => (Returned tt, put_line line s).

(** *** Strings *)

Definition nl : string := String (ascii_of_nat 10) EmptyString.

(** [s[:n]] *)
Definition str_prefix (n : nat) (s : string) : string := substring 0 n s.

Definition upper_ascii (c : ascii) : ascii :=
  let n := nat_of_ascii c in
  if ((97 <=? n) && (n <=? 122))%nat then ascii_of_nat (n - 32) else c.

Definition lower_ascii (c : ascii) : ascii :=
  let n := nat_of_ascii c in
  if ((65 <=? n) && (n <=? 90))%nat then ascii_of_nat (n + 32) else c.

Fixpoint str_map (f : ascii -> ascii) (s : string) : string :=
  match s with
  | EmptyString => EmptyString
  | String c s' => String (f c) (str_map f s')
  end.

(** [s.upper()], [s.lower()] *)
Definition upper : string -> string := str_map upper_ascii.
Definition lower : string -> string := str_map lower_ascii.

Definition is_cased (c : ascii) : bool :=
  let n := nat_of_ascii c in
  (((65 <=? n) && (n <=? 90)) || ((97 <=? n) && (n <=? 122)))%nat.

(** [s.title()]: a letter is written in upper case when it follows a
    character that is not a letter, and in lower case otherwise. *)
Fixpoint title_from (after_letter : bool) (s : string) : string :=
  match s with
  | EmptyString => EmptyString
  | String c s' =>
      if is_cased c
      then String (if after_letter then lower_ascii c else upper_ascii c)
                  (title_from true s')
      else String c (title_from false s')
  end.
Definition title : string -> string := title_from false.

(** [str(z)] for an integer. *)
Definition str_int (z : Z) : string := NilZero.string_of_int (Z.to_int z).

(** The decimal digits of a natural number. *)
Definition digits (n : N) : string := NilZero.string_of_uint (N.to_uint n).

(** Left padding with zeros up to [width] characters. *)
Fixpoint zeros (n : nat) : string :=
  match n with
  | O => EmptyString
  | S n' => String "0" (zeros n')
  end.

Definition zfill (width : nat) (digits : string) : string :=
  zeros (width - String.length digits) +:+ digits.

(** [f'{z:0{width}d}']: the sign, if any, counts in the width. *)
Definition format_0d (width : nat) (z : Z) : string :=
  if z <? 0
  then "-" +:+ zfill (width - 1) (digits (Z.abs_N z))
  else zfill width (digits (Z.abs_N z)).

(** [f'{z:,}']: groups of three digits from the right. *)
Fixpoint group3 (rev_digits : list ascii) (seen : nat) : list ascii :=
  match rev_digits with
  | [] => []
  | d :: rest =>
      if (seen =? 3)%nat then ","%char :: d :: group3 rest 1
      else d :: group3 rest (S seen)
  end.

Definition format_comma (z : Z) : string :=
  let body :=
    string_of_list_ascii
      (rev (group3 (rev (list_ascii_of_string (digits (Z.abs_N z)))) 0)) in
  if z <? 0 then "-" +:+ body else body.

(** *** Values held by a result row *)

Inductive value : Type :=
| VInt (z : Z)
| VStr (s : string)
| VNone.

(** A result row: field names with their values, as [Row] exposes them
    through attribute access. *)
Definition Row : Type := list (string * value).

Fixpoint row_lookup (name : string) (r : Row) : option value :=
  match r with
  | [] => None
  | (k, v) :: r' => if String.eqb k name then Some v else row_lookup name r'
  end.

(** [row.name] *)
Definition getattr_row (r : Row) (name : string) : outcome value :=
  match row_lookup name r with
  | Some v => Returned v
  | None => Raised (Exn "AttributeError" ("no row field '" +:+ name +:+ "'"))
  end.

(** [f'{v}'] *)
Definition format_value (v : value) : string :=
  match v with
  | VInt z => str_int z
  | VStr s => s
  | VNone => "None"
  end.

(** [f'{v:,}'] *)
Definition format_value_comma (v : value) : outcome string :=
  match v with
  | VInt z => Returned (format_comma z)
  | VStr _ => Raised (Exn "ValueError" "Cannot specify ',' with 's'.")
  | VNone =>
      Raised (Exn "TypeError"
                  "unsupported format string passed to NoneType.__format__")
  end.

(** [xs[0]] *)
Definition first_item {A} (xs : list A) : outcome A :=
  match xs with
  | x :: _ => Returned x
  | [] => Raised (Exn "IndexError" "list index out of range")
  end.

(** [[f(x) for x in xs]] where [f] may raise. *)
Fixpoint map_outcome {A B} (f : A -> outcome B) (xs : list A) : outcome (list B) :=
  match xs with
  | [] => Returned []
  | x :: xs' =>
      and_then (f x) (fun y =>
      and_then (map_outcome f xs') (fun ys => Returned (y :: ys)))
  end.

(** [sep.join(items)] for strings. *)
Fixpoint str_join (sep : string) (items : list string) : string :=
  match items with
  | [] => EmptyString
  | [x] => x
  | x :: rest => x +:+ sep +:+ str_join sep rest
  end.

(** The name of the type of a value, as [type(v).__name__]. *)
Definition type_name (v : value) : string :=
  match v with
  | VInt _ => "int"
  | VStr _ => "str"
  | VNone => "NoneType"
  end.

(** The strings of a list of values, or the [TypeError] of [str.join] at
    the first item, counted from [i], that is not a string. *)
Fixpoint strings_from (i : Z) (vs : list value) : outcome (list string) :=
  match vs with
  | [] => Returned []
  | VStr s :: vs' =>
      and_then (strings_from (i + 1) vs') (fun rest => Returned (s :: rest))
  | v :: _ =>
      Raised (Exn "TypeError"
                  ("sequence item " +:+ str_int i +:+ ": expected str instance, "
                     +:+ type_name v +:+ " found"))
  end.

(** [sep.join(vs)] *)
Definition join_values (sep : string) (vs : list value) : outcome string :=
  and_then (strings_from 0 vs) (fun items => Returned (str_join sep items)).

(** [row.values()] *)
Definition row_values (r : Row) : list value := map snd r.

(** [enumerate(xs)] *)
Definition enumerate {A} (xs : list A) : list (Z * A) :=
  imap (fun i x => (Z.of_nat i, x)) xs.

(** ** The world outside the process *)

(** The warehouse and the wall clock: a state machine that answers each
    submitted statement with its result rows or with an exception, and
    tells the time. *)
Record World : Type := {
  w_state : Type;
  w_query : string -> w_state -> outcome (list Row) * w_state;
  w_utcnow : w_state -> string * w_state
}.

(** One interaction with the warehouse: the statement text and whether
    the job completed. *)
Inductive event : Type := Submitted (sql : string) (ok : bool).

Definition event_sql (e : event) : string := let 'Submitted s _ := e in s.
Definition event_ok (e : event) : bool := let 'Submitted _ b := e in b.

(** The state of the service process. *)
Record State (W : World) : Type := mkState {
  world : w_state W;
  trace : list event;           (* statements submitted so far, oldest first *)
  stdout : list string;         (* lines printed so far, oldest first *)
  logged : list (string * string) (* logging records: level, message *)
}.
Arguments mkState {W} _ _ _ _.
Arguments world {W} _.
Arguments trace {W} _.
Arguments stdout {W} _.
Arguments logged {W} _.

#[global] Instance State_console (W : World) : Console (State W) :=
  fun line s => mkState (world s) (trace s) (stdout s ++ [line]) (logged s).

(** [bq.query(sql).result()]: submit the statement and wait for it. *)
Definition bq_query {W : World} (sql : string) : M (State W) (list Row) :=
  fun s =>
    match w_query W sql (world s) with
    | (Returned rows, w') =>
        (Returned rows,
         mkState w' (trace s ++ [Submitted sql true]) (stdout s) (logged s))
    | (Raised e, w') =>
        (Raised e,
         mkState w' (trace s ++ [Submitted sql false]) (stdout s) (logged s))
    end.

Definition utcnow_isoformat {W : World} : M (State W) string :=
  fun s =>
    let '(t, w') := w_utcnow W (world s) in
    (Returned t, mkState w' (trace s) (stdout s) (logged s)).

Definition logger_record {W : World} (level msg : string) : M (State W) unit :=
  fun s =>
    (Returned tt,
     mkState (world s) (trace s) (stdout s) (logged s ++ [(level, msg)])).

(** What [io.StringIO.getvalue()] gives after the lines were printed to
    it: every line followed by a newline. *)
Definition getvalue (lines : list string) : string :=
  String.concat EmptyString (map (fun line => line +:+ nl) lines).

(** [with redirect_stdout(buffer): c], followed by [buffer.getvalue()]:
    what [c] prints goes to the buffer and the standard output is put
    back afterwards, also when [c] raises. *)
Definition redirect_stdout {W : World} {A} (c : M (State W) A)
  : M (State W) (A * string) :=
  fun s =>
    let '(o, s') := c (mkState (world s) (trace s) [] (logged s)) in
    (match o with
     | Returned a => Returned (a, getvalue (stdout s'))
     | Raised e => Raised e
     end,
     mkState (world s') (trace s') (stdout s) (logged s')).

(** ** The host: environment variables, files and client libraries *)

(** The [project] argument of a client constructor: left out, or given
    (possibly as [None]). *)
Inductive project_arg : Type :=
| ProjectOmitted
| ProjectGiven (project : option string).

(** What a Google client library offers to credential resolution.  Each
    call may raise.  [new_default] is [Client()], which looks for
    application default credentials under the current environment;
    [new_explicit] is [Client(credentials=..., project=...)]. *)
Record ClientLibrary : Type := {
  client : Type;
  cred_info : Type;
  credentials : Type;
  new_default : gmap string string -> outcome client;
  new_explicit : credentials -> project_arg -> outcome client;
  json_loads : string -> outcome cred_info;
  from_service_account_info : cred_info -> outcome credentials;
  info_get : cred_info -> string -> outcome (option string)
}.

(** The part of the process that credential resolution reads and
    writes: [os.environ] and the standard output. *)
Record Host : Type := mkHost {
  environ : gmap string string;
  console : list string
}.

#[global] Instance Host_console : Console Host :=
  fun line h => mkHost (environ h) (console h ++ [line]).

(** [os.getenv(name)] *)
Definition os_getenv (name : string) : M Host (option string) :=
  fun h => (Returned (environ h !! name), h).

(** [os.environ[name] = value] *)
Definition os_environ_set (name value : string) : M Host unit :=
  fun h => (Returned tt, mkHost (<[name := value]> (environ h)) (console h)).

(** The truth value of a string or [None]. *)
Definition truthy (o : option string) : bool :=
  match o with
  | Some (String _ _) => true
  | _ => false
  end.

Section Resolution.
Variable L : ClientLibrary.
(** [os.path.exists] *)
Variable path_exists : string -> bool.

Definition client_default : M Host (client L) :=
  fun h => (new_default L (environ h), h).

(** [for path in paths: if path and os.path.exists(path): ... return
    Client()], followed by [otherwise] when the loop runs out. *)
Fixpoint scan_paths (paths : list (option string))
    (otherwise : M Host (client L)) : M Host (client L) :=
  match paths with
  | [] => otherwise
  | path :: rest =>
      match path with
      | Some p =>
          if (truthy path && path_exists p)%bool
          then
            print ("✅ Credenciales encontradas: " +:+ p) ;;;
            os_environ_set "GOOGLE_APPLICATION_CREDENTIALS" p ;;;
            client_default
          else scan_paths rest otherwise
      | None => scan_paths rest otherwise
      end
  end.

(** The candidate paths, in the order both modules list them. *)
Definition candidate_paths : M Host (list (option string)) :=
  from_env <- os_getenv "GOOGLE_APPLICATION_CREDENTIALS" ;;
  ret [ Some "service-account-key.json";
        Some "./service-account-key.json";
        from_env ].
End Resolution.

(** * [etl_medallion.py]: the medallion pipeline *)

Module etl_medallion.
Section Credentials.
Variable L : ClientLibrary.
Variable path_exists : string -> bool.

Definition setup_gcp_credentials : M Host (client L) :=
  try_except
    (marker <- os_getenv "K_SERVICE" ;;
     if truthy marker
     then
       print "🚀 Cloud Run - usando credenciales automáticas" ;;;
       client_default L
     else
       paths <- candidate_paths ;;
       scan_paths L path_exists paths
         (cred_json <- os_getenv "GOOGLE_CREDENTIALS_JSON" ;;
          match cred_json with
          | Some blob =>
              if truthy cred_json
              then
                print "✅ Credenciales desde variable de entorno" ;;;
                info <- lift (json_loads L blob) ;;
                creds <- lift (from_service_account_info L info) ;;
                project_id <- lift (info_get L info "project_id") ;;
                lift (new_explicit L creds (ProjectGiven project_id))
              else raise (Exn "Exception" "No se encontraron credenciales")
          | None => raise (Exn "Exception" "No se encontraron credenciales")
          end))
    (fun e =>
       print ("❌ Error configurando credenciales: " +:+ str_exn e) ;;;
       print "💡 Crear 'service-account-key.json' en raíz del proyecto" ;;;
       raise e).
End Credentials.

Section Pipeline.
Context {W : World}.

(** [PROJECT_ID = os.getenv("PROJECT_ID", ...)] and
    [BUCKET = os.getenv("BUCKET", ...)], fixed at import time. *)
Variables (PROJECT_ID BUCKET : string).

Definition run_query (sql desc : string) : M (State W) bool :=
  try_except
    (bq_query sql ;;;
     print ("✅ " +:+ desc) ;;;
     ret true)
    (fun e =>
       print ("❌ Error en " +:+ desc +:+ ": "
                +:+ str_prefix 100 (str_exn e) +:+ "...") ;;;
       ret false).

Definition bronze_schema_sql : string :=
  "CREATE SCHEMA IF NOT EXISTS `" +:+ PROJECT_ID +:+ ".bronze`".

Definition bronze_tables : list (string * string) :=
  [ ("employees", "gs://" +:+ BUCKET +:+ "/landing/employees.csv");
    ("products", "gs://" +:+ BUCKET +:+ "/landing/products.csv");
    ("sales", "gs://" +:+ BUCKET +:+ "/landing/sales.csv") ].

Definition bronze_load_sql (table gcs_path : string) : string :=
  "
        LOAD DATA OVERWRITE `" +:+ PROJECT_ID +:+ ".bronze." +:+ table +:+ "`
        FROM FILES (
            format = 'CSV',
            uris = ['" +:+ gcs_path +:+ "'],
            skip_leading_rows = 1,
            allow_jagged_rows = false,
            allow_quoted_newlines = false
        )
        ".

Definition bronze_layer : M (State W) bool :=
  print "🥉 Bronze Layer - Cargando datos..." ;;;
  created <- run_query bronze_schema_sql "Dataset bronze" ;;
  if negb created then ret false
  else
    for_each bronze_tables true
      (fun success '(table, gcs_path) =>
         loaded <- run_query (bronze_load_sql table gcs_path)
                             ("Cargando " +:+ table) ;;
         ret (if negb loaded then false else success)).

Definition silver_schema_sql : string :=
  "CREATE SCHEMA IF NOT EXISTS `" +:+ PROJECT_ID +:+ ".silver`".

Definition transformations : list (string * string) :=
  [ ("
        CREATE OR REPLACE TABLE `" +:+ PROJECT_ID +:+ ".silver.employees` AS
        SELECT 
            employee_id,
            TRIM(first_name) as first_name,
            TRIM(last_name) as last_name,
            LOWER(TRIM(email)) as email,
            department,
            salary,
            hire_date
        FROM `" +:+ PROJECT_ID +:+ ".bronze.employees`
        WHERE email IS NOT NULL AND salary > 0
        ", "Limpiando empleados");
    ("
        CREATE OR REPLACE TABLE `" +:+ PROJECT_ID +:+ ".silver.products` AS
        SELECT *
        FROM `" +:+ PROJECT_ID +:+ ".bronze.products`
        WHERE price > 0 AND is_active = true
        ", "Filtrando productos");
    ("
        CREATE OR REPLACE TABLE `" +:+ PROJECT_ID +:+ ".silver.sales` AS
        SELECT *
        FROM `" +:+ PROJECT_ID +:+ ".bronze.sales`
        WHERE quantity > 0 AND total_amount > 0
        ", "Validando ventas") ].

Definition silver_layer : M (State W) bool :=
  print "🥈 Silver Layer - Limpiando datos..." ;;;
  created <- run_query silver_schema_sql "Dataset silver" ;;
  if negb created then ret false
  else
    for_each transformations true
      (fun success '(sql, desc) =>
         done <- run_query sql desc ;;
         ret (if negb done then false else success)).

Definition gold_schema_sql : string :=
  "CREATE SCHEMA IF NOT EXISTS `" +:+ PROJECT_ID +:+ ".gold`".

Definition analytics : list (string * string) :=
  [ ("
        CREATE OR REPLACE TABLE `" +:+ PROJECT_ID +:+ ".gold.sales_analytics` AS
        SELECT 
            s.transaction_id,
            s.sale_date,
            s.quantity,
            s.total_amount,
            p.product_name,
            p.category,
            p.price as unit_price,
            e.first_name || ' ' || e.last_name as sales_rep,
            e.department,
            s.customer_segment,
            s.channel,
            s.region
        FROM `" +:+ PROJECT_ID +:+ ".silver.sales` s
        LEFT JOIN `" +:+ PROJECT_ID +:+ ".silver.products` p ON s.product_id = p.product_id
        LEFT JOIN `" +:+ PROJECT_ID +:+ ".silver.employees` e ON s.sales_rep_id = e.employee_id
        ", "Enriqueciendo ventas");
    ("
        CREATE OR REPLACE TABLE `" +:+ PROJECT_ID +:+ ".gold.product_metrics` AS
        SELECT 
            p.product_id,
            p.product_name,
            p.category,
            COUNT(s.transaction_id) as total_sales,
            SUM(s.quantity) as total_quantity_sold,
            SUM(s.total_amount) as total_revenue,
            ROUND(AVG(s.total_amount), 2) as avg_sale_amount
        FROM `" +:+ PROJECT_ID +:+ ".silver.products` p
        LEFT JOIN `" +:+ PROJECT_ID +:+ ".silver.sales` s ON p.product_id = s.product_id
        GROUP BY p.product_id, p.product_name, p.category
        ORDER BY total_revenue DESC
        ", "Métricas de productos");
    ("
        CREATE OR REPLACE TABLE `" +:+ PROJECT_ID +:+ ".gold.sales_summary` AS
        SELECT 
            EXTRACT(YEAR FROM sale_date) as year,
            EXTRACT(MONTH FROM sale_date) as month,
            channel,
            region,
            COUNT(*) as total_transactions,
            SUM(total_amount) as total_revenue,
            ROUND(AVG(total_amount), 2) as avg_transaction_value
        FROM `" +:+ PROJECT_ID +:+ ".silver.sales`
        GROUP BY year, month, channel, region
        ORDER BY year DESC, month DESC, total_revenue DESC
        ", "Resumen mensual") ].

Definition gold_layer : M (State W) bool :=
  print "🥇 Gold Layer - Creando métricas..." ;;;
  created <- run_query gold_schema_sql "Dataset gold" ;;
  if negb created then ret false
  else
    for_each analytics true
      (fun success '(sql, desc) =>
         done <- run_query sql desc ;;
         ret (if negb done then false else success)).

Definition tables_query (dataset : string) : string :=
  "
            SELECT table_name
            FROM `" +:+ PROJECT_ID +:+ "." +:+ dataset +:+ ".INFORMATION_SCHEMA.TABLES`
            WHERE table_type = 'BASE TABLE'
            ORDER BY table_name
            ".

Definition count_query (dataset : string) (table_name : value) : string :=
  "SELECT COUNT(*) as row_count FROM `" +:+ PROJECT_ID +:+ "." +:+ dataset +:+ "." +:+ format_value table_name +:+ "`".

(** The body of [for table_row in tables] in [verify_results]. *)
Definition verify_table (dataset : string) (table_row : Row) : M (State W) unit :=
  table_name <- lift (getattr_row table_row "table_name") ;;
  try_except
    (rows <- bq_query (count_query dataset table_name) ;;
     count_result <- lift (first_item rows) ;;
     row_count <- lift (getattr_row count_result "row_count") ;;
     shown <- lift (format_value_comma row_count) ;;
     print ("   ✅ " +:+ format_value table_name +:+ ": " +:+ shown +:+ " filas"))
    (fun count_error =>
       print ("   ⚠️ " +:+ format_value table_name +:+ ": Error contando filas")).

Definition verify_results : M (State W) unit :=
  print (nl +:+ "🔍 Verificando resultados...") ;;;
  for_each ["bronze"; "silver"; "gold"] tt
    (fun _ dataset =>
       try_except
         (tables <- bq_query (tables_query dataset) ;;
          match tables with
          | _ :: _ =>
              print ("📊 " +:+ upper dataset +:+ ":") ;;;
              for_each tables tt (fun _ table_row => verify_table dataset table_row)
          | [] => print ("❌ " +:+ upper dataset +:+ ": Sin tablas")
          end)
         (fun e =>
            print ("❌ Error verificando " +:+ dataset +:+ ": "
                     +:+ str_prefix 50 (str_exn e) +:+ "..."))).

Definition layers : list (string * M (State W) bool) :=
  [ ("Bronze", bronze_layer); ("Silver", silver_layer); ("Gold", gold_layer) ].

(** The [for ... in layers] loop of [run_etl], which leaves at the first
    layer that reports failure; the result is [overall_success]. *)
Fixpoint run_layers (ls : list (string * M (State W) bool)) : M (State W) bool :=
  match ls with
  | [] => ret true
  | (layer_name, layer_func) :: rest =>
      success <- layer_func ;;
      if negb success
      then print ("❌ " +:+ layer_name +:+ " Layer falló - Pipeline detenido") ;;; ret false
      else print "" ;;; run_layers rest
  end.

Definition rule50 : string := "==================================================".

(** [run_etl] has no [return] statement: its value is [None]. *)
Definition run_etl : M (State W) unit :=
  print "🚀 Pipeline ETL Medallion - Iniciando..." ;;;
  print rule50 ;;;
  overall_success <- run_layers layers ;;
  if overall_success
  then
    verify_results ;;;
    print (nl +:+ rule50) ;;;
    print "🎉 Pipeline ETL completado exitosamente!" ;;;
    print ("🔗 BigQuery: https://console.cloud.google.com/bigquery?project=" +:+ PROJECT_ID) ;;;
    print (nl +:+ "📋 Tablas creadas:") ;;;
    print "   🥉 bronze: employees, products, sales" ;;;
    print "   🥈 silver: employees, products, sales (limpios)" ;;;
    print "   🥇 gold: sales_analytics, product_metrics, sales_summary" ;;;
    print (nl +:+ "💡 Para verificación detallada, ejecuta: verify_results_detailed()")
  else
    print (nl +:+ "❌ Pipeline falló. Revisa los errores anteriores.") ;;;
    print "💡 Consejos:" ;;;
    print "   - Verifica que los archivos CSV estén en GCS" ;;;
    print "   - Revisa permisos de BigQuery" ;;;
    print "   - Confirma que el proyecto ID sea correcto".

Definition columns_query (dataset table : string) : string :=
  "
                    SELECT column_name
                    FROM `" +:+ PROJECT_ID +:+ "." +:+ dataset +:+ ".INFORMATION_SCHEMA.COLUMNS`
                    WHERE table_name = '" +:+ table +:+ "'
                    ORDER BY ordinal_position
                    LIMIT 5
                    ".

(** The body of [for table in expected_tables] in
    [verify_results_detailed]. *)
Definition verify_expected_table (dataset table : string) : M (State W) unit :=
  try_except
    (rows <- bq_query (count_query dataset (VStr table)) ;;
     count_result <- lift (first_item rows) ;;
     row_count <- lift (getattr_row count_result "row_count") ;;
     described <- bq_query (columns_query dataset table) ;;
     columns <- lift (map_outcome (fun col => getattr_row col "column_name")
                                  described) ;;
     shown <- lift (format_value_comma row_count) ;;
     names <- lift (join_values ", " (take 3 columns)) ;;
     print ("   ✅ " +:+ table +:+ ": " +:+ shown +:+ " filas | Columnas: "
              +:+ names
              +:+ (if (3 <? length columns)%nat then "..." else "")))
    (fun table_error =>
       print ("   ❌ " +:+ table +:+ ": Tabla no encontrada o error")).

Definition expected_datasets : list (string * list string) :=
  [ ("bronze", ["employees"; "products"; "sales"]);
    ("silver", ["employees"; "products"; "sales"]);
    ("gold", ["sales_analytics"; "product_metrics"; "sales_summary"]) ].

Definition verify_results_detailed : M (State W) unit :=
  print (nl +:+ "🔍 Verificación detallada de resultados...") ;;;
  for_each expected_datasets tt
    (fun _ '(dataset, expected_tables) =>
       print (nl +:+ "📊 " +:+ upper dataset +:+ " DATASET:") ;;;
       try_except
         (for_each expected_tables tt
            (fun _ table => verify_expected_table dataset table))
         (fun e =>
            print ("   ❌ Error verificando dataset " +:+ dataset +:+ ": "
                     +:+ str_prefix 50 (str_exn e) +:+ "..."))).

Definition sample_queries : list (string * string) :=
  [ ("Top 5 Productos por Revenue", "
        SELECT product_name, category, total_revenue, total_quantity_sold
        FROM `" +:+ PROJECT_ID +:+ ".gold.product_metrics`
        ORDER BY total_revenue DESC
        LIMIT 5
        ");
    ("Resumen por Canal", "
        SELECT channel, 
               SUM(total_revenue) as total_revenue,
               SUM(total_transactions) as total_transactions,
               ROUND(AVG(avg_transaction_value), 2) as avg_value
        FROM `" +:+ PROJECT_ID +:+ ".gold.sales_summary`
        GROUP BY channel
        ORDER BY total_revenue DESC
        ");
    ("Ventas por Departamento", "
        SELECT department, 
               COUNT(*) as total_sales,
               ROUND(SUM(total_amount), 2) as total_revenue
        FROM `" +:+ PROJECT_ID +:+ ".gold.sales_analytics`
        WHERE department IS NOT NULL
        GROUP BY department
        ORDER BY total_revenue DESC
        LIMIT 5
        ") ].

(** The body of [for title, query in sample_queries] in
    [show_sample_data]. *)
Definition show_sample (title query : string) : M (State W) unit :=
  try_except
    (print (nl +:+ "🔹 " +:+ title +:+ ":") ;;;
     results <- bq_query query ;;
     match results with
     | _ :: _ =>
         for_each (enumerate (take 3 results)) tt
           (fun _ '(i, row) =>
              let row_data := map format_value (row_values row) in
              print ("   " +:+ str_int (i + 1) +:+ ". "
                       +:+ str_join " | " row_data)) ;;;
         if (3 <? length results)%nat
         then print ("   ... y " +:+ str_int (Z.of_nat (length results) - 3)
                       +:+ " más")
         else ret tt
     | [] => print "   Sin datos"
     end)
    (fun e => print ("   ❌ Error: " +:+ str_prefix 50 (str_exn e) +:+ "...")).

Definition show_sample_data : M (State W) unit :=
  print (nl +:+ "📊 Datos de ejemplo:") ;;;
  for_each sample_queries tt
    (fun _ '(title, query) => show_sample title query).

End Pipeline.
End etl_medallion.

(** * [main.py]: the HTTP facade *)

(** The parsed JSON body of a request; the handler uses only its truth
    value ([data or {}]) and its text in a log line. *)
Record JsonBody : Type := {
  body_truthy : bool;
  body_repr : string
}.

Definition empty_dict : JsonBody := {| body_truthy := false; body_repr := "{}" |}.

(** The incoming request: what [request.get_json()] does, which is to
    return the parsed body, return [None], or raise. *)
Record Request : Type := {
  get_json : outcome (option JsonBody)
}.

Inductive json : Type :=
| JString (s : string)
| JList (items : list string).

(** A Flask response: the JSON object and the HTTP status code. *)
Definition Response : Type := (list (string * json) * Z)%type.

Definition status_code (r : Response) : Z := snd r.
Definition body_field (name : string) (r : Response) : option json :=
  snd <$> List.find (fun kv => String.eqb (fst kv) name) (fst r).

Module main.
Section Facade.
Context {W : World}.
Variables (PROJECT_ID BUCKET : string).

Definition trigger_etl_endpoint (request : Request) : M (State W) Response :=
  try_except
    (logger_record "INFO" "🚀 Iniciando ETL Pipeline via HTTP request" ;;;
     parsed <- lift (get_json request) ;;
     let data :=
       match parsed with
       | Some body => if body_truthy body then body else empty_dict
       | None => empty_dict
       end in
     logger_record "INFO" ("Parámetros recibidos: " +:+ body_repr data) ;;;
     etl_medallion.run_etl PROJECT_ID BUCKET ;;;
     now <- utcnow_isoformat ;;
     let response :=
       [ ("status", JString "success");
         ("message", JString "ETL pipeline completed successfully");
         ("timestamp", JString now);
         ("layers_processed", JList ["bronze"; "silver"; "gold"]) ] in
     logger_record "INFO" "✅ ETL Pipeline completado exitosamente" ;;;
     ret (response, 200))
    (fun e =>
       logger_record "ERROR" ("❌ Error en ETL Pipeline: " +:+ str_exn e) ;;;
       now <- utcnow_isoformat ;;
       let error_response :=
         [ ("status", JString "error");
           ("message", JString (str_exn e));
           ("timestamp", JString now);
           ("suggestion", JString "Verifica logs de BigQuery y permisos de GCS") ] in
       ret (error_response, 500)).

Definition health_check : M (State W) Response :=
  now <- utcnow_isoformat ;;
  ret ([ ("status", JString "healthy");
         ("timestamp", JString now);
         ("service", JString "etl-pipeline");
         ("endpoints", JList ["/trigger-etl"; "/verify-results"; "/sample-data"]) ],
       200).

Definition verify_results_endpoint : M (State W) Response :=
  try_except
    (logger_record "INFO" "🔍 Verificando resultados del ETL" ;;;
     captured <- redirect_stdout (etl_medallion.verify_results_detailed PROJECT_ID) ;;
     let verification_output := snd captured in
     now <- utcnow_isoformat ;;
     let response :=
       [ ("status", JString "success");
         ("message", JString "Verification completed");
         ("timestamp", JString now);
         ("verification_details", JString verification_output) ] in
     ret (response, 200))
    (fun e =>
       logger_record "ERROR" ("❌ Error en verificación: " +:+ str_exn e) ;;;
       now <- utcnow_isoformat ;;
       ret ([ ("status", JString "error");
              ("message", JString (str_exn e));
              ("timestamp", JString now) ],
            500)).

Definition sample_data_endpoint : M (State W) Response :=
  try_except
    (logger_record "INFO" "📊 Obteniendo datos de ejemplo" ;;;
     captured <- redirect_stdout (etl_medallion.show_sample_data PROJECT_ID) ;;
     let sample_output := snd captured in
     now <- utcnow_isoformat ;;
     let response :=
       [ ("status", JString "success");
         ("message", JString "Sample data retrieved");
         ("timestamp", JString now);
         ("sample_data", JString sample_output) ] in
     ret (response, 200))
    (fun e =>
       logger_record "ERROR" ("❌ Error obteniendo datos de ejemplo: " +:+ str_exn e) ;;;
       now <- utcnow_isoformat ;;
       ret ([ ("status", JString "error");
              ("message", JString (str_exn e));
              ("timestamp", JString now) ],
            500)).

End Facade.
End main.

(** * Naming the stages and their statement lists *)

Inductive stage : Type := Bronze | Silver | Gold.

Section Stages.
Context {W : World}.
Variables (PROJECT_ID BUCKET : string).

Definition stage_run (g : stage) : M (State W) bool :=
  match g with
  | Bronze => etl_medallion.bronze_layer PROJECT_ID BUCKET
  | Silver => etl_medallion.silver_layer PROJECT_ID
  | Gold => etl_medallion.gold_layer PROJECT_ID
  end.

(** The statement that creates the stage's schema, submitted first. *)
Definition stage_schema (g : stage) : string :=
  match g with
  | Bronze => etl_medallion.bronze_schema_sql PROJECT_ID
  | Silver => etl_medallion.silver_schema_sql PROJECT_ID
  | Gold => etl_medallion.gold_schema_sql PROJECT_ID
  end.

(** The three table statements submitted after it. *)
Definition stage_tables (g : stage) : list string :=
  match g with
  | Bronze =>
      map (fun tg => etl_medallion.bronze_load_sql PROJECT_ID (fst tg) (snd tg))
          (etl_medallion.bronze_tables BUCKET)
  | Silver => map fst (etl_medallion.transformations PROJECT_ID)
  | Gold => map fst (etl_medallion.analytics PROJECT_ID)
  end.

Definition stage_statements (g : stage) : list string :=
  stage_schema g :: stage_tables g.
End Stages.

(** No statement follows a failed one. *)
Definition aborts_at_first_failure (evs : list event) : Prop :=
  forall pre e post, evs = pre ++ e :: post -> event_ok e = false -> post = [].

(** ** Concrete worlds *)

(** A warehouse that answers from a script, one entry per submitted
    statement, and then with empty results. *)
Definition scripted : World := {|
  w_state := list (outcome (list Row));
  w_query := fun _ script =>
    match script with
    | answer :: rest => (answer, rest)
    | [] => (Returned [], [])
    end;
  w_utcnow := fun script => ("2025-01-01T00:00:00", script)
|}.

Definition start (script : list (outcome (list Row))) : State scripted :=
  mkState (script : w_state scripted) [] [] [].

Definition quota_error : exn := Exn "Forbidden" "403 Quota exceeded".

(** The defaults of [PROJECT_ID] and [BUCKET]. *)
Definition default_project : string := "data-engineer-gcp-469614".
Definition default_bucket : string := "raw-data-etl-lab".

(** A run in which the first table statement of the silver stage fails. *)
Definition silver_fails : State scripted :=
  start (repeat (Returned []) 5 ++ [Raised quota_error]).

(** The event of that failure. *)
Definition silver_failure : event :=
  Submitted (nth 1 (stage_statements default_project default_bucket Silver) "")
            false.

(** A run in which the first statement submitted fails. *)
Definition bronze_fails : State scripted := start [Raised quota_error].

(** A request whose body is the JSON document [{}], sent as
    [application/json]: [get_json] returns the empty dict. *)
Definition empty_json_body : Request :=
  {| get_json := Returned (Some empty_dict) |}.

(** The events a computation adds to the trace of the state it starts
    from. *)
Definition new_events {W : World} {A} (c : M (State W) A) (st : State W)
  : list event :=
  drop (length (trace st)) (trace (snd (c st))).

(** * [data_generator.py]: the synthetic data generator *)

(** ** Chance: the [random] module, Faker and the clock *)

(** The three Faker instances [fake_us], [fake_es], [fake_mx]. *)
Inductive locale : Type := en_US | es_ES | es_MX.

(** Every call that consults the outside advances a tick; what it gets is
    an arbitrary function of the tick.  A run of the real generators is one
    such oracle, so a property proved for every oracle holds of every
    run.  The date stays the same during a run. *)
Record Chance : Type := {
  raw : nat -> N;                          (* raw output of a generator *)
  provider : locale -> string -> nat -> string; (* a Faker text provider *)
  now_isoformat : nat -> string;           (* [datetime.now().isoformat()] *)
  today : Z                                (* [date.today().toordinal()] *)
}.

(** [round(x)] of an exact value: nearest integer, ties to even. *)
Definition round_half_even (x : Q) : Z :=
  let f := Qfloor x in
  match ((x - inject_Z f) ?= 1 # 2)%Q with
  | Lt => f
  | Gt => f + 1
  | Eq => if Z.even f then f else f + 1
  end.

(** [round(x, ndigits)] *)
Definition py_round (x : Q) (ndigits : nat) : Q :=
  let scale := inject_Z (10 ^ Z.of_nat ndigits) in
  (inject_Z (round_half_even (x * scale)) / scale)%Q.

(** [x > y] *)
Definition Qgtb (x y : Q) : bool := negb (Qle_bool x y).

(** [d[key]] on a dict written as its items. *)
Fixpoint dict_get {V} (d : list (string * V)) (key : string) : outcome V :=
  match d with
  | [] => Raised (Exn "KeyError" ("'" +:+ key +:+ "'"))
  | (k, v) :: d' => if String.eqb k key then Returned v else dict_get d' key
  end.

(** [d.get(key, default)] *)
Definition dict_get_default {V} (d : list (string * V)) (key : string)
    (default : V) : V :=
  match dict_get d key with
  | Returned v => v
  | Raised _ => default
  end.

(** [x in xs] for strings. *)
Definition str_in (x : string) (xs : list string) : bool :=
  existsb (String.eqb x) xs.

(** Running sums, as [itertools.accumulate]. *)
Fixpoint accumulate_from (acc : Z) (ws : list Z) : list Z :=
  match ws with
  | [] => []
  | w :: ws' => (acc + w) :: accumulate_from (acc + w) ws'
  end.
Definition accumulate (ws : list Z) : list Z := accumulate_from 0 ws.

(** [bisect.bisect_right(a, x, 0, hi)] on an ascending list: how many of
    the first [hi] entries are at most [x]. *)
Fixpoint bisect_right (a : list Z) (x : Q) (hi : nat) : nat :=
  match hi, a with
  | S hi', y :: a' =>
      if Qle_bool (inject_Z y) x then S (bisect_right a' x hi') else O
  | _, _ => O
  end.

Section Chances.
Variable C : Chance.

Definition draw : M nat N := fun tick => (Returned (raw C tick), S tick).

(** [random.random()]: a multiple of 2^-53 in [0, 1). *)
Definition random_random : M nat Q :=
  k <- draw ;;
  ret (Z.of_N (k mod 2 ^ 53) # 2 ^ 53)%Q.

(** [random.uniform(a, b)] is [a + (b - a) * random()]. *)
Definition random_uniform (a b : Q) : M nat Q :=
  u <- random_random ;;
  ret (a + (b - a) * u)%Q.

(** [random.choice(seq)] *)
Definition random_choice {A} (seq : list A) : M nat A :=
  match seq with
  | [] => raise (Exn "IndexError" "Cannot choose from an empty sequence")
  | _ :: _ =>
      k <- draw ;;
      match seq !! N.to_nat (k mod N.of_nat (length seq)) with
      | Some x => ret x
      | None => raise (Exn "IndexError" "list index out of range")
      end
  end.

(** [random.randint(a, b)] *)
Definition random_randint (a b : Z) : M nat Z :=
  if b <? a
  then raise (Exn "ValueError" "empty range for randrange()")
  else k <- draw ;; ret (a + Z.of_N k mod (b - a + 1)).

(** [random.choices(population, weights=weights)[0]] *)
Definition random_choices {A} (population : list A) (weights : list Z)
  : M nat A :=
  let cum_weights := accumulate weights in
  if negb (length cum_weights =? length population)%nat
  then raise (Exn "ValueError"
                  "The number of weights does not match the population")
  else
    match last cum_weights with
    | None => raise (Exn "IndexError" "list index out of range")
    | Some total =>
        if total <=? 0
        then raise (Exn "ValueError"
                        "Total of weights must be greater than zero")
        else
          u <- random_random ;;
          let hi := (length population - 1)%nat in
          match population !! bisect_right cum_weights (u * inject_Z total) hi with
          | Some x => ret x
          | None => raise (Exn "IndexError" "list index out of range")
          end
    end.

(** A Faker text provider: [faker.first_name()], [faker.job()], ... *)
Definition fake (l : locale) (name : string) : M nat string :=
  fun tick => (Returned (provider C l name tick), S tick).

Definition datetime_now_isoformat : M nat string :=
  fun tick => (Returned (now_isoformat C tick), S tick).
End Chances.

(** ** Faker's relative dates *)

(** The units of Faker's date strings, in the order its pattern tries
    them, with their symbols: [y] years, [M] months, [w] weeks, [d] days,
    [h] hours, [m] minutes, [s] seconds. *)
Inductive time_unit : Type :=
| Years | Months | Weeks | Days | Hours | Minutes | Seconds.

Definition time_units : list time_unit :=
  [Years; Months; Weeks; Days; Hours; Minutes; Seconds].

Definition unit_symbol (u : time_unit) : ascii :=
  match u with
  | Years => "y" | Months => "M" | Weeks => "w" | Days => "d"
  | Hours => "h" | Minutes => "m" | Seconds => "s"
  end%char.

(** The length of one unit in days; Faker counts a year as 365.24 days and
    a month as 30.42 days. *)
Definition unit_days (u : time_unit) : Q :=
  match u with
  | Years => 365.24
  | Months => 30.42
  | Weeks => 7
  | Days => 1
  | Hours => 1 / 24
  | Minutes => 1 / 1440
  | Seconds => 1 / 86400
  end%Q.

Definition is_digit (c : ascii) : bool :=
  let n := nat_of_ascii c in ((48 <=? n) && (n <=? 57))%nat.

Fixpoint read_digits (s : string) : string * string :=
  match s with
  | String c rest =>
      if is_digit c
      then let '(ds, after) := read_digits rest in (String c ds, after)
      else (EmptyString, s)
  | EmptyString => (EmptyString, EmptyString)
  end.

Definition digits_value (ds : string) : Z :=
  match NilEmpty.uint_of_string ds with
  | Some u => Z.of_uint u
  | None => 0
  end.

(** One group of the pattern: a sign, digits and the unit's symbol. *)
Definition read_component (u : time_unit) (s : string) : option (Z * string) :=
  match s with
  | String sign rest =>
      if (Ascii.eqb sign "+" || Ascii.eqb sign "-")%bool
      then
        match read_digits rest with
        | (String d ds, String sym after) =>
            if Ascii.eqb sym (unit_symbol u)
            then
              let n := digits_value (String d ds) in
              Some (if Ascii.eqb sign "-" then - n else n, after)
            else None
        | _ => None
        end
      else None
  | EmptyString => None
  end.

(** The groups are optional and tried in order on what is left. *)
Fixpoint read_components (units : list time_unit) (s : string)
  : list (time_unit * Z) :=
  match units with
  | [] => []
  | u :: units' =>
      match read_component u s with
      | Some (n, after) => (u, n) :: read_components units' after
      | None => read_components units' s
      end
  end.

(** The number of days a parsed offset moves a date: a date plus a
    [timedelta] moves by the whole days of the [timedelta], rounded down. *)
Definition offset_days (params : list (time_unit * Z)) : Z :=
  Qfloor (fold_right (fun p acc => (unit_days (fst p) * inject_Z (snd p) + acc)%Q)
                     0%Q params).

(** An argument of [date_between]: a string or a date. *)
Inductive date_arg : Type :=
| DateString (s : string)
| DateValue (ordinal : Z).

(** Faker's [_parse_date]. *)
Definition parse_date (today : Z) (a : date_arg) : outcome Z :=
  match a with
  | DateValue d => Returned d
  | DateString s =>
      if (String.eqb s "today" || String.eqb s "now")%bool then Returned today
      else
        match read_components time_units s with
        | [] => Raised (Exn "ParseError" ("Can't parse date string `" +:+ s +:+ "`"))
        | params => Returned (today + offset_days params)
        end
  end.

Section Dates.
Variable C : Chance.

(** [faker.date_between(start_date, end_date)]: a date between the two
    ends, both included, whichever way round they are. *)
Definition date_between (l : locale) (start_date end_date : date_arg)
  : M nat Z :=
  s <- lift (parse_date (today C) start_date) ;;
  e <- lift (parse_date (today C) end_date) ;;
  k <- draw C ;;
  ret (Z.min s e + Z.of_N k mod (Z.max s e - Z.min s e + 1)).
End Dates.

(** ** Records *)

(** Dates are kept as proleptic Gregorian ordinals; the source stores
    their ISO rendering, which is one-to-one with the ordinal. *)
Record Employee : Type := {
  employee_id : string;
  first_name : string;
  last_name : string;
  full_name : string;
  email : string;
  department : string;
  job_title : string;
  job_level : string;
  location : string;
  hire_date : Z;
  last_promotion_date : option Z;
  salary : Q;
  phone : string;
  manager_id : option string;
  performance_rating : Q;
  is_active : bool;
  work_type : string;
  created_at : string
}.

Record Product : Type := {
  product_id : string;
  product_name : string;
  category : string;
  subcategory : string;
  price : Q;
  cost : Q;
  supplier : string;
  launch_date : Z;
  product_is_active : bool;
  stock_quantity : Z;
  weight_kg : Q;
  rating : Q;
  reviews_count : Z;
  product_created_at : string
}.

Record Sale : Type := {
  transaction_id : string;
  sale_product_id : string;
  sale_product_name : string;
  sale_category : string;
  customer_name : string;
  customer_email : string;
  customer_segment : string;
  sales_rep_id : option string;
  sale_date : Z;
  quantity : Z;
  unit_price : Q;
  discount_pct : Z;
  final_unit_price : Q;
  total_amount : Q;
  channel : string;
  region : string;
  payment_method : string;
  shipping_cost : Q;
  status : string;
  sale_created_at : string
}.

(** The keys of a record, in the order of its dict display:
    [data[0].keys()]. *)
Class Keys (R : Type) := keys : list string.

#[global] Instance Employee_keys : Keys Employee :=
  [ "employee_id"; "first_name"; "last_name"; "full_name"; "email";
    "department"; "job_title"; "job_level"; "location"; "hire_date";
    "last_promotion_date"; "salary"; "phone"; "manager_id";
    "performance_rating"; "is_active"; "work_type"; "created_at" ].

#[global] Instance Product_keys : Keys Product :=
  [ "product_id"; "product_name"; "category"; "subcategory"; "price"; "cost";
    "supplier"; "launch_date"; "is_active"; "stock_quantity"; "weight_kg";
    "rating"; "reviews_count"; "created_at" ].

#[global] Instance Sale_keys : Keys Sale :=
  [ "transaction_id"; "product_id"; "product_name"; "category";
    "customer_name"; "customer_email"; "customer_segment"; "sales_rep_id";
    "sale_date"; "quantity"; "unit_price"; "discount_pct";
    "final_unit_price"; "total_amount"; "channel"; "region";
    "payment_method"; "shipping_cost"; "status"; "created_at" ].

(** ** The local disk and the bucket *)

(** Writing a CSV file and uploading a file are calls to the outside, which
    answers each with success or an exception.  Of a file written the model
    keeps its name, its header and the number of its records, not its
    text. *)
Record Storage (L : ClientLibrary) : Type := {
  s_state : Type;
  s_write_csv : string -> list string -> nat -> s_state -> outcome unit * s_state;
  s_upload : client L -> string -> string -> string -> s_state
             -> outcome unit * s_state
}.
Arguments s_state {L} _.
Arguments s_write_csv {L} _ _ _ _ _.
Arguments s_upload {L} _ _ _ _ _ _.

(** One call to the outside, with whether it succeeded. *)
Inductive effect : Type :=
| Wrote (filename : string) (fieldnames : list string) (records : nat) (ok : bool)
| Uploaded (bucket_name source_file destination_blob : string) (ok : bool).

(** The state of the generator process. *)
Record Job {L : ClientLibrary} (S : Storage L) : Type := mkJob {
  host : Host;            (* the environment and the standard output *)
  tick : nat;             (* the position in the oracle of chance *)
  store : s_state S;      (* the disk and the bucket *)
  effects : list effect   (* the calls made so far, oldest first *)
}.
Arguments mkJob {L S} _ _ _ _.
Arguments host {L S} _.
Arguments tick {L S} _.
Arguments store {L S} _.
Arguments effects {L S} _.

#[global] Instance Job_console {L : ClientLibrary} (S : Storage L)
  : Console (Job S) :=
  fun line j => mkJob (put_line line (host j)) (tick j) (store j) (effects j).

(** A computation on the host, and one on the oracle of chance, run inside
    the job. *)
Definition on_host {L : ClientLibrary} {S : Storage L} {A} (c : M Host A)
  : M (Job S) A :=
  fun j => let '(o, h) := c (host j) in
           (o, mkJob h (tick j) (store j) (effects j)).

Definition on_chance {L : ClientLibrary} {S : Storage L} {A} (c : M nat A)
  : M (Job S) A :=
  fun j => let '(o, t) := c (tick j) in
           (o, mkJob (host j) t (store j) (effects j)).

(** [with open(filename, 'w') ...: writer.writeheader();
    writer.writerows(data)] *)
Definition write_csv {L : ClientLibrary} {S : Storage L}
    (filename : string) (fieldnames : list string) (records : nat)
  : M (Job S) unit :=
  fun j =>
    let '(o, st) := s_write_csv S filename fieldnames records (store j) in
    (o, mkJob (host j) (tick j) st
              (effects j ++ [Wrote filename fieldnames records
                                   (match o with Returned _ => true | Raised _ => false end)])).

(** [client.bucket(bucket_name).blob(destination_blob)
    .upload_from_filename(source_file)] *)
Definition upload_blob {L : ClientLibrary} {S : Storage L} (c : client L)
    (bucket_name source_file destination_blob : string) : M (Job S) unit :=
  fun j =>
    let '(o, st) := s_upload S c bucket_name source_file destination_blob (store j) in
    (o, mkJob (host j) (tick j) st
              (effects j ++ [Uploaded bucket_name source_file destination_blob
                                      (match o with Returned _ => true | Raised _ => false end)])).

(** The module's dictionary [CONFIG]. *)
Record Config : Type := {
  num_employees : Z;
  num_sales : Z;
  num_products : Z;
  bucket_name : string;
  project_id : string
}.

Module data_generator.

Definition DEPARTMENTS : list string :=
  [ "Engineering"; "Data Science"; "Product Management"; "Marketing";
    "Sales"; "Customer Success"; "Human Resources"; "Finance";
    "Operations"; "Legal"; "Security"; "DevOps" ].

Definition JOB_LEVELS : list string :=
  [ "Junior"; "Mid-Level"; "Senior"; "Lead"; "Manager"; "Director"; "VP" ].

Definition OFFICE_LOCATIONS : list string :=
  [ "San Francisco, CA"; "New York, NY"; "Austin, TX"; "Seattle, WA";
    "Madrid, Spain"; "Mexico City, Mexico"; "Remote"; "London, UK" ].

Definition SALES_CHANNELS : list string :=
  [ "Online"; "Retail Store"; "Partner"; "Direct Sales"; "Mobile App" ].

Definition CUSTOMER_SEGMENTS : list string :=
  [ "Enterprise"; "SMB"; "Individual"; "Government"; "Education" ].

(** The bounds handed to [random.uniform] for each job level. *)
Definition base_salary_ranges : list (string * (Q * Q)) :=
  [ ("Junior", (50000, 70000));
    ("Mid-Level", (70000, 95000));
    ("Senior", (95000, 130000));
    ("Lead", (120000, 160000));
    ("Manager", (140000, 180000));
    ("Director", (170000, 220000));
    ("VP", (200000, 350000)) ]%Q.

Definition tech_departments : list string :=
  [ "Engineering"; "Data Science"; "DevOps" ].

Definition dept_multiplier (department : string) : Q :=
  if str_in department tech_departments then 1.3%Q else 1.0%Q.

Section Credentials.
Variable L : ClientLibrary.
Variable path_exists : string -> bool.

Definition setup_gcp_credentials : M Host (client L) :=
  try_except
    (marker <- os_getenv "K_SERVICE" ;;
     if truthy marker
     then
       print "🚀 Ejecutando en Cloud Run - usando credenciales automáticas" ;;;
       client_default L
     else
       credential_paths <- candidate_paths ;;
       scan_paths L path_exists credential_paths
         (cred_json <- os_getenv "GOOGLE_CREDENTIALS_JSON" ;;
          match cred_json with
          | Some blob =>
              if truthy cred_json
              then
                info <- lift (json_loads L blob) ;;
                creds <- lift (from_service_account_info L info) ;;
                print "✅ Credenciales cargadas desde variable de entorno" ;;;
                lift (new_explicit L creds ProjectOmitted)
              else raise (Exn "Exception" "No se encontraron credenciales")
          | None => raise (Exn "Exception" "No se encontraron credenciales")
          end))
    (fun e =>
       print ("❌ Error configurando credenciales: " +:+ str_exn e) ;;;
       print "💡 Verifica que existe 'service-account-key.json' en tu proyecto" ;;;
       raise e).
End Credentials.

Definition PRODUCT_CATEGORIES : list string :=
  [ "Electronics"; "Software"; "Books"; "Home & Garden"; "Sports";
    "Fashion"; "Automotive"; "Health"; "Beauty"; "Food & Beverage" ].

Definition price_ranges : list (string * (Q * Q)) :=
  [ ("Electronics", (50, 2000));
    ("Software", (10, 500));
    ("Books", (5, 50));
    ("Home & Garden", (15, 300));
    ("Sports", (20, 400));
    ("Fashion", (25, 200));
    ("Automotive", (100, 5000));
    ("Health", (10, 150));
    ("Beauty", (8, 100));
    ("Food & Beverage", (3, 80)) ]%Q.

Definition CONFIG : Config := {|
  num_employees := 2500;
  num_sales := 5000;
  num_products := 150;
  bucket_name := "raw-data-etl-lab";
  project_id := "data-engineer-gcp-469614"
|}.

Section Generator.
Variable C : Chance.

(** The dict display [base_salary = {...}]: one draw per level, in
    order. *)
Fixpoint draw_base_salary (ranges : list (string * (Q * Q)))
  : M nat (list (string * Q)) :=
  match ranges with
  | [] => ret []
  | (level, (lo, hi)) :: ranges' =>
      x <- random_uniform C lo hi ;;
      rest <- draw_base_salary ranges' ;;
      ret ((level, x) :: rest)
  end.

(** The body of the loop of [generate_employees]. *)
Definition new_employee (emp_id : Z) : M nat Employee :=
  faker <- random_choice C [en_US; es_ES; es_MX] ;;
  first_name <- fake C faker "first_name" ;;
  last_name <- fake C faker "last_name" ;;
  department <- random_choice C DEPARTMENTS ;;
  job_level <- random_choice C JOB_LEVELS ;;
  location <- random_choice C OFFICE_LOCATIONS ;;
  base_salary <- draw_base_salary base_salary_ranges ;;
  base <- lift (dict_get base_salary job_level) ;;
  let salary := py_round (base * dept_multiplier department) 2 in
  hire_date <- date_between C faker (DateString "-8y") (DateString "-1m") ;;
  keep <- random_random C ;;
  last_promotion <-
    (if Qgtb keep 0.3
     then d <- date_between C faker (DateValue hire_date) (DateString "today") ;;
          ret (Some d)
     else ret None) ;;
  job <- fake C faker "job" ;;
  phone <- fake C faker "phone_number" ;;
  manager_id <-
    (if 1 <? emp_id
     then
       p <- random_random C ;;
       if Qgtb p 0.1
       then m <- random_randint C 1 (Z.max 1 (emp_id - 1)) ;;
            ret (Some ("EMP-" +:+ format_0d 5 m))
       else ret None
     else ret None) ;;
  rating <- random_uniform C 2.5 5.0 ;;
  is_active <- random_choice C (repeat true 9 ++ [false]) ;;
  work_type <- random_choice C ["Full-time"; "Part-time"; "Contract"] ;;
  created_at <- datetime_now_isoformat C ;;
  ret {| employee_id := "EMP-" +:+ format_0d 5 emp_id;
         first_name := first_name;
         last_name := last_name;
         full_name := first_name +:+ " " +:+ last_name;
         email := lower first_name +:+ "." +:+ lower last_name +:+ "@company.com";
         department := department;
         job_title := job_level +:+ " " +:+ job;
         job_level := job_level;
         location := location;
         hire_date := hire_date;
         last_promotion_date := last_promotion;
         salary := salary;
         phone := phone;
         manager_id := manager_id;
         performance_rating := py_round rating 1;
         is_active := is_active;
         work_type := work_type;
         created_at := created_at |}.

(** [for emp_id in range(1, num_employees + 1)] *)
Definition generate_employees (num_employees : Z) : M nat (list Employee) :=
  for_each (seqZ 1 num_employees) []
    (fun employees emp_id =>
       employee <- new_employee emp_id ;;
       ret (employees ++ [employee])).

(** The two ways the sale date is drawn, and which one a draw selects. *)
Definition draw_sale_date : M nat Z :=
  season <- random_random C ;;
  if Qgtb season 0.7
  then date_between C en_US (DateString "-2m") (DateString "today")
  else date_between C en_US (DateString "-1y") (DateString "-2m").

(** The body of the loop of [generate_sales]. *)
Definition new_sale (active_products : list Product)
    (sales_employees : list Employee) (sale_id : Z) : M nat Sale :=
  sale_date <- draw_sale_date ;;
  product <- random_choice C active_products ;;
  quantity <- random_choices C [1; 2; 3; 4; 5; 10; 25; 50]
                               [30; 25; 15; 10; 8; 7; 3; 2] ;;
  let unit_price := price product in
  discount_pct <- random_choices C [0; 5; 10; 15; 20] [60; 20; 10; 7; 3] ;;
  let final_price := (unit_price * (1 - inject_Z discount_pct / 100))%Q in
  let total_amount := py_round (final_price * inject_Z quantity) 2 in
  customer_segment <- random_choice C CUSTOMER_SEGMENTS ;;
  customer <-
    (if String.eqb customer_segment "Individual"
     then name <- fake C en_US "name" ;;
          mail <- fake C en_US "email" ;;
          ret (name, mail)
     else name <- fake C en_US "company" ;;
          domain <- fake C en_US "domain_name" ;;
          ret (name, "orders@" +:+ domain)) ;;
  sales_rep_id <-
    (match sales_employees with
     | _ :: _ => rep <- random_choice C sales_employees ;;
                 ret (Some (employee_id rep))
     | [] => ret None
     end) ;;
  channel <- random_choice C SALES_CHANNELS ;;
  region <- random_choice C
              ["North America"; "Europe"; "Latin America"; "Asia-Pacific"] ;;
  payment_method <- random_choice C
                      ["Credit Card"; "Bank Transfer"; "PayPal"; "Cash"] ;;
  shipped <- random_random C ;;
  shipping_cost <-
    (if Qgtb shipped 0.3
     then x <- random_uniform C 0 25 ;; ret (py_round x 2)
     else ret 0%Q) ;;
  status <- random_choices C ["Completed"; "Pending"; "Cancelled"] [85; 10; 5] ;;
  created_at <- datetime_now_isoformat C ;;
  ret {| transaction_id := "TXN-" +:+ format_0d 8 sale_id;
         sale_product_id := product_id product;
         sale_product_name := product_name product;
         sale_category := category product;
         customer_name := fst customer;
         customer_email := snd customer;
         customer_segment := customer_segment;
         sales_rep_id := sales_rep_id;
         sale_date := sale_date;
         quantity := quantity;
         unit_price := unit_price;
         discount_pct := discount_pct;
         final_unit_price := py_round final_price 2;
         total_amount := total_amount;
         channel := channel;
         region := region;
         payment_method := payment_method;
         shipping_cost := shipping_cost;
         status := status;
         sale_created_at := created_at |}.

Definition generate_sales (num_sales : Z) (employees : list Employee)
    (products : list Product) : M nat (list Sale) :=
  let active_products := filter (fun p => product_is_active p = true) products in
  let sales_employees :=
    filter (fun e => str_in (department e) ["Sales"; "Customer Success"] = true)
           employees in
  for_each (seqZ 1 num_sales) []
    (fun sales sale_id =>
       sale <- new_sale active_products sales_employees sale_id ;;
       ret (sales ++ [sale])).

(** The body of the loop of [generate_products]. *)
Definition new_product (prod_id : Z) : M nat Product :=
  category <- random_choice C PRODUCT_CATEGORIES ;;
  let '(min_price, max_price) :=
    dict_get_default price_ranges category (10, 100)%Q in
  drawn <- random_uniform C min_price max_price ;;
  let price := py_round drawn 2 in
  product_name <- fake C en_US "catch_phrase" ;;
  word <- fake C en_US "word" ;;
  margin <- random_uniform C 0.3 0.7 ;;
  supplier <- fake C en_US "company" ;;
  launch_date <- date_between C en_US (DateString "-3y") (DateString "today") ;;
  is_active <- random_choice C (repeat true 8 ++ [false]) ;;
  stock_quantity <- random_randint C 0 1000 ;;
  weight <- random_uniform C 0.1 50.0 ;;
  stars <- random_uniform C 2.0 5.0 ;;
  reviews_count <- random_randint C 0 500 ;;
  created_at <- datetime_now_isoformat C ;;
  ret {| product_id := "PRD-" +:+ format_0d 5 prod_id;
         product_name := product_name;
         category := category;
         subcategory := title word;
         price := price;
         cost := py_round (price * margin) 2;
         supplier := supplier;
         launch_date := launch_date;
         product_is_active := is_active;
         stock_quantity := stock_quantity;
         weight_kg := py_round weight 2;
         rating := py_round stars 1;
         reviews_count := reviews_count;
         product_created_at := created_at |}.

(** [for prod_id in range(1, num_products + 1)] *)
Definition generate_products (num_products : Z) : M nat (list Product) :=
  for_each (seqZ 1 num_products) []
    (fun products prod_id =>
       product <- new_product prod_id ;;
       ret (products ++ [product])).

End Generator.

Section Batch.
Variable C : Chance.
Variable L : ClientLibrary.
Variable path_exists : string -> bool.
Context {S : Storage L}.

Definition upload_to_gcs (bucket_name source_file destination_blob : string)
  : M (Job S) bool :=
  try_except
    (client <- on_host (client_default L) ;;
     upload_blob client bucket_name source_file destination_blob ;;;
     print ("☁️ ✅ " +:+ source_file +:+ " → gs://" +:+ bucket_name +:+ "/"
              +:+ destination_blob) ;;;
     ret true)
    (fun e =>
       print ("❌ Error subiendo " +:+ source_file +:+ ": " +:+ str_exn e) ;;;
       ret false).

Definition save_to_csv {R} `{Keys R} (data : list R) (filename : string)
    (fieldnames : option (list string)) : M (Job S) bool :=
  match data with
  | [] =>
      print ("⚠️ No hay datos para guardar en " +:+ filename) ;;;
      ret false
  | _ :: _ =>
      let fieldnames :=
        match fieldnames with
        | Some (name :: names) => name :: names
        | _ => keys
        end in
      try_except
        (write_csv filename fieldnames (length data) ;;;
         print ("📄 ✅ " +:+ filename +:+ " creado con "
                  +:+ str_int (Z.of_nat (length data)) +:+ " registros") ;;;
         ret true)
        (fun e =>
           print ("❌ Error creando " +:+ filename +:+ ": " +:+ str_exn e) ;;;
           ret false)
  end.

Definition rule60 : string :=
  "============================================================".

(** [main()], with the dictionary [CONFIG] it reads as its argument. *)
Definition main (config : Config) : M (Job S) unit :=
  print "🏭 Iniciando generación de datos empresariales..." ;;;
  print rule60 ;;;
  on_host (setup_gcp_credentials L path_exists) ;;;
  print (nl +:+ "👥 Generando empleados...") ;;;
  employees <- on_chance (generate_employees C (num_employees config)) ;;
  print "📦 Generando productos..." ;;;
  products <- on_chance (generate_products C (num_products config)) ;;
  print "💰 Generando ventas..." ;;;
  sales <- on_chance (generate_sales C (num_sales config) employees products) ;;
  print (nl +:+ "💾 Creando archivos CSV...") ;;;
  let files_created := [] in
  saved <- save_to_csv employees "employees.csv" None ;;
  let files_created :=
    if saved then files_created ++ [("employees.csv", "landing/employees.csv")]
    else files_created in
  saved <- save_to_csv products "products.csv" None ;;
  let files_created :=
    if saved then files_created ++ [("products.csv", "landing/products.csv")]
    else files_created in
  saved <- save_to_csv sales "sales.csv" None ;;
  let files_created :=
    if saved then files_created ++ [("sales.csv", "landing/sales.csv")]
    else files_created in
  print (nl +:+ "☁️ Subiendo archivos a gs://" +:+ bucket_name config +:+ "...") ;;;
  upload_success <-
    for_each files_created 0
      (fun upload_success '(local_file, gcs_path) =>
         uploaded <- upload_to_gcs (bucket_name config) local_file gcs_path ;;
         ret (if uploaded then upload_success + 1 else upload_success)) ;;
  print (nl +:+ rule60) ;;;
  print "📊 RESUMEN DE GENERACIÓN DE DATOS" ;;;
  print rule60 ;;;
  print ("👥 Empleados:    " +:+ format_comma (Z.of_nat (length employees))) ;;;
  print ("📦 Productos:    " +:+ format_comma (Z.of_nat (length products))) ;;;
  print ("💰 Ventas:       " +:+ format_comma (Z.of_nat (length sales))) ;;;
  print ("📁 Archivos CSV: " +:+ str_int (Z.of_nat (length files_created))) ;;;
  print ("☁️ Subidos a GCS: " +:+ str_int upload_success +:+ "/"
           +:+ str_int (Z.of_nat (length files_created))) ;;;
  if upload_success =? Z.of_nat (length files_created)
  then
    print "🎉 ¡Todos los archivos subidos exitosamente!" ;;;
    print ("🔗 Revisa tu bucket: https://console.cloud.google.com/storage/browser/"
             +:+ bucket_name config)
  else
    print "⚠️ Algunos archivos no se pudieron subir. Revisa las credenciales.".

End Batch.
End data_generator.

(** * Shapes of traces *)

(** What a stage adds to the trace, with the value it returns: either
    the schema statement alone, failed, or the schema statement followed
    by every table statement in order; in the second case the stage
    reports whether all table statements completed. *)
Definition stage_shape (schema : string) (tables : list string)
    (evs : list event) (result : bool) : Prop :=
  (evs = [Submitted schema false] /\ result = false) \/
  (exists evs', evs = Submitted schema true :: evs' /\
                map event_sql evs' = tables /\
                result = forallb event_ok evs').

Section Shapes.
Variables (PROJECT_ID BUCKET : string).

(** What a run of the stages [gs] adds to the trace, with the value of
    [overall_success]: the stages follow each other for as long as they
    report success, and nothing follows one that reports failure. *)
Fixpoint stages_shape (gs : list stage) (evs : list event) (ok : bool)
  : Prop :=
  match gs with
  | [] => evs = [] /\ ok = true
  | g :: gs' =>
      exists ev1 b1 rest,
        stage_shape (stage_schema PROJECT_ID g)
                    (stage_tables PROJECT_ID BUCKET g) ev1 b1 /\
        evs = ev1 ++ rest /\
        if b1 then stages_shape gs' rest ok else rest = [] /\ ok = false
  end.

(** The read-only statements of [verify_results]. *)
Definition is_verify_query (sql : string) : Prop :=
  (exists dataset, sql = etl_medallion.tables_query PROJECT_ID dataset) \/
  (exists dataset table_name,
      sql = etl_medallion.count_query PROJECT_ID dataset table_name).

Definition stage_title (g : stage) : string :=
  match g with
  | Bronze => "Bronze"
  | Silver => "Silver"
  | Gold => "Gold"
  end.
End Shapes.


(** What [verify_results] adds to the trace for one dataset: the query
    for its tables, then count queries of that dataset. *)
Definition dataset_scan (PROJECT_ID dataset : string) (evs : list event) : Prop :=
  exists ok counts,
    evs = Submitted (etl_medallion.tables_query PROJECT_ID dataset) ok :: counts /\
    Forall (fun e => exists table_name,
                event_sql e
                = etl_medallion.count_query PROJECT_ID dataset table_name)
           counts.

(** What [verify_results_detailed] adds to the trace for one expected
    table: the count query, and after it the query for the columns when
    the count was answered. *)
Definition table_check (PROJECT_ID dataset table : string) (evs : list event)
  : Prop :=
  (exists ok,
      evs = [Submitted (etl_medallion.count_query PROJECT_ID dataset (VStr table))
                       ok]) \/
  (exists ok,
      evs = [Submitted (etl_medallion.count_query PROJECT_ID dataset (VStr table))
                       true;
             Submitted (etl_medallion.columns_query PROJECT_ID dataset table) ok]).

(** The same for one dataset with its expected tables. *)
Definition dataset_check (PROJECT_ID : string) (expected : string * list string)
    (evs : list event) : Prop :=
  exists parts,
    evs = concat parts /\
    Forall2 (table_check PROJECT_ID (fst expected)) (snd expected) parts.

(** What [show_sample_data] adds to the trace. *)
Definition sample_events (PROJECT_ID : string) (evs : list event) : Prop :=
  map event_sql evs = map snd (etl_medallion.sample_queries PROJECT_ID).

(** The last line [run_etl] prints when every stage succeeded, and when
    one failed. *)
Definition success_footer : string :=
  nl +:+ "💡 Para verificación detallada, ejecuta: verify_results_detailed()".
Definition failure_footer : string :=
  "   - Confirma que el proyecto ID sea correcto".

(** A computation that only adds events satisfying [Q] to the trace. *)
Definition emits {W : World} {A} (Q : event -> Prop) (c : M (State W) A) : Prop :=
  forall st, exists o evs st',
    c st = (o, st') /\ trace st' = trace st ++ evs /\ Forall Q evs.

(** A computation that never raises. *)
Definition returns {S A} (c : M S A) : Prop :=
  forall st, exists a st', c st = (Returned a, st').

(** * The order of credential resolution, as specified *)

(** Where the credentials come from. *)
Inductive source : Type :=
| Ambient                    (* the managed runtime's own credentials *)
| KeyFile (path : string)    (* a service-account key file *)
| JsonBlob (blob : string)   (* a JSON document in an environment variable *)
| NoSource.

(** A path or variable that is set, and not to the empty string. *)
Definition usable (o : option string) : option string :=
  if truthy o then o else None.

(** The candidate files in order: two fixed local paths, then the path
    named by the credentials-path variable. *)
Definition candidate_files (env : gmap string string) : list string :=
  omap usable [ Some "service-account-key.json";
                Some "./service-account-key.json";
                env !! "GOOGLE_APPLICATION_CREDENTIALS" ].

(** (a) the runtime marker, else (b) the first candidate file that
    exists, else (c) the JSON variable, else nothing. *)
Definition credential_source (path_exists : string -> bool)
    (env : gmap string string) : source :=
  if truthy (env !! "K_SERVICE") then Ambient
  else
    match List.find path_exists (candidate_files env) with
    | Some path => KeyFile path
    | None =>
        match usable (env !! "GOOGLE_CREDENTIALS_JSON") with
        | Some blob => JsonBlob blob
        | None => NoSource
        end
    end.

(** The environment after resolution: a key file found is recorded in the
    credentials-path variable. *)
Definition environ_after (src : source) (env : gmap string string)
  : gmap string string :=
  match src with
  | KeyFile path => <["GOOGLE_APPLICATION_CREDENTIALS" := path]> env
  | _ => env
  end.

(** The client built from a source, or the exception raised on the way;
    [with_project] tells the warehouse client, which passes the project
    of the JSON document, from the storage client, which does not. *)
Definition client_of_source (L : ClientLibrary) (with_project : bool)
    (src : source) (env : gmap string string) : outcome (client L) :=
  match src with
  | Ambient => new_default L env
  | KeyFile _ => new_default L (environ_after src env)
  | JsonBlob blob =>
      and_then (json_loads L blob) (fun info =>
      and_then (from_service_account_info L info) (fun creds =>
      if with_project
      then and_then (info_get L info "project_id") (fun project_id =>
           new_explicit L creds (ProjectGiven project_id))
      else new_explicit L creds ProjectOmitted))
  | NoSource => Raised (Exn "Exception" "No se encontraron credenciales")
  end.

(** A client library whose clients are descriptions of how they were
    built, and a host with nothing but a key file named by the
    environment. *)
Inductive built : Type :=
| BuiltDefault (key_path : option string)
| BuiltExplicit (blob : string) (project : project_arg).

Definition describing : ClientLibrary := {|
  client := built;
  cred_info := string;
  credentials := string;
  new_default := fun env => Returned (BuiltDefault (env !! "GOOGLE_APPLICATION_CREDENTIALS"));
  new_explicit := fun creds project => Returned (BuiltExplicit creds project);
  json_loads := fun blob => Returned blob;
  from_service_account_info := fun info => Returned info;
  info_get := fun _ _ => Returned None
|}.

Definition laptop : Host :=
  mkHost {[ "GOOGLE_APPLICATION_CREDENTIALS" := "/home/dev/key.json";
            "GOOGLE_CREDENTIALS_JSON" := "{}" ]} [].

Definition laptop_files (path : string) : bool :=
  String.eqb path "/home/dev/key.json".

(** * The generator: what is claimed of its records *)

(** The identifier of the employee numbered [i]. *)
Definition employee_number (i : Z) : string := "EMP-" +:+ format_0d 5 i.

(** The salary of an employee is a draw from the base range of the job
    level, times the multiplier of the department, rounded to cents; it
    lies in the base range, scaled by 1.3 for the tech departments. *)
Definition salary_ok (e : Employee) : Prop :=
  exists lo hi base,
    In (job_level e, (lo, hi)) data_generator.base_salary_ranges /\
    (lo <= base <= hi)%Q /\
    salary e = py_round (base * data_generator.dept_multiplier (department e)) 2 /\
    (if str_in (department e) ["Engineering"; "Data Science"; "DevOps"]
     then data_generator.dept_multiplier (department e) = 1.3%Q /\
          (1.3 * lo <= salary e <= 1.3 * hi)%Q
     else data_generator.dept_multiplier (department e) = 1.0%Q /\
          (lo <= salary e <= hi)%Q).

Definition sells (e : Employee) : bool :=
  str_in (department e) ["Sales"; "Customer Success"].

(** The two selections [generate_sales] makes before its loop. *)
Definition active_of (products : list Product) : list Product :=
  filter (fun p => product_is_active p = true) products.
Definition sellers_of (employees : list Employee) : list Employee :=
  filter (fun e => sells e = true) employees.

(** What the loop body of [generate_sales] guarantees of a sale, in terms
    of the two selections. *)
Definition sale_drawn_from (C : Chance) (active : list Product)
    (sellers : list Employee) (s : Sale) : Prop :=
  (exists p, In p active /\ sale_product_id s = product_id p) /\
  match sales_rep_id s with
  | Some rep => exists e, In e sellers /\ rep = employee_id e
  | None => sellers = []
  end /\
  today C - 366 <= sale_date s <= today C.

(** The references of a sale: its product is an active product of the
    list supplied, and its sales representative is a supplied employee of
    one of the two selling departments, or nobody when there is none. *)
Definition sale_refs_ok (employees : list Employee) (products : list Product)
    (s : Sale) : Prop :=
  (exists p, In p products /\ product_is_active p = true /\
             sale_product_id s = product_id p) /\
  match sales_rep_id s with
  | Some rep => exists e, In e employees /\ sells e = true /\ rep = employee_id e
  | None => forall e, In e employees -> sells e = false
  end.

(** The number a string of decimal digits stands for, leading zeros
    included. *)
Definition decode (s : string) : option N :=
  match NilEmpty.uint_of_string s with
  | Some d => Some (N.of_uint d)
  | None => None
  end.

(** The decimal digits. *)
Definition decimal_digits : list Z := [0; 1; 2; 3; 4; 5; 6; 7; 8; 9].

(** An amount in whole cents. *)
Definition on_grid (l : Q) : Prop :=
  (inject_Z (Qfloor (l * 100)) == l * 100)%Q.

(** [k] months before [today], with Faker's own length of a month. *)
Definition months_ago (today : Z) (k : Z) : Z :=
  today + offset_days [(Months, - k)].

(** The off-season window as C7 states it: from 14 months ago to 2 months
    ago. *)
Definition in_claimed_off_season (today : Z) (d : Z) : Prop :=
  months_ago today 14 <= d <= months_ago today 2.

(** The number that [random.random()] makes of a raw draw. *)
Definition unit_of_raw (k : N) : Q := (Z.of_N (k mod 2 ^ 53) # 2 ^ 53)%Q.

(** ** A concrete oracle and concrete inputs *)

Definition demo : Chance := {|
  raw := fun tick => (N.of_nat tick * 6364136223846793005 + 1442695040888963407)%N;
  provider := fun _ name tick => name +:+ "#" +:+ str_int (Z.of_nat tick);
  now_isoformat := fun tick => "2025-03-01T12:00:00." +:+ format_0d 6 (Z.of_nat tick);
  today := 739311
|}.

(** An oracle whose every raw draw is zero. *)
Definition zeros_only : Chance := {|
  raw := fun _ => 0%N;
  provider := fun _ name _ => name;
  now_isoformat := fun _ => "2025-03-01T12:00:00";
  today := 739311
|}.

(** An oracle whose first draw is zero and whose later draws are 365: the
    first call of [random.random()] gives 0.0, and a date drawn next from
    a range of 366 days is the last day of the range. *)
Definition late_draw : Chance := {|
  raw := fun tick => match tick with O => 0%N | S _ => 365%N end;
  provider := fun _ name _ => name;
  now_isoformat := fun _ => "2025-03-01T12:00:00";
  today := 739311
|}.

(** The day the examples take place, and a day thirteen months
    earlier. *)
Definition some_day : Z := 739311.
Definition thirteen_months_earlier : Z := months_ago some_day 13.

Definition book (i : Z) (active : bool) : Product := {|
  product_id := "PRD-" +:+ format_0d 5 i;
  product_name := "Reactive static archive";
  category := "Books";
  subcategory := "Paper";
  price := 19.99;
  cost := 7.5;
  supplier := "Acme";
  launch_date := 739000;
  product_is_active := active;
  stock_quantity := 12;
  weight_kg := 0.4;
  rating := 4.5;
  reviews_count := 3;
  product_created_at := "2025-03-01T12:00:00"
|}.

Definition catalogue : list Product := [book 1 false; book 2 true; book 3 true].
Definition discontinued : list Product := [book 1 false; book 2 false].

Definition staff : list Employee :=
  match fst (data_generator.generate_employees demo 12 0%nat) with
  | Returned es => es
  | Raised _ => []
  end.

(** What the loop body of [generate_employees] guarantees of a record,
    beyond its identifier and its salary: the fields drawn from the
    module's lists, the dates and the rating. *)
Definition employee_profile (C : Chance) (e : Employee) : Prop :=
  In (department e) data_generator.DEPARTMENTS /\
  In (job_level e) data_generator.JOB_LEVELS /\
  In (location e) data_generator.OFFICE_LOCATIONS /\
  In (work_type e) ["Full-time"; "Part-time"; "Contract"] /\
  today C - 2922 <= hire_date e < today C /\
  match last_promotion_date e with
  | Some d => hire_date e <= d <= today C
  | None => True
  end /\
  (2.5 <= performance_rating e <= 5)%Q.

(** The manager of the employee numbered [emp_id], if any, has a smaller
    number. *)
Definition reports_to_earlier (emp_id : Z) (e : Employee) : Prop :=
  match manager_id e with
  | Some boss => exists j, 1 <= j < emp_id /\ boss = employee_number j
  | None => True
  end.

(** The identifiers [generate_products] and [generate_sales] give to the
    records numbered [i]. *)
Definition product_number (i : Z) : string := "PRD-" +:+ format_0d 5 i.
Definition transaction_number (i : Z) : string := "TXN-" +:+ format_0d 8 i.

(** What the loop body of [generate_products] guarantees of a record. *)
Definition product_ok (C : Chance) (p : Product) : Prop :=
  (exists lo hi,
      In (category p, (lo, hi)) data_generator.price_ranges /\
      (lo <= price p <= hi)%Q) /\
  on_grid (price p) /\
  (0 < cost p <= price p)%Q /\
  today C - 1096 <= launch_date p <= today C /\
  0 <= stock_quantity p <= 1000 /\
  (0.1 <= weight_kg p <= 50)%Q /\
  (2 <= rating p <= 5)%Q /\
  0 <= reviews_count p <= 500.

(** What the loop body of [generate_sales] guarantees of a sale: the
    fields copied from the product drawn, the fields drawn from fixed
    lists, and how the amounts are computed. *)
Definition sale_of_product (p : Product) (s : Sale) : Prop :=
  sale_product_id s = product_id p /\
  sale_product_name s = product_name p /\
  sale_category s = category p /\
  unit_price s = price p.

Definition sale_fields_ok (s : Sale) : Prop :=
  In (quantity s) [1; 2; 3; 4; 5; 10; 25; 50] /\
  In (discount_pct s) [0; 5; 10; 15; 20] /\
  In (customer_segment s) data_generator.CUSTOMER_SEGMENTS /\
  In (channel s) data_generator.SALES_CHANNELS /\
  In (region s) ["North America"; "Europe"; "Latin America"; "Asia-Pacific"] /\
  In (payment_method s) ["Credit Card"; "Bank Transfer"; "PayPal"; "Cash"] /\
  In (status s) ["Completed"; "Pending"; "Cancelled"] /\
  (0 <= shipping_cost s <= 25)%Q.

(** The price after the discount, before any rounding. *)
Definition discounted (s : Sale) : Q :=
  (unit_price s * (1 - inject_Z (discount_pct s) / 100))%Q.

Definition sale_amounts_ok (s : Sale) : Prop :=
  final_unit_price s = py_round (discounted s) 2 /\
  total_amount s = py_round (discounted s * inject_Z (quantity s)) 2.

(** What the amounts of a sale are when the price of its product is a
    non-negative amount in whole cents. *)
Definition amounts_in_bounds (s : Sale) : Prop :=
  (0 <= final_unit_price s <= unit_price s)%Q /\
  (0 <= total_amount s <= unit_price s * inject_Z (quantity s))%Q /\
  (- (inject_Z (quantity s) + 1) / 200
   <= total_amount s - final_unit_price s * inject_Z (quantity s)
   <= (inject_Z (quantity s) + 1) / 200)%Q.

(** The header [save_to_csv] writes: the field names given, or the keys
    of the records when none are given. *)
Definition csv_header {R} `{Keys R} (fieldnames : option (list string))
  : list string :=
  match fieldnames with
  | Some (name :: names) => name :: names
  | _ => keys
  end.

(** What [main] does to the disk for one data set, and to the bucket for
    one file it saved. *)
Definition written (filename : string) (header : list string) (records : nat)
    (saved : bool) : list effect :=
  match records with
  | O => []
  | S _ => [Wrote filename header records saved]
  end.

Definition uploaded (bucket filename : string) (saved ok : bool) : list effect :=
  if saved then [Uploaded bucket filename ("landing/" +:+ filename) ok] else [].

(** A disk and a bucket that accept everything, and a job on a host with
    an empty environment. *)
Definition accepting : Storage describing := {|
  s_state := unit;
  s_write_csv := fun _ _ _ s => (Returned tt, s);
  s_upload := fun _ _ _ _ s => (Returned tt, s)
|}.

Definition bare_job (env : gmap string string) : Job accepting :=
  mkJob (S := accepting) (mkHost env []) 0%nat (tt : s_state accepting) [].

(** A configuration that asks for sales and for no product. *)
Definition no_products : Config := {|
  num_employees := 2;
  num_sales := 1;
  num_products := 0;
  bucket_name := "raw-data-etl-lab";
  project_id := "data-engineer-gcp-469614"
|}.
(** A client library that cannot read the JSON document. *)
Definition unreadable : ClientLibrary := {|
  client := built;
  cred_info := string;
  credentials := string;
  new_default := fun env => Returned (BuiltDefault (env !! "GOOGLE_APPLICATION_CREDENTIALS"));
  new_explicit := fun creds project => Returned (BuiltExplicit creds project);
  json_loads := fun blob => Raised (Exn "JSONDecodeError" "Expecting value");
  from_service_account_info := fun info => Returned info;
  info_get := fun _ _ => Returned None
|}.
(** The object an upload creates, as a [gs://] address. *)
Definition uploaded_uri (e : effect) : option string :=
  match e with
  | Uploaded bucket _ destination_blob _ =>
      Some ("gs://" +:+ bucket +:+ "/" +:+ destination_blob)
  | Wrote _ _ _ _ => None
  end.

(** The effects a job adds to those of the state it starts from. *)
Definition new_effects {L : ClientLibrary} {S : Storage L} {A}
    (c : M (Job S) A) (j : Job S) : list effect :=
  drop (length (effects j)) (effects (snd (c j))).
(** A configuration that asks for nothing. *)
Definition nothing_asked : Config := {|
  num_employees := 0;
  num_sales := 0;
  num_products := 0;
  bucket_name := "raw-data-etl-lab";
  project_id := "data-engineer-gcp-469614"
|}.
(** A computation over the ticks that returns, with a result satisfying
    [P]. *)
Definition yields {A} (c : M nat A) (P : A -> Prop) : Prop :=
  forall t, exists a t', c t = (Returned a, t') /\ P a.

(** * Facts about the pipeline *)

Section PipelineFacts.
Context {W : World}.
Variables (PROJECT_ID BUCKET : string).

Lemma run_query_returns (sql desc : string) (st : State W) :
  exists ok st',
    etl_medallion.run_query sql desc st = (Returned ok, st') /\
    trace st' = trace st ++ [Submitted sql ok] /\
    logged st' = logged st.
Proof.
  unfold etl_medallion.run_query, try_except, bind, bq_query.
  destruct (w_query W sql (world st)) as [[rows | e] w'] eqn:Hq; cbn.
  - eexists true, _. repeat split; reflexivity.
  - eexists false, _. repeat split; reflexivity.
Qed.

(** The loop [for ...: if not run_query(...): success = False] submits
    every statement, whatever the earlier ones did. *)
Lemma flag_loop {X} (sql_of desc_of : X -> string)
    (body : bool -> X -> M (State W) bool) :
  (forall success x st,
      body success x st =
      bind (etl_medallion.run_query (sql_of x) (desc_of x))
           (fun done => ret (if negb done then false else success)) st) ->
  forall (xs : list X) (success : bool) (st : State W),
  exists evs st',
    for_each xs success body st
      = (Returned (success && forallb event_ok evs), st') /\
    trace st' = trace st ++ evs /\
    map event_sql evs = map sql_of xs /\
    logged st' = logged st.
Proof.
  intros Hbody xs. induction xs as [| x xs IH]; intros success st.
  - exists [], st. cbn. rewrite andb_true_r, app_nil_r. auto.
  - cbn [for_each]. unfold bind at 1. rewrite Hbody. unfold bind at 1.
    destruct (run_query_returns (sql_of x) (desc_of x) st)
      as (ok & st1 & -> & Htr & Hlog).
    cbn [ret].
    destruct (IH (if negb ok then false else success) st1)
      as (evs & st' & -> & Htr' & Hsql & Hlog').
    exists (Submitted (sql_of x) ok :: evs), st'. repeat split.
    + cbn. destruct ok, success; reflexivity.
    + rewrite Htr', Htr, <- app_assoc. reflexivity.
    + cbn. f_equal. exact Hsql.
    + congruence.
Qed.
End PipelineFacts.

Section EmitFacts.
Context {W : World}.
Variable Q : event -> Prop.

Lemma emits_ret {A} (a : A) : emits Q (ret a : M (State W) A).
Proof. intros st. exists (Returned a), [], st. rewrite app_nil_r. auto. Qed.

Lemma emits_lift {A} (o : outcome A) : emits Q (lift o : M (State W) A).
Proof. intros st. exists o, [], st. rewrite app_nil_r. auto. Qed.

Lemma emits_print (line : string) : emits Q (print line : M (State W) unit).
Proof.
  intros st. exists (Returned tt), [], (put_line line st).
  cbn. rewrite app_nil_r. auto.
Qed.

Lemma emits_bq_query (sql : string) :
  Q (Submitted sql true) -> Q (Submitted sql false) ->
  emits Q (bq_query (W := W) sql).
Proof.
  intros Ht Hf st. unfold bq_query.
  destruct (w_query W sql (world st)) as [[rows | e] w'].
  - eexists _, [_], _. split; [reflexivity |]. cbn. auto.
  - eexists _, [_], _. split; [reflexivity |]. cbn. auto.
Qed.

Lemma emits_bind {A B} (c : M (State W) A) (k : A -> M (State W) B) :
  emits Q c -> (forall a, emits Q (k a)) -> emits Q (bind c k).
Proof.
  intros Hc Hk st. unfold bind.
  destruct (Hc st) as (o & evs & st1 & -> & Htr & Hq).
  destruct o as [a | e].
  - destruct (Hk a st1) as (o' & evs' & st2 & -> & Htr' & Hq').
    exists o', (evs ++ evs'), st2. split; [reflexivity |]. split.
    + rewrite Htr', Htr, <- app_assoc. reflexivity.
    + apply Forall_app. auto.
  - exists (Raised e), evs, st1. auto.
Qed.

Lemma emits_try_except {A} (body : M (State W) A) (handler : exn -> M (State W) A) :
  emits Q body -> (forall e, emits Q (handler e)) ->
  emits Q (try_except body handler).
Proof.
  intros Hc Hk st. unfold try_except.
  destruct (Hc st) as (o & evs & st1 & -> & Htr & Hq).
  destruct o as [a | e].
  - exists (Returned a), evs, st1. auto.
  - destruct (Hk e st1) as (o' & evs' & st2 & -> & Htr' & Hq').
    exists o', (evs ++ evs'), st2. split; [reflexivity |]. split.
    + rewrite Htr', Htr, <- app_assoc. reflexivity.
    + apply Forall_app. auto.
Qed.

Lemma emits_for_each {A X} (xs : list X) (body : A -> X -> M (State W) A) :
  (forall acc x, emits Q (body acc x)) ->
  forall acc, emits Q (for_each xs acc body).
Proof.
  intros Hbody. induction xs as [| x xs IH]; intros acc; cbn [for_each].
  - apply emits_ret.
  - apply emits_bind; auto.
Qed.
End EmitFacts.

Lemma returns_try_except {S A} (body : M S A) (handler : exn -> M S A) :
  (forall e, returns (handler e)) -> returns (try_except body handler).
Proof.
  intros Hh st. unfold try_except.
  destruct (body st) as [[a | e] st1].
  - eexists _, _. reflexivity.
  - apply Hh.
Qed.

Lemma returns_bind {S A B} (c : M S A) (k : A -> M S B) :
  returns c -> (forall a, returns (k a)) -> returns (bind c k).
Proof.
  intros Hc Hk st. unfold bind.
  destruct (Hc st) as (a & st1 & ->). apply Hk.
Qed.

Lemma returns_print {S} `{Console S} (line : string) : returns (print line).
Proof. intros st. eexists _, _. reflexivity. Qed.

Lemma returns_for_each {S A X} (xs : list X) (body : A -> X -> M S A) :
  (forall acc x, returns (body acc x)) ->
  forall acc, returns (for_each xs acc body).
Proof.
  intros Hbody. induction xs as [| x xs IH]; intros acc; cbn [for_each].
  - intros st. eexists _, _. reflexivity.
  - apply returns_bind; auto.
Qed.

Section RunFacts.
Context {W : World}.
Variables (PROJECT_ID BUCKET : string).

Local Abbreviation schema := (stage_schema PROJECT_ID).
Local Abbreviation tables := (stage_tables PROJECT_ID BUCKET).

Lemma stage_trace (g : stage) (st : State W) :
  exists result evs st',
    stage_run PROJECT_ID BUCKET g st = (Returned result, st') /\
    trace st' = trace st ++ evs /\
    stage_shape (schema g) (tables g) evs result.
Proof.
  destruct g; cbn [stage_run];
    unfold etl_medallion.bronze_layer, etl_medallion.silver_layer,
           etl_medallion.gold_layer;
    unfold bind at 1; cbn [print];
    unfold bind at 1;
    match goal with
    | |- context [etl_medallion.run_query ?s ?d ?st0] =>
        destruct (run_query_returns s d st0) as (ok & st1 & -> & Htr & _)
    end;
    cbn in Htr;
    (destruct ok; cbn [negb];
     [ | eexists false, [Submitted _ false], st1;
         split; [reflexivity | split; [exact Htr | left; split; reflexivity]] ]).
  - destruct (flag_loop
                (fun tg => etl_medallion.bronze_load_sql PROJECT_ID (fst tg) (snd tg))
                (fun tg => "Cargando " +:+ fst tg)
                (fun success '(table, gcs_path) =>
                   loaded <- etl_medallion.run_query
                               (etl_medallion.bronze_load_sql PROJECT_ID table gcs_path)
                               ("Cargando " +:+ table) ;;
                   ret (if negb loaded then false else success))
                ltac:(intros success [t p] s; reflexivity)
                (etl_medallion.bronze_tables BUCKET) true st1)
      as (evs & st' & Hrun & Htr' & Hsql & _).
    exists (forallb event_ok evs), (Submitted (schema Bronze) true :: evs), st'.
    split; [exact Hrun |]. split.
    + rewrite Htr', Htr, <- app_assoc. reflexivity.
    + right. exists evs. auto.
  - destruct (flag_loop fst snd
                (fun success '(sql, desc) =>
                   done <- etl_medallion.run_query sql desc ;;
                   ret (if negb done then false else success))
                ltac:(intros success [t p] s; reflexivity)
                (etl_medallion.transformations PROJECT_ID) true st1)
      as (evs & st' & Hrun & Htr' & Hsql & _).
    exists (forallb event_ok evs), (Submitted (schema Silver) true :: evs), st'.
    split; [exact Hrun |]. split.
    + rewrite Htr', Htr, <- app_assoc. reflexivity.
    + right. exists evs. auto.
  - destruct (flag_loop fst snd
                (fun success '(sql, desc) =>
                   done <- etl_medallion.run_query sql desc ;;
                   ret (if negb done then false else success))
                ltac:(intros success [t p] s; reflexivity)
                (etl_medallion.analytics PROJECT_ID) true st1)
      as (evs & st' & Hrun & Htr' & Hsql & _).
    exists (forallb event_ok evs), (Submitted (schema Gold) true :: evs), st'.
    split; [exact Hrun |]. split.
    + rewrite Htr', Htr, <- app_assoc. reflexivity.
    + right. exists evs. auto.
Qed.

Lemma layers_are_stages :
  etl_medallion.layers (W := W) PROJECT_ID BUCKET
  = map (fun g => (stage_title g, stage_run PROJECT_ID BUCKET g))
        [Bronze; Silver; Gold].
Proof. reflexivity. Qed.

Lemma run_layers_trace (gs : list stage) (st : State W) :
  exists ok evs st',
    etl_medallion.run_layers
      (map (fun g => (stage_title g, stage_run PROJECT_ID BUCKET g)) gs) st
      = (Returned ok, st') /\
    trace st' = trace st ++ evs /\
    stages_shape PROJECT_ID BUCKET gs evs ok.
Proof.
  revert st. induction gs as [| g gs IH]; intros st.
  - exists true, [], st. cbn. rewrite app_nil_r. auto.
  - cbn [map etl_medallion.run_layers]. unfold bind at 1.
    destruct (stage_trace g st) as (b1 & ev1 & st1 & -> & Htr & Hshape).
    destruct b1; cbn [negb].
    + unfold bind at 1. cbn [print].
      destruct (IH (put_line "" st1)) as (ok & evs & st' & -> & Htr' & Hrest).
      exists ok, (ev1 ++ evs), st'. split; [reflexivity |]. split.
      * rewrite Htr'. cbn. rewrite Htr, <- app_assoc. reflexivity.
      * cbn [stages_shape]. exists ev1, true, evs. auto.
    + unfold bind at 1. cbn [print ret].
      eexists false, ev1, _. split; [reflexivity |]. split.
      * cbn. exact Htr.
      * cbn [stages_shape]. exists ev1, false, []. rewrite app_nil_r. auto.
Qed.
End RunFacts.

Section VerifyFacts.
Context {W : World}.
Variables (PROJECT_ID BUCKET : string).

Local Abbreviation read_only :=
  (fun e : event => is_verify_query PROJECT_ID (event_sql e)).

Lemma verify_table_emits (dataset : string) (table_row : Row) :
  emits (W := W) read_only
        (etl_medallion.verify_table PROJECT_ID dataset table_row).
Proof.
  unfold etl_medallion.verify_table.
  apply emits_bind; [apply emits_lift |]. intros table_name.
  apply emits_try_except.
  - apply emits_bind.
    + apply emits_bq_query; right; eauto.
    + intros rows.
      repeat (apply emits_bind; [apply emits_lift |]; intros ?).
      apply emits_print.
  - intros e. apply emits_print.
Qed.

Lemma verify_results_emits :
  emits (W := W) read_only (etl_medallion.verify_results PROJECT_ID).
Proof.
  unfold etl_medallion.verify_results.
  apply emits_bind; [apply emits_print |]. intros _.
  apply emits_for_each. intros [] dataset.
  apply emits_try_except.
  - apply emits_bind.
    + apply emits_bq_query; left; eauto.
    + intros [| row rows].
      * apply emits_print.
      * apply emits_bind; [apply emits_print |]. intros _.
        apply emits_for_each. intros [] table_row.
        apply verify_table_emits.
  - intros e. apply emits_print.
Qed.

(** Every exception inside [verify_results] is caught inside it. *)
Lemma verify_results_returns :
  returns (etl_medallion.verify_results (W := W) PROJECT_ID).
Proof.
  unfold etl_medallion.verify_results.
  apply returns_bind; [apply returns_print |]. intros _.
  apply returns_for_each. intros [] dataset.
  apply returns_try_except. intros e. apply returns_print.
Qed.

(** The whole run: the stages, then the verification if all succeeded;
    the value is [None] either way and only the last printed line tells
    the two apart. *)
Lemma run_etl_trace (st : State W) :
  exists ok evs checks st',
    etl_medallion.run_etl PROJECT_ID BUCKET st = (Returned tt, st') /\
    trace st' = trace st ++ evs ++ checks /\
    stages_shape PROJECT_ID BUCKET [Bronze; Silver; Gold] evs ok /\
    if ok
    then Forall read_only checks /\ last (stdout st') = Some success_footer
    else checks = [] /\ last (stdout st') = Some failure_footer.
Proof.
  unfold etl_medallion.run_etl.
  unfold bind at 1. cbn [print]. unfold bind at 1. cbn [print].
  unfold bind at 1. rewrite layers_are_stages.
  match goal with
  | |- context [etl_medallion.run_layers _ ?st0] =>
      destruct (run_layers_trace PROJECT_ID BUCKET [Bronze; Silver; Gold] st0)
        as (ok & evs & st1 & -> & Htr & Hshape)
  end.
  cbn in Htr. destruct ok.
  - unfold bind at 1.
    destruct (verify_results_emits st1) as (o & checks & st2 & Hrun & Htr2 & Hq).
    destruct (verify_results_returns st1) as ([] & st2' & Hret).
    rewrite Hret in Hrun. injection Hrun as <- <-. rewrite Hret.
    eexists true, evs, checks, _. split; [reflexivity |].
    cbn [trace stdout put_line State_console].
    split; [rewrite Htr2, Htr, <- app_assoc; reflexivity |].
    split; [exact Hshape |]. split; [exact Hq |].
    apply last_snoc.
  - eexists false, evs, [], _. split; [reflexivity |].
    cbn [trace stdout put_line State_console].
    split; [rewrite Htr, app_nil_r; reflexivity |].
    split; [exact Hshape |]. split; [reflexivity |].
    apply last_snoc.
Qed.
End VerifyFacts.

(** ** The statements of different stages are different texts *)

Lemma append_cancel (p a b : string) : p +:+ a = p +:+ b -> a = b.
Proof.
  induction p as [| c p IH]; cbn; intros H; [exact H |].
  injection H as H. auto.
Qed.

Ltac str_neq H :=
  first [ cbn in H; discriminate H
        | apply append_cancel in H; str_neq H ].

Ltac in_cases H :=
  repeat match type of H with
         | _ \/ _ => destruct H as [H | H]
         | False => destruct H
         end.

Section Distinct.
Variables (PROJECT_ID BUCKET : string).

Lemma gold_not_bronze (s : string) :
  In s (stage_statements PROJECT_ID BUCKET Gold) ->
  ~ In s (stage_statements PROJECT_ID BUCKET Bronze).
Proof.
  unfold stage_statements, stage_schema, stage_tables,
    etl_medallion.analytics, etl_medallion.bronze_tables,
    etl_medallion.gold_schema_sql, etl_medallion.bronze_schema_sql,
    etl_medallion.bronze_load_sql.
  cbn [map fst snd In]. intros Hg Hb.
  in_cases Hg; subst s; in_cases Hb; str_neq Hb.
Qed.

Lemma gold_not_silver (s : string) :
  In s (stage_statements PROJECT_ID BUCKET Gold) ->
  ~ In s (stage_statements PROJECT_ID BUCKET Silver).
Proof.
  unfold stage_statements, stage_schema, stage_tables,
    etl_medallion.analytics, etl_medallion.transformations,
    etl_medallion.gold_schema_sql, etl_medallion.silver_schema_sql.
  cbn [map fst snd In]. intros Hg Hb.
  in_cases Hg; subst s; in_cases Hb; str_neq Hb.
Qed.

Lemma verify_not_silver (s : string) :
  is_verify_query PROJECT_ID s ->
  ~ In s (stage_statements PROJECT_ID BUCKET Silver).
Proof.
  unfold stage_statements, stage_schema, stage_tables,
    etl_medallion.transformations, etl_medallion.silver_schema_sql,
    is_verify_query, etl_medallion.tables_query, etl_medallion.count_query.
  cbn [map fst snd In]. intros [[d ->] | [d [v ->]]] Hb;
    in_cases Hb; str_neq Hb.
Qed.
End Distinct.

(** ** What the shapes imply *)

Lemma stage_shape_sql (schema : string) (tables : list string)
    (evs : list event) (result : bool) :
  stage_shape schema tables evs result ->
  Forall (fun e => In (event_sql e) (schema :: tables)) evs.
Proof.
  intros [[-> _] | (evs' & -> & Hsql & _)].
  - repeat constructor.
  - constructor; [left; reflexivity |].
    subst tables. apply Forall_forall. intros e He. right.
    apply in_map. apply list_elem_of_In. exact He.
Qed.

Lemma stage_shape_result (schema : string) (tables : list string)
    (evs : list event) (result : bool) :
  stage_shape schema tables evs result -> result = forallb event_ok evs.
Proof.
  intros [[-> ->] | (evs' & -> & _ & ->)]; reflexivity.
Qed.

Lemma forallb_app_ok (l1 l2 : list event) :
  forallb event_ok (l1 ++ l2) = forallb event_ok l1 && forallb event_ok l2.
Proof. apply forallb_app. Qed.

Section ShapeFacts.
Variables (PROJECT_ID BUCKET : string).

Local Abbreviation statements := (stage_statements PROJECT_ID BUCKET).

Lemma stages_shape_result (gs : list stage) (evs : list event) (ok : bool) :
  stages_shape PROJECT_ID BUCKET gs evs ok -> ok = forallb event_ok evs.
Proof.
  revert evs. induction gs as [| g gs IH]; cbn [stages_shape]; intros evs.
  - intros [-> ->]. reflexivity.
  - intros (ev1 & b1 & rest & Hs & -> & Hrest).
    apply stage_shape_result in Hs. rewrite forallb_app_ok, <- Hs.
    destruct b1.
    + cbn. auto.
    + destruct Hrest as [_ ->]. reflexivity.
Qed.

(** The three stages of a run, each with its own statements; a stage
    contributes nothing once an earlier event has failed. *)
Lemma three_stages (evs : list event) (ok : bool) :
  stages_shape PROJECT_ID BUCKET [Bronze; Silver; Gold] evs ok ->
  exists evB evS evG,
    evs = evB ++ evS ++ evG /\
    Forall (fun e => In (event_sql e) (statements Bronze)) evB /\
    Forall (fun e => In (event_sql e) (statements Silver)) evS /\
    Forall (fun e => In (event_sql e) (statements Gold)) evG /\
    (forallb event_ok evB = false -> evS = []) /\
    (forallb event_ok (evB ++ evS) = false -> evG = []).
Proof.
  cbn [stages_shape].
  intros (evB & bB & rB & HB & -> & HrB).
  pose proof (stage_shape_result _ _ _ _ HB) as HbB.
  apply stage_shape_sql in HB.
  destruct bB.
  - destruct HrB as (evS & bS & rS & HS & -> & HrS).
    pose proof (stage_shape_result _ _ _ _ HS) as HbS.
    apply stage_shape_sql in HS.
    destruct bS.
    + destruct HrS as (evG & bG & rG & HG & -> & HrG).
      apply stage_shape_sql in HG.
      assert (rG = []) as -> by (destruct bG; tauto).
      exists evB, evS, evG. rewrite app_nil_r, forallb_app_ok, <- HbB, <- HbS.
      repeat split; auto; discriminate.
    + destruct HrS as [-> _].
      exists evB, evS, []. rewrite app_nil_r.
      repeat split; auto. rewrite <- HbB. discriminate.
  - destruct HrB as [-> _].
    exists evB, [], []. repeat split; auto.
Qed.
End ShapeFacts.

(** * The pipeline: failure handling *)

(** C1, as stated, does not hold: when the load of the first bronze table
    fails, the two remaining loads are submitted all the same. *)
Lemma bronze_continues_after_failure :
  ~ aborts_at_first_failure
      (new_events (etl_medallion.bronze_layer default_project default_bucket)
                  (start [Returned []; Raised quota_error])).
Proof.
  intros H.
  specialize (H [Submitted (stage_schema default_project Bronze) true]
                (Submitted (etl_medallion.bronze_load_sql default_project "employees"
                              "gs://raw-data-etl-lab/landing/employees.csv") false)
                (map (fun s => Submitted s true)
                     (skipn 1 (stage_tables default_project default_bucket Bronze)))
                eq_refl eq_refl).
  discriminate H.
Qed.

(** C1 (amended).  A stage always returns.  If its schema statement fails,
    that statement is the only one submitted; otherwise all three table
    statements are submitted in order, also after one of them has failed.
    The stage reports success exactly when no submitted statement failed,
    and when it reports failure the loop over the layers stops there: the
    later layers submit nothing. *)
Theorem stage_failure_handling {W : World} (PROJECT_ID BUCKET : string)
    (g : stage) (st : State W) :
  exists result evs st',
    stage_run PROJECT_ID BUCKET g st = (Returned result, st') /\
    trace st' = trace st ++ evs /\
    stage_shape (stage_schema PROJECT_ID g)
                (stage_tables PROJECT_ID BUCKET g) evs result /\
    result = forallb event_ok evs /\
    (if result then True
     else forall later, exists st'',
         etl_medallion.run_layers
           ((stage_title g, stage_run PROJECT_ID BUCKET g) :: later) st
           = (Returned false, st'') /\
         trace st'' = trace st').
Proof.
  destruct (stage_trace PROJECT_ID BUCKET g st)
    as (result & evs & st' & Hrun & Htr & Hshape).
  exists result, evs, st'. repeat split; try assumption.
  - eapply stage_shape_result; eassumption.
  - destruct result; [exact I |]. intros later.
    cbn [etl_medallion.run_layers]. unfold bind at 1. rewrite Hrun.
    cbn [negb]. unfold bind at 1. cbn [print ret].
    eexists. split; reflexivity.
Qed.

(** C3.  In every run of the pipeline, if a statement of the silver stage
    fails, no statement of the gold stage is submitted. *)
Theorem silver_failure_skips_gold {W : World} (PROJECT_ID BUCKET : string)
    (st : State W) :
  (exists e, In e (new_events (etl_medallion.run_etl PROJECT_ID BUCKET) st) /\
             In (event_sql e) (stage_statements PROJECT_ID BUCKET Silver) /\
             event_ok e = false) ->
  forall e, In e (new_events (etl_medallion.run_etl PROJECT_ID BUCKET) st) ->
            ~ In (event_sql e) (stage_statements PROJECT_ID BUCKET Gold).
Proof.
  unfold new_events.
  destruct (run_etl_trace PROJECT_ID BUCKET st)
    as (ok & evs & checks & st' & -> & Htr & Hshape & Hok).
  cbn [snd]. rewrite Htr, drop_app_length.
  pose proof (stages_shape_result _ _ _ _ _ Hshape) as Hres.
  destruct (three_stages _ _ _ _ Hshape)
    as (evB & evS & evG & -> & HB & HS & HG & HnoS & HnoG).
  intros (e & He & Hsilver & Hfail).
  assert (Hbad : forallb event_ok (evB ++ evS) = false \/
                 In e evG \/ In e checks).
  { rewrite !in_app_iff in He. destruct He as [[He | [He | He]] | He]; auto;
      left; rewrite forallb_app_ok; apply andb_false_iff;
      [left | right]; apply not_true_is_false; intros Hall;
      rewrite forallb_forall in Hall; specialize (Hall e He); congruence. }
  destruct Hbad as [Hbad | [HinG | HinC]].
  - rewrite (HnoG Hbad), app_nil_r in *.
    rewrite Hbad in Hres. subst ok. destruct Hok as [-> _].
    rewrite app_nil_r. intros e' He' Hgold.
    apply in_app_iff in He'. destruct He' as [He' | He'].
    + rewrite Forall_forall in HB. apply list_elem_of_In, HB in He'.
      eapply gold_not_bronze; eassumption.
    + rewrite Forall_forall in HS. apply list_elem_of_In, HS in He'.
      eapply gold_not_silver; eassumption.
  - rewrite Forall_forall in HG. apply list_elem_of_In, HG in HinG.
    exfalso. eapply gold_not_silver; eassumption.
  - destruct ok; [| destruct Hok as [-> _]; destruct HinC].
    destruct Hok as [Hro _]. rewrite Forall_forall in Hro.
    apply list_elem_of_In, Hro in HinC.
    exfalso. eapply verify_not_silver; eassumption.
Qed.

Lemma silver_failure_skips_gold_witness :
  In silver_failure
     (new_events (etl_medallion.run_etl default_project default_bucket)
                 silver_fails) /\
  Forall (fun e => ~ In (event_sql e)
                        (stage_statements default_project default_bucket Gold))
         (new_events (etl_medallion.run_etl default_project default_bucket)
                     silver_fails).
Proof.
  assert (Hin : In silver_failure
                   (new_events (etl_medallion.run_etl default_project default_bucket)
                               silver_fails)).
  { vm_compute. do 5 right. left. reflexivity. }
  split; [exact Hin |].
  apply Forall_forall. intros e He. apply list_elem_of_In in He.
  apply (silver_failure_skips_gold default_project default_bucket silver_fails);
    [| exact He].
  exists silver_failure. split; [exact Hin | split].
  - vm_compute. right. left. reflexivity.
  - reflexivity.
Defined.

(** C10.  [run_query] never raises: it returns whether the statement
    completed.  [run_etl] returns [None] from every state, whether or not
    a stage failed; what tells a failed run from a successful one is the
    text it prints, which ends with a different line in the two cases. *)
Theorem run_etl_returns_none {W : World} (PROJECT_ID BUCKET : string)
    (st : State W) :
  (forall sql desc (st0 : State W), exists ok st1,
      etl_medallion.run_query sql desc st0 = (Returned ok, st1) /\
      trace st1 = trace st0 ++ [Submitted sql ok]) /\
  (exists evs checks st',
      etl_medallion.run_etl PROJECT_ID BUCKET st = (Returned tt, st') /\
      trace st' = trace st ++ evs ++ checks /\
      stages_shape PROJECT_ID BUCKET [Bronze; Silver; Gold] evs
                   (forallb event_ok evs) /\
      last (stdout st') =
        Some (if forallb event_ok evs then success_footer else failure_footer)) /\
  success_footer <> failure_footer.
Proof.
  split; [| split].
  - intros sql desc st0.
    destruct (run_query_returns sql desc st0) as (ok & st1 & H1 & H2 & _).
    eauto.
  - destruct (run_etl_trace PROJECT_ID BUCKET st)
      as (ok & evs & checks & st' & Hrun & Htr & Hshape & Hok).
    pose proof (stages_shape_result _ _ _ _ _ Hshape) as Hres. subst ok.
    exists evs, checks, st'. repeat split; try assumption.
    destruct (forallb event_ok evs); tauto.
  - discriminate.
Qed.

(** Both kinds of run exist: one in which everything completes, and one
    in which the first statement fails. *)
Example run_etl_success_and_failure :
  fst (etl_medallion.run_etl default_project default_bucket (start []))
    = Returned tt /\
  last (stdout (snd (etl_medallion.run_etl default_project default_bucket
                       (start [])))) = Some success_footer /\
  fst (etl_medallion.run_etl default_project default_bucket bronze_fails)
    = Returned tt /\
  last (stdout (snd (etl_medallion.run_etl default_project default_bucket
                       bronze_fails))) = Some failure_footer.
Proof. repeat split; vm_compute; reflexivity. Qed.

(** * The HTTP facade *)

(** What the trigger route answers: 200 with the stage list whenever
    [get_json] returns, 500 with the message of the exception when it
    raises.  The outcome of the stages has no part in it. *)
Lemma trigger_etl_endpoint_answer {W : World} (PROJECT_ID BUCKET : string)
    (request : Request) (st : State W) :
  exists response st',
    main.trigger_etl_endpoint PROJECT_ID BUCKET request st
      = (Returned response, st') /\
    match get_json request with
    | Returned _ =>
        status_code response = 200 /\
        body_field "status" response = Some (JString "success") /\
        body_field "layers_processed" response
          = Some (JList ["bronze"; "silver"; "gold"])
    | Raised e =>
        status_code response = 500 /\
        body_field "status" response = Some (JString "error") /\
        body_field "message" response = Some (JString (str_exn e)) /\
        body_field "suggestion" response
          = Some (JString "Verifica logs de BigQuery y permisos de GCS")
    end.
Proof.
  unfold main.trigger_etl_endpoint, try_except.
  unfold bind at 1. cbn [logger_record]. unfold bind at 1. unfold lift at 1.
  destruct (get_json request) as [parsed | e].
  - unfold bind at 1. cbn [logger_record]. unfold bind at 1.
    match goal with
    | |- context [etl_medallion.run_etl _ _ ?st0] =>
        destruct (run_etl_trace PROJECT_ID BUCKET st0)
          as (ok & evs & checks & st1 & -> & _)
    end.
    unfold bind at 1, utcnow_isoformat at 1.
    destruct (w_utcnow W (world st1)) as [now w'].
    unfold bind at 1. cbn [logger_record ret].
    eexists _, _. split; [reflexivity |]. repeat split.
  - unfold bind at 1. cbn [logger_record].
    unfold bind at 1, utcnow_isoformat at 1. cbn [world].
    destruct (w_utcnow W (world st)) as [now w'].
    cbn [ret]. eexists _, _. split; [reflexivity |]. repeat split.
Qed.

(** C2 at the failing input: the request carries the JSON body [{}], the
    first statement of the bronze stage fails, the run stops there, and
    the route still answers 200 with status "success" and the three
    stages listed as processed. *)
Theorem trigger_reports_success_after_failure :
  fst (main.trigger_etl_endpoint default_project default_bucket empty_json_body
         bronze_fails)
  = Returned ([ ("status", JString "success");
                ("message", JString "ETL pipeline completed successfully");
                ("timestamp", JString "2025-01-01T00:00:00");
                ("layers_processed", JList ["bronze"; "silver"; "gold"]) ],
              200) /\
  trace (snd (main.trigger_etl_endpoint default_project default_bucket
                empty_json_body bronze_fails))
  = [Submitted (stage_schema default_project Bronze) false].
Proof. split; vm_compute; reflexivity. Qed.

(** * Credential resolution *)

Section ResolutionFacts.
Variable L : ClientLibrary.
Variable path_exists : string -> bool.

(** What both modules do with a key file that exists. *)
Lemma scan_paths_find (paths : list (option string))
    (otherwise : M Host (client L)) (h : Host) :
  scan_paths L path_exists paths otherwise h =
  match List.find path_exists (omap usable paths) with
  | Some p =>
      (print ("✅ Credenciales encontradas: " +:+ p) ;;;
       os_environ_set "GOOGLE_APPLICATION_CREDENTIALS" p ;;;
       client_default L) h
  | None => otherwise h
  end.
Proof.
  induction paths as [| path paths IH]; cbn [scan_paths]; [reflexivity |].
  destruct path as [[| c p] |]; cbn; try exact IH.
  destruct (path_exists (String c p)); [reflexivity | exact IH].
Qed.

(** The handler of both modules prints two lines and raises the same
    exception again. *)
Lemma reraise_keeps {A} (body : M Host A) (line : exn -> string) (tip : string)
    (h : Host) (o : outcome A) (env : gmap string string) :
  (exists h', body h = (o, h') /\ environ h' = env) ->
  exists h',
    try_except body (fun e => print (line e) ;;; print tip ;;; raise e) h
      = (o, h') /\
    environ h' = env.
Proof.
  intros (h' & Hb & He). unfold try_except. rewrite Hb.
  destruct o as [a | e]; cbn; eauto.
Qed.
End ResolutionFacts.

(** C8.  In both modules credential resolution follows the order (a)
    runtime marker, (b) first existing candidate file, (c) JSON variable,
    and otherwise raises the generic error: the value returned or the
    exception raised is that of building a client from the first source
    that applies, and a key file that is used is recorded in the
    environment. *)
Theorem credential_resolution_order (L : ClientLibrary)
    (path_exists : string -> bool) (h : Host) :
  let src := credential_source path_exists (environ h) in
  (exists h',
      etl_medallion.setup_gcp_credentials L path_exists h
        = (client_of_source L true src (environ h), h') /\
      environ h' = environ_after src (environ h)) /\
  (exists h',
      data_generator.setup_gcp_credentials L path_exists h
        = (client_of_source L false src (environ h), h') /\
      environ h' = environ_after src (environ h)).
Proof.
  cbv zeta.
  unfold etl_medallion.setup_gcp_credentials, data_generator.setup_gcp_credentials.
  split; apply reraise_keeps;
    unfold credential_source, candidate_files, bind at 1, os_getenv at 1;
    (destruct (truthy (environ h !! "K_SERVICE")) eqn:Hmarker;
     [ cbn; eauto |]);
    unfold bind at 1, candidate_paths, bind at 1, os_getenv at 1; cbn [ret];
    rewrite scan_paths_find;
    (destruct (List.find path_exists _) as [path |];
     [ cbn; eauto |]);
    unfold bind at 1, os_getenv at 1;
    destruct (environ h !! "GOOGLE_CREDENTIALS_JSON") as [[| c blob] |];
    cbn [usable truthy client_of_source environ_after raise];
    eauto.
  - unfold bind at 1. cbn [print]. unfold bind at 1, lift at 1.
    destruct (json_loads L (String c blob)) as [info | e]; cbn [and_then];
      [| eauto].
    unfold bind at 1, lift at 1.
    destruct (from_service_account_info L info) as [creds | e]; cbn [and_then];
      [| eauto].
    unfold bind at 1, lift at 1.
    destruct (info_get L info "project_id") as [project_id | e]; cbn [and_then];
      unfold lift; eauto.
  - unfold bind at 1, lift at 1.
    destruct (json_loads L (String c blob)) as [info | e]; cbn [and_then];
      [| eauto].
    unfold bind at 1, lift at 1.
    destruct (from_service_account_info L info) as [creds | e]; cbn [and_then];
      [| eauto].
    unfold bind at 1. cbn [print]. unfold lift. eauto.
Qed.

(** The four sources, on a host with a key file named by the
    environment. *)
Example resolution_on_laptop :
  credential_source laptop_files (environ laptop) = KeyFile "/home/dev/key.json" /\
  fst (etl_medallion.setup_gcp_credentials describing laptop_files laptop)
    = Returned (BuiltDefault (Some "/home/dev/key.json")) /\
  fst (etl_medallion.setup_gcp_credentials describing laptop_files
         (mkHost (<["K_SERVICE" := "etl"]> (environ laptop)) []))
    = Returned (BuiltDefault (Some "/home/dev/key.json")) /\
  fst (etl_medallion.setup_gcp_credentials describing (fun _ => false) laptop)
    = Returned (BuiltExplicit "{}" (ProjectGiven None)) /\
  fst (data_generator.setup_gcp_credentials describing (fun _ => false) laptop)
    = Returned (BuiltExplicit "{}" ProjectOmitted) /\
  fst (data_generator.setup_gcp_credentials describing (fun _ => false)
         (mkHost ∅ []))
    = Raised (Exn "Exception" "No se encontraron credenciales") /\
  console (snd (data_generator.setup_gcp_credentials describing (fun _ => false)
                  (mkHost ∅ [])))
    = [ "❌ Error configurando credenciales: No se encontraron credenciales";
        "💡 Verifica que existe 'service-account-key.json' en tu proyecto" ].
Proof. repeat split; vm_compute; reflexivity. Qed.

(** * The generator *)

(** ** Computations that return *)

Lemma yields_ret {A} (a : A) (P : A -> Prop) : P a -> yields (ret a) P.
Proof. intros Ha t. exists a, t. auto. Qed.

Lemma yields_lift {A} (a : A) (P : A -> Prop) :
  P a -> yields (lift (Returned a)) P.
Proof. intros Ha t. exists a, t. auto. Qed.

Lemma yields_bind {A B} (c : M nat A) (k : A -> M nat B)
    (P : A -> Prop) (Q : B -> Prop) :
  yields c P -> (forall a, P a -> yields (k a) Q) -> yields (bind c k) Q.
Proof.
  intros Hc Hk t. unfold bind.
  destruct (Hc t) as (a & t1 & -> & Ha). exact (Hk a Ha t1).
Qed.

Lemma yields_weaken {A} (c : M nat A) (P Q : A -> Prop) :
  yields c P -> (forall a, P a -> Q a) -> yields c Q.
Proof.
  intros Hc HPQ t. destruct (Hc t) as (a & t1 & Hrun & Ha). eauto.
Qed.

Section ChanceFacts.
Variable C : Chance.

Lemma unit_of_raw_range (k : N) : (0 <= unit_of_raw k < 1)%Q.
Proof.
  unfold unit_of_raw, Qle, Qlt. cbn [Qnum Qden].
  assert (k mod 2 ^ 53 < 2 ^ 53)%N by (apply N.mod_lt; discriminate).
  change (2 ^ 53)%positive with 9007199254740992%positive.
  change (2 ^ 53)%N with 9007199254740992%N in *.
  set (r := (k mod 9007199254740992)%N) in *. clearbody r.
  split; lia.
Qed.

Lemma random_random_yields :
  yields (random_random C) (fun u => (0 <= u < 1)%Q).
Proof.
  intros t. eexists _, _. split; [reflexivity |].
  apply (unit_of_raw_range (raw C t)).
Qed.

Lemma random_uniform_yields (a b : Q) :
  (a <= b)%Q -> yields (random_uniform C a b) (fun x => (a <= x <= b)%Q).
Proof.
  intros Hab. unfold random_uniform.
  eapply yields_bind; [apply random_random_yields |].
  intros u Hu. apply yields_ret. cbv beta in *.
  assert (0 <= (b - a) * u)%Q by (apply Qmult_le_0_compat; lra).
  assert (0 <= (b - a) * (1 - u))%Q by (apply Qmult_le_0_compat; lra).
  split; lra.
Qed.

Lemma random_choice_yields {A} (seq : list A) :
  seq <> [] -> yields (random_choice C seq) (fun x => In x seq).
Proof.
  intros Hne t. destruct seq as [| a seq]; [congruence |].
  unfold random_choice, bind, draw.
  set (i := N.to_nat (raw C t mod N.of_nat (length (a :: seq)))).
  assert (Hi : (i < length (a :: seq))%nat).
  { subst i. assert (raw C t mod N.of_nat (length (a :: seq))
                     < N.of_nat (length (a :: seq)))%N
      by (apply N.mod_lt; cbn [length]; lia).
    lia. }
  destruct (lookup_lt_is_Some_2 _ _ Hi) as [x Hx]. rewrite Hx.
  exists x, (S t). split; [reflexivity |].
  apply list_elem_of_In. eapply list_elem_of_lookup_2. exact Hx.
Qed.

Lemma random_randint_yields (a b : Z) :
  a <= b -> yields (random_randint C a b) (fun x => a <= x <= b).
Proof.
  intros Hab t. unfold random_randint.
  destruct (b <? a) eqn:Hba; [lia |].
  unfold bind, draw. eexists _, _. split; [reflexivity |].
  cbv beta. pose proof (Z.mod_pos_bound (Z.of_N (raw C t)) (b - a + 1)). lia.
Qed.

Lemma bisect_right_le (a : list Z) (x : Q) (hi : nat) :
  (bisect_right a x hi <= hi)%nat.
Proof.
  revert a. induction hi as [| hi IH]; intros [| y a]; cbn; try lia.
  destruct (Qle_bool (inject_Z y) x); [| lia].
  specialize (IH a). lia.
Qed.

Lemma random_choices_yields {A} (population : list A) (weights : list Z)
    (total : Z) :
  population <> [] ->
  length (accumulate weights) = length population ->
  last (accumulate weights) = Some total ->
  0 < total ->
  yields (random_choices C population weights) (fun x => In x population).
Proof.
  intros Hne Hlen Hlast Htotal t. unfold random_choices.
  rewrite Hlen, Nat.eqb_refl, Hlast. cbn [negb].
  destruct (total <=? 0) eqn:Hle; [lia |].
  unfold bind, random_random, bind, draw. cbn [ret].
  match goal with
  | |- context [population !! ?i] =>
      assert (Hi : (i < length population)%nat)
  end.
  { match goal with
    | |- (bisect_right ?a ?x ?hi < _)%nat =>
        pose proof (bisect_right_le a x hi)
    end.
    destruct population; [congruence | cbn [length] in *; lia]. }
  destruct (lookup_lt_is_Some_2 _ _ Hi) as [x Hx]. rewrite Hx.
  eexists x, _. split; [reflexivity |].
  apply list_elem_of_In. eapply list_elem_of_lookup_2. exact Hx.
Qed.

Lemma fake_yields (l : locale) (name : string) :
  yields (fake C l name) (fun _ => True).
Proof. intros t. eexists _, _. split; [reflexivity | exact I]. Qed.

Lemma datetime_now_yields : yields (datetime_now_isoformat C) (fun _ => True).
Proof. intros t. eexists _, _. split; [reflexivity | exact I]. Qed.

Lemma date_between_yields (l : locale) (start_date end_date : date_arg)
    (s e : Z) :
  parse_date (today C) start_date = Returned s ->
  parse_date (today C) end_date = Returned e ->
  yields (date_between C l start_date end_date)
         (fun d => Z.min s e <= d <= Z.max s e).
Proof.
  intros Hs He t. unfold date_between, bind, lift, draw.
  rewrite Hs, He. cbn [ret]. eexists _, _. split; [reflexivity |].
  cbv beta.
  pose proof (Z.mod_pos_bound (Z.of_N (raw C t)) (Z.max s e - Z.min s e + 1)).
  lia.
Qed.
End ChanceFacts.

(** ** Rounding *)

Lemma round_half_even_between (y : Q) (L H : Z) :
  (inject_Z L <= y <= inject_Z H)%Q -> L <= round_half_even y <= H.
Proof.
  intros [HL HH]. unfold round_half_even.
  pose proof (Qfloor_le y) as Hf.
  assert (HLf : L <= Qfloor y).
  { rewrite <- (Qfloor_Z L). apply Qfloor_resp_le. exact HL. }
  assert (HfH : Qfloor y <= H).
  { rewrite <- (Qfloor_Z H). apply Qfloor_resp_le. exact HH. }
  assert (Hup : (1 # 2 <= y - inject_Z (Qfloor y))%Q -> Qfloor y + 1 <= H).
  { intros Hhalf.
    assert (Hlt : (inject_Z (Qfloor y) < inject_Z H)%Q) by lra.
    rewrite <- Zlt_Qlt in Hlt. lia. }
  destruct (y - inject_Z (Qfloor y) ?= 1 # 2)%Q eqn:Hcmp.
  - apply Qeq_alt in Hcmp.
    assert (Hhalf : (1 # 2 <= y - inject_Z (Qfloor y))%Q) by lra.
    specialize (Hup Hhalf). destruct (Z.even (Qfloor y)); lia.
  - lia.
  - apply Qgt_alt in Hcmp.
    assert (Hhalf : (1 # 2 <= y - inject_Z (Qfloor y))%Q) by lra.
    specialize (Hup Hhalf). lia.
Qed.

(** Rounding to cents keeps an amount between two bounds in whole
    cents. *)
Lemma py_round_between (x l h : Q) :
  on_grid l -> on_grid h -> (l <= x <= h)%Q -> (l <= py_round x 2 <= h)%Q.
Proof.
  unfold on_grid, py_round. intros Hl Hh [Hlx Hxh].
  change (inject_Z (10 ^ Z.of_nat 2)) with 100%Q.
  destruct (round_half_even_between (x * 100) (Qfloor (l * 100)) (Qfloor (h * 100)))
    as [H1 H2].
  { split; lra. }
  rewrite Zle_Qle in H1, H2.
  split.
  - apply Qle_shift_div_l; lra.
  - apply Qle_shift_div_r; lra.
Qed.

(** ** Employees *)

Tactic Notation "ystep" tactic3(lem) "as" ident(x) ident(H) :=
  eapply yields_bind; [ lem | intros x H; cbv beta in H ].

Section EmployeeFacts.
Variable C : Chance.

Lemma draw_base_salary_yields (ranges : list (string * (Q * Q))) :
  Forall (fun r => (fst (snd r) <= snd (snd r))%Q) ranges ->
  yields (data_generator.draw_base_salary C ranges)
    (fun d => forall level, In level (map fst ranges) ->
       exists lo hi base,
         In (level, (lo, hi)) ranges /\
         dict_get d level = Returned base /\
         (lo <= base <= hi)%Q).
Proof.
  induction ranges as [| [lv [lo hi]] rs IH]; intros Hranges;
    cbn [data_generator.draw_base_salary].
  - apply yields_ret. intros level [].
  - apply Forall_cons_1 in Hranges as [Hle Hrs]. cbn in Hle.
    ystep (apply random_uniform_yields; exact Hle) as x Hx.
    ystep (apply IH; exact Hrs) as rest Hrest.
    apply yields_ret. intros level Hin. cbn [dict_get].
    destruct (String.eqb lv level) eqn:Heq.
    + apply String.eqb_eq in Heq. subst level.
      exists lo, hi, x. split; [left; reflexivity | auto].
    + destruct Hin as [Hin | Hin].
      * cbn in Hin. subst level. rewrite String.eqb_refl in Heq. discriminate.
      * destruct (Hrest level Hin) as (lo' & hi' & base & Hr & Hget & Hb).
        exists lo', hi', base. split; [right; exact Hr | auto].
Qed.

Lemma salary_in_band (level dept : string) (lo hi base : Q) :
  In (level, (lo, hi)) data_generator.base_salary_ranges ->
  (lo <= base <= hi)%Q ->
  (data_generator.dept_multiplier dept * lo
   <= py_round (base * data_generator.dept_multiplier dept) 2
   <= data_generator.dept_multiplier dept * hi)%Q.
Proof.
  intros Hin Hbase. unfold data_generator.dept_multiplier.
  unfold data_generator.base_salary_ranges in Hin. cbn [In] in Hin.
  destruct (str_in dept data_generator.tech_departments);
    in_cases Hin; injection Hin as <- <- <-;
    (apply py_round_between;
     [ vm_compute; reflexivity | vm_compute; reflexivity | lra ]).
Qed.

Lemma new_employee_yields (emp_id : Z) :
  yields (data_generator.new_employee C emp_id)
         (fun e => employee_id e = employee_number emp_id /\ salary_ok e).
Proof.
  unfold data_generator.new_employee.
  ystep (apply random_choice_yields; discriminate) as faker Hfaker.
  ystep (apply fake_yields) as first Hfirst.
  ystep (apply fake_yields) as last Hlast.
  ystep (apply random_choice_yields; discriminate) as dept Hdept.
  ystep (apply random_choice_yields; discriminate) as level Hlevel.
  ystep (apply random_choice_yields; discriminate) as place Hplace.
  ystep (apply draw_base_salary_yields; repeat constructor; cbn; lra)
    as base_salary Hdict.
  destruct (Hdict level Hlevel) as (lo & hi & base & Hrange & Hget & Hbase).
  rewrite Hget.
  eapply yields_bind with (P := fun b => b = base);
    [apply yields_lift; reflexivity | intros base' ->].
  ystep (eapply date_between_yields; reflexivity) as hired Hhired.
  ystep (apply random_random_yields) as keep Hkeep.
  eapply yields_bind with (P := fun _ => True).
  { destruct (Qgtb _ _); [| apply yields_ret; exact I].
    ystep (eapply date_between_yields; reflexivity) as d Hd.
    apply yields_ret. exact I. }
  intros last_promotion _.
  ystep (apply fake_yields) as job Hjob.
  ystep (apply fake_yields) as phone Hphone.
  eapply yields_bind with (P := fun _ => True).
  { destruct (1 <? emp_id); [| apply yields_ret; exact I].
    ystep (apply random_random_yields) as p Hp.
    destruct (Qgtb _ _); [| apply yields_ret; exact I].
    ystep (apply random_randint_yields; lia) as m Hm.
    apply yields_ret. exact I. }
  intros manager _.
  ystep (apply random_uniform_yields; lra) as rating Hrating.
  ystep (apply random_choice_yields; discriminate) as active Hactive.
  ystep (apply random_choice_yields; discriminate) as work Hwork.
  ystep (apply datetime_now_yields) as created Hcreated.
  apply yields_ret. split; [reflexivity |].
  unfold salary_ok. cbn [job_level department salary].
  exists lo, hi, base. split; [exact Hrange |]. split; [exact Hbase |].
  split; [reflexivity |].
  pose proof (salary_in_band _ dept _ _ _ Hrange Hbase) as Hband.
  unfold data_generator.dept_multiplier in *.
  change data_generator.tech_departments
    with ["Engineering"; "Data Science"; "DevOps"] in *.
  destruct (str_in dept ["Engineering"; "Data Science"; "DevOps"]);
    (split; [reflexivity | lra]).
Qed.
End EmployeeFacts.

(** ** Identifiers *)

Lemma decode_zero (s : string) : decode (String "0" s) = decode s.
Proof.
  unfold decode. cbn [NilEmpty.uint_of_string].
  destruct (NilEmpty.uint_of_string s); reflexivity.
Qed.

Lemma decode_string_of_uint (d : Decimal.uint) :
  decode (NilZero.string_of_uint d) = Some (N.of_uint d).
Proof.
  unfold decode.
  destruct d; try reflexivity;
    unfold NilZero.string_of_uint; rewrite NilEmpty.usu; reflexivity.
Qed.

Lemma decode_digits (n : N) : decode (digits n) = Some n.
Proof.
  unfold digits. rewrite decode_string_of_uint.
  rewrite DecimalN.Unsigned.of_to. reflexivity.
Qed.

Lemma decode_zfill (width : nat) (n : N) : decode (zfill width (digits n)) = Some n.
Proof.
  unfold zfill. induction (width - String.length (digits n))%nat as [| k IH].
  - apply decode_digits.
  - change (decode (String "0" (zeros k +:+ digits n)) = Some n).
    rewrite decode_zero. exact IH.
Qed.

Lemma employee_number_inj (i j : Z) :
  0 <= i -> 0 <= j -> employee_number i = employee_number j -> i = j.
Proof.
  intros Hi Hj H. unfold employee_number in H. apply append_cancel in H.
  unfold format_0d in H.
  destruct (i <? 0) eqn:Hi'; [lia |]. destruct (j <? 0) eqn:Hj'; [lia |].
  apply (f_equal decode) in H. rewrite !decode_zfill in H.
  injection H as H. lia.
Qed.

Lemma digit_in (d : Z) : 0 <= d <= 9 -> In d decimal_digits.
Proof. intros Hd. unfold decimal_digits. cbn [In]. lia. Qed.

Lemma split_digits (i : Z) :
  0 <= i <= 99999 ->
  exists a b c d e,
    i = 10000 * a + 1000 * b + 100 * c + 10 * d + e /\
    0 <= a <= 9 /\ 0 <= b <= 9 /\ 0 <= c <= 9 /\ 0 <= d <= 9 /\ 0 <= e <= 9.
Proof.
  intros Hi.
  exists (i / 10000), (i / 1000 mod 10), (i / 100 mod 10), (i / 10 mod 10),
         (i mod 10).
  Z.div_mod_to_equations. lia.
Qed.

(** Every number written with five decimal digits is formatted in
    exactly five characters: checked by running [format_0d] on all of
    them. *)
Lemma five_digit_check :
  forallb (fun a => forallb (fun b => forallb (fun c => forallb (fun d =>
  forallb (fun e =>
    (String.length (format_0d 5 (10000 * a + 1000 * b + 100 * c + 10 * d + e))
     =? 5)%nat)
  decimal_digits) decimal_digits) decimal_digits) decimal_digits) decimal_digits
  = true.
Proof. vm_compute. reflexivity. Qed.

(** Up to 99999 the number takes exactly five digits. *)
Lemma five_digits (i : Z) :
  0 <= i <= 99999 -> String.length (format_0d 5 i) = 5%nat.
Proof.
  intros Hi.
  destruct (split_digits i Hi) as (a & b & c & d & e & -> & Ha & Hb & Hc & Hd & He).
  clear Hi.
  pose proof five_digit_check as Hall.
  rewrite forallb_forall in Hall. specialize (Hall a (digit_in a Ha)).
  rewrite forallb_forall in Hall. specialize (Hall b (digit_in b Hb)).
  rewrite forallb_forall in Hall. specialize (Hall c (digit_in c Hc)).
  rewrite forallb_forall in Hall. specialize (Hall d (digit_in d Hd)).
  rewrite forallb_forall in Hall. specialize (Hall e (digit_in e He)).
  apply Nat.eqb_eq in Hall. exact Hall.
Qed.

(** ** Loops that collect *)

Lemma collect_loop {X Y} (f : X -> M nat Y) (P : X -> Y -> Prop)
    (body : list Y -> X -> M nat (list Y)) :
  (forall acc x t, body acc x t = bind (f x) (fun y => ret (acc ++ [y])) t) ->
  (forall x, yields (f x) (P x)) ->
  forall xs acc,
    yields (for_each xs acc body)
           (fun ys => exists new, ys = acc ++ new /\ Forall2 P xs new).
Proof.
  intros Hbody Hf xs. induction xs as [| x xs IH]; intros acc t.
  - exists acc, t. split; [reflexivity |]. exists []. rewrite app_nil_r. auto.
  - cbn [for_each]. unfold bind at 1. rewrite Hbody. unfold bind at 1.
    destruct (Hf x t) as (y & t1 & -> & Hy). cbn [ret].
    destruct (IH (acc ++ [y]) t1) as (ys & t2 & -> & new & -> & Hnew).
    exists ((acc ++ [y]) ++ new), t2. split; [reflexivity |].
    exists (y :: new). rewrite <- app_assoc. split; [reflexivity |].
    constructor; assumption.
Qed.

Lemma generate_employees_yields (C : Chance) (num_employees : Z) :
  yields (data_generator.generate_employees C num_employees)
         (fun es => Forall2 (fun i e => employee_id e = employee_number i /\
                                        salary_ok e)
                            (seqZ 1 num_employees) es).
Proof.
  unfold data_generator.generate_employees.
  eapply yields_weaken.
  - apply (collect_loop (data_generator.new_employee C)
             (fun i e => employee_id e = employee_number i /\ salary_ok e)).
    + reflexivity.
    + apply new_employee_yields.
  - cbv beta. intros es (new & -> & Hnew). exact Hnew.
Qed.

Lemma numbered_employees (xs : list Z) (es : list Employee) :
  Forall2 (fun i e => employee_id e = employee_number i /\ salary_ok e) xs es ->
  map employee_id es = map employee_number xs /\ Forall salary_ok es.
Proof.
  induction 1 as [| i e xs es [Hid Hsal] _ [IHids IHsal]].
  - split; constructor.
  - split; [cbn [map]; rewrite Hid, IHids; reflexivity | constructor; assumption].
Qed.

(** C4.  From every state of the oracles and for every count [N],
    [generate_employees] returns; the list has exactly [N] records (none
    when [N] is negative), whose identifiers are, in order, those of the
    numbers 1 to [N]: EMP- followed by the number padded with zeros to
    five digits.  The identifiers are pairwise distinct, and five digits
    are enough up to 99999. *)
Theorem generate_employees_sequential_ids (C : Chance) (N : Z) (t : nat) :
  exists es t',
    data_generator.generate_employees C N t = (Returned es, t') /\
    length es = Z.to_nat N /\
    map employee_id es = map employee_number (seqZ 1 N) /\
    NoDup (map employee_id es) /\
    (forall i, 1 <= i <= 99999 -> String.length (employee_number i) = 9%nat).
Proof.
  destruct (generate_employees_yields C N t) as (es & t' & Hrun & Hes).
  exists es, t'. split; [exact Hrun |].
  pose proof (proj1 (numbered_employees _ _ Hes)) as Hids.
  split; [| split; [exact Hids | split]].
  - apply Forall2_length in Hes. rewrite <- Hes. apply length_seqZ.
  - rewrite Hids. apply NoDup_fmap_2_strong; [| apply NoDup_seqZ].
    intros i j Hi Hj. apply elem_of_seqZ in Hi, Hj.
    apply employee_number_inj; lia.
  - intros i Hi. unfold employee_number.
    change ("EMP-" +:+ format_0d 5 i)
      with (String "E" (String "M" (String "P" (String "-" (format_0d 5 i))))).
    cbn [String.length]. rewrite five_digits; [reflexivity | lia].
Qed.

Example three_employees :
  match fst (data_generator.generate_employees demo 3 0%nat) with
  | Returned es => map employee_id es = ["EMP-00001"; "EMP-00002"; "EMP-00003"]
  | Raised _ => False
  end.
Proof. vm_compute. reflexivity. Qed.


(** ** Sale dates *)

Lemma parse_two_minutes (T : Z) :
  parse_date T (DateString "-2m") = Returned (T + -1).
Proof. reflexivity. Qed.

Lemma parse_one_year (T : Z) :
  parse_date T (DateString "-1y") = Returned (T + -366).
Proof. reflexivity. Qed.

Lemma parse_today (T : Z) : parse_date T (DateString "today") = Returned T.
Proof. reflexivity. Qed.

(** Which raw draws select the high season: those from
    6305039478318695 on, out of 2^53. *)
Lemma high_season_draws (k : N) :
  Qgtb (unit_of_raw k) 0.7 = (6305039478318695 <=? Z.of_N (k mod 2 ^ 53)).
Proof.
  unfold Qgtb, Qle_bool, unit_of_raw. cbn [Qnum Qden].
  change (Z.pos (2 ^ 53)) with 9007199254740992.
  set (r := Z.of_N (k mod 2 ^ 53)).
  destruct (r * 10 <=? 7 * 9007199254740992) eqn:H1;
    destruct (6305039478318695 <=? r) eqn:H2; cbn [negb]; try reflexivity; lia.
Qed.

Lemma draw_sale_date_branch (C : Chance) (t : nat) :
  data_generator.draw_sale_date C t
  = (if Qgtb (unit_of_raw (raw C t)) 0.7
     then date_between C en_US (DateString "-2m") (DateString "today")
     else date_between C en_US (DateString "-1y") (DateString "-2m")) (S t).
Proof. reflexivity. Qed.

Lemma draw_sale_date_spec (C : Chance) (t : nat) :
  exists d t',
    data_generator.draw_sale_date C t = (Returned d, t') /\
    exists bound,
      parse_date (today C) (DateString "-2m") = Returned bound /\
      today C - 366 <= bound <= today C /\
      if Qgtb (unit_of_raw (raw C t)) 0.7
      then bound <= d <= today C
      else today C - 366 <= d <= bound.
Proof.
  rewrite draw_sale_date_branch.
  destruct (Qgtb (unit_of_raw (raw C t)) 0.7).
  - destruct (date_between_yields C en_US (DateString "-2m") (DateString "today")
                _ _ (parse_two_minutes _) (parse_today _) (S t))
      as (d & t' & Hrun & Hd).
    rewrite Hrun. exists d, t'. split; [reflexivity |].
    exists (today C + -1). split; [reflexivity |]. split; lia.
  - destruct (date_between_yields C en_US (DateString "-1y") (DateString "-2m")
                _ _ (parse_one_year _) (parse_two_minutes _) (S t))
      as (d & t' & Hrun & Hd).
    rewrite Hrun. exists d, t'. split; [reflexivity |].
    exists (today C + -1). split; [reflexivity |]. split; lia.
Qed.

(** ** Sales *)

Section SaleFacts.
Variable C : Chance.

Lemma draw_sale_date_yields :
  yields (data_generator.draw_sale_date C)
         (fun d => today C - 366 <= d <= today C).
Proof.
  intros t.
  destruct (draw_sale_date_spec C t) as (d & t' & Hrun & bound & _ & Hb & Hd).
  exists d, t'. split; [exact Hrun |].
  destruct (Qgtb _ _); lia.
Qed.

Lemma new_sale_yields (active : list Product) (sellers : list Employee)
    (sale_id : Z) :
  active <> [] ->
  yields (data_generator.new_sale C active sellers sale_id)
         (sale_drawn_from C active sellers).
Proof.
  intros Hactive. unfold data_generator.new_sale.
  ystep (apply draw_sale_date_yields) as date Hdate.
  ystep (apply random_choice_yields; exact Hactive) as product Hproduct.
  ystep (eapply random_choices_yields with (total := 100);
         [discriminate | reflexivity | reflexivity | lia]) as qty Hqty.
  ystep (eapply random_choices_yields with (total := 100);
         [discriminate | reflexivity | reflexivity | lia]) as discount Hdiscount.
  ystep (apply random_choice_yields; discriminate) as segment Hsegment.
  eapply yields_bind with (P := fun _ => True).
  { destruct (String.eqb segment "Individual").
    - ystep (apply fake_yields) as name Hname.
      ystep (apply fake_yields) as mail Hmail.
      apply yields_ret. exact I.
    - ystep (apply fake_yields) as name Hname.
      ystep (apply fake_yields) as domain Hdomain.
      apply yields_ret. exact I. }
  intros customer _.
  eapply yields_bind
    with (P := fun rep => match rep with
                          | Some r => exists e, In e sellers /\ r = employee_id e
                          | None => sellers = []
                          end).
  { destruct sellers as [| e0 rest] eqn:Hsellers.
    - apply yields_ret. reflexivity.
    - ystep (apply random_choice_yields; discriminate) as rep Hrep.
      apply yields_ret. exists rep. auto. }
  intros rep Hrep.
  ystep (apply random_choice_yields; discriminate) as channel Hchannel.
  ystep (apply random_choice_yields; discriminate) as region Hregion.
  ystep (apply random_choice_yields; discriminate) as payment Hpayment.
  ystep (apply random_random_yields) as shipped Hshipped.
  eapply yields_bind with (P := fun _ => True).
  { destruct (Qgtb _ _); [| apply yields_ret; exact I].
    ystep (apply random_uniform_yields; lra) as x Hx.
    apply yields_ret. exact I. }
  intros shipping _.
  ystep (eapply random_choices_yields with (total := 100);
         [discriminate | reflexivity | reflexivity | lia]) as status Hstatus.
  ystep (apply datetime_now_yields) as created Hcreated.
  apply yields_ret. unfold sale_drawn_from.
  cbn [sale_product_id sales_rep_id sale_date].
  split; [exists product; auto |]. split; assumption.
Qed.

Lemma new_sale_raises (sellers : list Employee) (sale_id : Z) (t : nat) :
  fst (data_generator.new_sale C [] sellers sale_id t)
  = Raised (Exn "IndexError" "Cannot choose from an empty sequence").
Proof.
  unfold data_generator.new_sale, bind at 1.
  destruct (draw_sale_date_yields t) as (d & t' & -> & _).
  reflexivity.
Qed.

Lemma generate_sales_yields (num_sales : Z) (employees : list Employee)
    (products : list Product) :
  active_of products <> [] ->
  yields (data_generator.generate_sales C num_sales employees products)
         (fun sales =>
            length sales = Z.to_nat num_sales /\
            Forall (sale_drawn_from C (active_of products) (sellers_of employees))
                   sales).
Proof.
  intros Hactive. unfold data_generator.generate_sales.
  eapply yields_weaken.
  - apply (collect_loop
             (data_generator.new_sale C (active_of products) (sellers_of employees))
             (fun _ s => sale_drawn_from C (active_of products)
                                         (sellers_of employees) s)).
    + reflexivity.
    + intros sale_id. apply new_sale_yields. exact Hactive.
  - cbv beta. intros sales (new & -> & Hnew). cbn [app]. split.
    + apply Forall2_length in Hnew. rewrite <- Hnew. apply length_seqZ.
    + clear -Hnew. induction Hnew; constructor; assumption.
Qed.
End SaleFacts.

Lemma active_of_In (products : list Product) (p : Product) :
  In p (active_of products) <-> In p products /\ product_is_active p = true.
Proof.
  unfold active_of. rewrite <- !list_elem_of_In, list_elem_of_filter. tauto.
Qed.

Lemma sellers_of_In (employees : list Employee) (e : Employee) :
  In e (sellers_of employees) <-> In e employees /\ sells e = true.
Proof.
  unfold sellers_of. rewrite <- !list_elem_of_In, list_elem_of_filter. tauto.
Qed.

Lemma sale_drawn_refs (C : Chance) (employees : list Employee)
    (products : list Product) (s : Sale) :
  sale_drawn_from C (active_of products) (sellers_of employees) s ->
  sale_refs_ok employees products s.
Proof.
  intros ((p & Hp & Hid) & Hrep & _). apply active_of_In in Hp as [Hin Hact].
  split; [exists p; auto |].
  destruct (sales_rep_id s) as [rep |].
  - destruct Hrep as (e & He & ->). apply sellers_of_In in He as [He Hsells].
    exists e. auto.
  - intros e He. destruct (sells e) eqn:Hsells; [| reflexivity].
    assert (Hin' : In e (sellers_of employees)) by (apply sellers_of_In; auto).
    rewrite Hrep in Hin'. destruct Hin'.
Qed.

(** C6.  When the product list has an active product, [generate_sales]
    returns, with as many sales as asked for; the product of every sale is
    a product of the list that is active, and its sales representative is
    an employee of the list in Sales or Customer Success, or nobody when
    the list has no such employee. *)
Theorem generate_sales_references (C : Chance) (num_sales : Z)
    (employees : list Employee) (products : list Product) (t : nat) :
  (exists p, In p products /\ product_is_active p = true) ->
  exists sales t',
    data_generator.generate_sales C num_sales employees products t
      = (Returned sales, t') /\
    length sales = Z.to_nat num_sales /\
    Forall (sale_refs_ok employees products) sales.
Proof.
  intros (p & Hp & Hact).
  assert (Hactive : active_of products <> []).
  { intros Hnil. assert (Hin : In p (active_of products))
      by (apply active_of_In; auto).
    rewrite Hnil in Hin. destruct Hin. }
  destruct (generate_sales_yields C num_sales employees products Hactive t)
    as (sales & t' & Hrun & Hlen & Hall).
  exists sales, t'. split; [exact Hrun |]. split; [exact Hlen |].
  eapply Forall_impl; [exact Hall |].
  intros s. apply sale_drawn_refs.
Qed.

Lemma generate_sales_references_witness :
  (exists p, In p catalogue /\ product_is_active p = true) /\
  exists sales t',
    data_generator.generate_sales demo 3 staff catalogue 0%nat
      = (Returned sales, t') /\
    length sales = Z.to_nat 3 /\
    Forall (sale_refs_ok staff catalogue) sales.
Proof.
  assert (H : exists p, In p catalogue /\ product_is_active p = true).
  { exists (book 2 true). split; [right; left; reflexivity | reflexivity]. }
  split; [exact H |].
  exact (generate_sales_references demo 3 staff catalogue 0%nat H).
Defined.

(** C9.  For a positive count, [generate_sales] raises [IndexError] from
    [random.choice] when no product of the list is active, and returns
    when one is; in the second case a list of employees without anyone in
    Sales or Customer Success is no obstacle: every sale then has no
    sales representative. *)
Theorem generate_sales_needs_active_product (C : Chance) (num_sales : Z)
    (employees : list Employee) (products : list Product) (t : nat) :
  0 < num_sales ->
  match active_of products with
  | [] =>
      fst (data_generator.generate_sales C num_sales employees products t)
      = Raised (Exn "IndexError" "Cannot choose from an empty sequence")
  | _ :: _ =>
      exists sales,
        fst (data_generator.generate_sales C num_sales employees products t)
          = Returned sales /\
        (sellers_of employees = [] ->
         Forall (fun s => sales_rep_id s = None) sales)
  end.
Proof.
  intros Hpos. destruct (active_of products) as [| p0 rest] eqn:Hactive.
  - unfold data_generator.generate_sales. fold (active_of products).
    rewrite Hactive, (seqZ_cons 1 num_sales Hpos). cbn [for_each].
    unfold bind at 1, bind at 1.
    pose proof (new_sale_raises C
                  (filter (fun e => str_in (department e)
                                           ["Sales"; "Customer Success"] = true)
                          employees) 1 t) as Hraise.
    destruct (data_generator.new_sale C [] _ 1 t) as [[s | e] t'];
      cbn [fst] in Hraise; [discriminate | injection Hraise as ->; reflexivity].
  - assert (Hne : active_of products <> []) by (rewrite Hactive; discriminate).
    destruct (generate_sales_yields C num_sales employees products Hne t)
      as (sales & t' & Hrun & _ & Hall).
    exists sales. rewrite Hrun. split; [reflexivity |].
    intros Hnone. eapply Forall_impl; [exact Hall |].
    intros s (_ & Hrep & _). destruct (sales_rep_id s) as [rep |];
      [| reflexivity].
    destruct Hrep as (e & He & _). rewrite Hnone in He. destruct He.
Qed.

Lemma generate_sales_needs_active_product_witness :
  0 < 3 /\
  fst (data_generator.generate_sales demo 3 staff discontinued 0%nat)
  = Raised (Exn "IndexError" "Cannot choose from an empty sequence").
Proof.
  assert (H : 0 < 3) by lia.
  split; [exact H |].
  exact (generate_sales_needs_active_product demo 3 staff discontinued 0%nat H).
Defined.

(** The guarded case: an active product and nobody to sell it. *)
Example sales_without_sellers :
  match fst (data_generator.generate_sales demo 2 [] catalogue 0%nat) with
  | Returned sales => map sales_rep_id sales = [None; None]
  | Raised _ => False
  end.
Proof. vm_compute. reflexivity. Qed.

(** * The season of a sale *)

(** The window of the second branch starts one year back: a day thirteen
    months back is never a sale date. *)
Lemma off_season_starts_one_year_back :
  in_claimed_off_season some_day thirteen_months_earlier /\
  forall C t, today C = some_day ->
    fst (data_generator.draw_sale_date C t) <> Returned thirteen_months_earlier.
Proof.
  split.
  - unfold in_claimed_off_season. vm_compute. split; discriminate.
  - intros C t Htoday Hdraw.
    destruct (draw_sale_date_yields C t) as (d & t' & Hrun & Hd).
    rewrite Hrun in Hdraw. cbn [fst] in Hdraw. injection Hdraw as ->.
    rewrite Htoday in Hd. vm_compute in Hd. destruct Hd as [Hd _].
    apply Hd. reflexivity.
Qed.

(** The two windows as the code draws them.  The sale date is drawn by
    [date_between('-2m', 'today')] when [random.random() > 0.7] and by
    [date_between('-1y', '-2m')] otherwise.  The first case takes the raw
    draws from 6305039478318695 on, which is 30% of the 2^53 draws to
    within 2^-53.  The offset ['-1y'] is 366 days and the offset ['-2m'],
    two minutes, is one day: a date of the second case lies between 366
    days before today and yesterday, a date of the first case is
    yesterday or today. *)
Theorem sale_date_windows (C : Chance) (t : nat) :
  data_generator.draw_sale_date C t
  = (if Qgtb (unit_of_raw (raw C t)) 0.7
     then date_between C en_US (DateString "-2m") (DateString "today")
     else date_between C en_US (DateString "-1y") (DateString "-2m")) (S t) /\
  Qgtb (unit_of_raw (raw C t)) 0.7
  = (6305039478318695 <=? Z.of_N (raw C t mod 2 ^ 53)) /\
  ((3 # 10) - (1 # 2 ^ 53) < (2 ^ 53 - 6305039478318695) # 2 ^ 53 < 3 # 10)%Q /\
  parse_date (today C) (DateString "-1y") = Returned (today C + -366) /\
  parse_date (today C) (DateString "-2m") = Returned (today C + -1) /\
  exists d t',
    data_generator.draw_sale_date C t = (Returned d, t') /\
    if Qgtb (unit_of_raw (raw C t)) 0.7
    then today C - 1 <= d <= today C
    else today C - 366 <= d <= today C - 1.
Proof.
  split; [apply draw_sale_date_branch |].
  split; [apply high_season_draws |].
  split; [split; reflexivity |].
  split; [apply parse_one_year |].
  split; [apply parse_two_minutes |].
  destruct (draw_sale_date_spec C t)
    as (d & t' & Hrun & bound & Hbound & _ & Hd).
  rewrite parse_two_minutes in Hbound. injection Hbound as <-.
  exists d, t'. split; [exact Hrun |].
  destruct (Qgtb (unit_of_raw (raw C t)) 0.7); lia.
Qed.

(** C7 at a failing input.  The first draw is 0.0, which is not above
    0.7, so the date of the sale is drawn in the second branch, by
    [date_between('-1y', '-2m')]; the draw that follows picks the last
    day of that range.  Faker reads ['-2m'] as two minutes, so this day is
    yesterday: the one sale that [generate_sales] returns is dated
    yesterday, which is not between 14 months ago and 2 months ago (two
    months are 61 days). *)
Theorem off_season_sale_dated_yesterday :
  Qgtb (unit_of_raw (raw late_draw 0%nat)) 0.7 = false /\
  data_generator.draw_sale_date late_draw 0%nat
  = date_between late_draw en_US (DateString "-1y") (DateString "-2m") 1%nat /\
  fst (data_generator.draw_sale_date late_draw 0%nat)
  = Returned (today late_draw - 1) /\
  match fst (data_generator.generate_sales late_draw 1 [] catalogue 0%nat) with
  | Returned sales => map sale_date sales = [today late_draw - 1]
  | Raised _ => False
  end /\
  months_ago (today late_draw) 2 = today late_draw - 61 /\
  ~ in_claimed_off_season (today late_draw) (today late_draw - 1).
Proof.
  split; [reflexivity |].
  split; [reflexivity |].
  split; [reflexivity |].
  split; [vm_compute; reflexivity |].
  split; [reflexivity |].
  unfold in_claimed_off_season. vm_compute. intros [_ H]. apply H. reflexivity.
Qed.

(** How Faker reads the two spellings: [m] is minutes, and a date moved
    by minus two minutes is the day before; months are [M]. *)
Example minutes_and_months :
  parse_date some_day (DateString "-2m") = Returned (some_day - 1) /\
  parse_date some_day (DateString "-2M") = Returned (some_day - 61) /\
  months_ago some_day 14 = some_day - 426.
Proof. repeat split; reflexivity. Qed.

(** * Further properties of the pipeline *)

Section MoreDistinct.
Variables (PROJECT_ID BUCKET : string).

Lemma silver_not_bronze (s : string) :
  In s (stage_statements PROJECT_ID BUCKET Silver) ->
  ~ In s (stage_statements PROJECT_ID BUCKET Bronze).
Proof.
  unfold stage_statements, stage_schema, stage_tables,
    etl_medallion.transformations, etl_medallion.bronze_tables,
    etl_medallion.silver_schema_sql, etl_medallion.bronze_schema_sql,
    etl_medallion.bronze_load_sql.
  cbn [map fst snd In]. intros Hg Hb.
  in_cases Hg; subst s; in_cases Hb; str_neq Hb.
Qed.

Lemma verify_not_bronze (s : string) :
  is_verify_query PROJECT_ID s ->
  ~ In s (stage_statements PROJECT_ID BUCKET Bronze).
Proof.
  unfold stage_statements, stage_schema, stage_tables,
    etl_medallion.bronze_tables, etl_medallion.bronze_schema_sql,
    etl_medallion.bronze_load_sql,
    is_verify_query, etl_medallion.tables_query, etl_medallion.count_query.
  cbn [map fst snd In]. intros [[d ->] | [d [v ->]]] Hb;
    in_cases Hb; str_neq Hb.
Qed.

Lemma verify_not_gold (s : string) :
  is_verify_query PROJECT_ID s ->
  ~ In s (stage_statements PROJECT_ID BUCKET Gold).
Proof.
  unfold stage_statements, stage_schema, stage_tables,
    etl_medallion.analytics, etl_medallion.gold_schema_sql,
    is_verify_query, etl_medallion.tables_query, etl_medallion.count_query.
  cbn [map fst snd In]. intros [[d ->] | [d [v ->]]] Hb;
    in_cases Hb; str_neq Hb.
Qed.

Lemma verify_not_stage (g : stage) (s : string) :
  is_verify_query PROJECT_ID s ->
  ~ In s (stage_statements PROJECT_ID BUCKET g).
Proof.
  destruct g;
    [apply verify_not_bronze | apply verify_not_silver | apply verify_not_gold].
Qed.
End MoreDistinct.

(** X1.  In every run of the pipeline, if a statement of the bronze stage
    fails, no statement of the silver stage and none of the gold stage is
    submitted. *)
Theorem bronze_failure_skips_later_stages {W : World}
    (PROJECT_ID BUCKET : string) (st : State W) :
  (exists e, In e (new_events (etl_medallion.run_etl PROJECT_ID BUCKET) st) /\
             In (event_sql e) (stage_statements PROJECT_ID BUCKET Bronze) /\
             event_ok e = false) ->
  forall e, In e (new_events (etl_medallion.run_etl PROJECT_ID BUCKET) st) ->
            ~ In (event_sql e) (stage_statements PROJECT_ID BUCKET Silver) /\
            ~ In (event_sql e) (stage_statements PROJECT_ID BUCKET Gold).
Proof.
  unfold new_events.
  destruct (run_etl_trace PROJECT_ID BUCKET st)
    as (ok & evs & checks & st' & -> & Htr & Hshape & Hok).
  cbn [snd]. rewrite Htr, drop_app_length.
  pose proof (stages_shape_result _ _ _ _ _ Hshape) as Hres.
  destruct (three_stages _ _ _ _ Hshape)
    as (evB & evS & evG & -> & HB & HS & HG & HnoS & HnoG).
  rewrite Forall_forall in HB, HS, HG.
  intros (e & He & Hbronze & Hfail).
  rewrite !in_app_iff in He. destruct He as [[He | [He | He]] | He].
  - assert (HbadB : forallb event_ok evB = false).
    { apply not_true_is_false. intros Hall. rewrite forallb_forall in Hall.
      specialize (Hall e He). congruence. }
    assert (HbadBS : forallb event_ok (evB ++ evS) = false)
      by (rewrite forallb_app_ok, HbadB; reflexivity).
    rewrite (HnoS HbadB), (HnoG HbadBS), !app_nil_r in *.
    rewrite HbadB in Hres. subst ok. destruct Hok as [-> _].
    rewrite app_nil_r. intros e' He'. apply list_elem_of_In, HB in He'.
    split; intros Hlater.
    + eapply silver_not_bronze; eassumption.
    + eapply gold_not_bronze; eassumption.
  - apply list_elem_of_In, HS in He. exfalso.
    eapply silver_not_bronze; eassumption.
  - apply list_elem_of_In, HG in He. exfalso.
    eapply gold_not_bronze; eassumption.
  - destruct ok; [| destruct Hok as [-> _]; destruct He].
    destruct Hok as [Hro _]. rewrite Forall_forall in Hro.
    apply list_elem_of_In, Hro in He. exfalso.
    eapply verify_not_bronze; eassumption.
Qed.

Lemma bronze_failure_skips_later_stages_witness :
  In (Submitted (stage_schema default_project Bronze) false)
     (new_events (etl_medallion.run_etl default_project default_bucket)
                 bronze_fails) /\
  Forall (fun e =>
            ~ In (event_sql e)
                 (stage_statements default_project default_bucket Silver) /\
            ~ In (event_sql e)
                 (stage_statements default_project default_bucket Gold))
         (new_events (etl_medallion.run_etl default_project default_bucket)
                     bronze_fails).
Proof.
  assert (Hin : In (Submitted (stage_schema default_project Bronze) false)
                   (new_events (etl_medallion.run_etl default_project default_bucket)
                               bronze_fails)).
  { vm_compute. left. reflexivity. }
  split; [exact Hin |].
  apply Forall_forall. intros e He. apply list_elem_of_In in He.
  apply (bronze_failure_skips_later_stages default_project default_bucket
           bronze_fails); [| exact He].
  exists (Submitted (stage_schema default_project Bronze) false).
  split; [exact Hin | split].
  - left. reflexivity.
  - reflexivity.
Defined.

(** ** Loops whose every round returns *)

(** A loop whose rounds all return adds to the trace what its rounds add,
    one after the other. *)
Lemma for_each_scans {W : World} {X}
    (shape : X -> list event -> Prop)
    (xs : list X) (body : unit -> X -> M (State W) unit) :
  (forall x st, exists evs st',
      body tt x st = (Returned tt, st') /\
      trace st' = trace st ++ evs /\
      shape x evs) ->
  forall st, exists chunks st',
    for_each xs tt body st = (Returned tt, st') /\
    trace st' = trace st ++ concat chunks /\
    Forall2 shape xs chunks.
Proof.
  intros Hbody. induction xs as [| x xs IH]; intros st.
  - exists [], st. cbn. rewrite app_nil_r. auto.
  - cbn [for_each]. unfold bind at 1.
    destruct (Hbody x st) as (evs & st1 & -> & Htr & Hshape).
    destruct (IH st1) as (chunks & st2 & -> & Htr2 & Hall).
    exists (evs :: chunks), st2. split; [reflexivity |].
    cbn [concat]. split.
    + rewrite Htr2, Htr, <- app_assoc. reflexivity.
    + constructor; assumption.
Qed.

(** The same, following the printed lines as well. *)
Lemma for_each_chunks {W : World} {X}
    (shape : X -> list event -> list string -> Prop)
    (xs : list X) (body : unit -> X -> M (State W) unit) :
  (forall x st, exists evs lines st',
      body tt x st = (Returned tt, st') /\
      trace st' = trace st ++ evs /\
      stdout st' = stdout st ++ lines /\
      shape x evs lines) ->
  forall st, exists chunks st',
    for_each xs tt body st = (Returned tt, st') /\
    trace st' = trace st ++ concat (map fst chunks) /\
    stdout st' = stdout st ++ concat (map snd chunks) /\
    Forall2 (fun x chunk => shape x (fst chunk) (snd chunk)) xs chunks.
Proof.
  intros Hbody. induction xs as [| x xs IH]; intros st.
  - exists [], st. cbn. rewrite !app_nil_r. auto.
  - cbn [for_each]. unfold bind at 1.
    destruct (Hbody x st) as (evs & lines & st1 & -> & Htr & Hout & Hshape).
    destruct (IH st1) as (chunks & st2 & -> & Htr2 & Hout2 & Hall).
    exists ((evs, lines) :: chunks), st2. split; [reflexivity |].
    cbn [map fst snd concat]. split; [| split].
    + rewrite Htr2, Htr, <- app_assoc. reflexivity.
    + rewrite Hout2, Hout, <- app_assoc. reflexivity.
    + constructor; assumption.
Qed.

Section ScanFacts.
Context {W : World}.
Variable PROJECT_ID : string.

Lemma verify_table_counts (dataset : string) (table_row : Row) :
  emits (W := W)
        (fun e => exists table_name,
             event_sql e = etl_medallion.count_query PROJECT_ID dataset table_name)
        (etl_medallion.verify_table PROJECT_ID dataset table_row).
Proof.
  unfold etl_medallion.verify_table.
  apply emits_bind; [apply emits_lift |]. intros table_name.
  apply emits_try_except.
  - apply emits_bind.
    + apply emits_bq_query; eauto.
    + intros rows.
      repeat (apply emits_bind; [apply emits_lift |]; intros ?).
      apply emits_print.
  - intros e. apply emits_print.
Qed.

(** One round of the loop over the datasets in [verify_results]. *)
Lemma scan_dataset (dataset : string) (st : State W) :
  exists evs st',
    try_except
      (tables <- bq_query (etl_medallion.tables_query PROJECT_ID dataset) ;;
       match tables with
       | _ :: _ =>
           print ("📊 " +:+ upper dataset +:+ ":") ;;;
           for_each tables tt
             (fun _ table_row =>
                etl_medallion.verify_table PROJECT_ID dataset table_row)
       | [] => print ("❌ " +:+ upper dataset +:+ ": Sin tablas")
       end)
      (fun e =>
         print ("❌ Error verificando " +:+ dataset +:+ ": "
                  +:+ str_prefix 50 (str_exn e) +:+ "..."))
      st = (Returned tt, st') /\
    trace st' = trace st ++ evs /\
    dataset_scan PROJECT_ID dataset evs.
Proof.
  unfold try_except, bind at 1, bq_query.
  destruct (w_query W (etl_medallion.tables_query PROJECT_ID dataset) (world st))
    as [[[| row rows] | e] w'].
  - eexists [_], _. split; [reflexivity |]. cbn.
    repeat split. eexists _, []. split; [reflexivity | constructor].
  - unfold bind at 1. cbn [print].
    match goal with
    | |- context [for_each ?xs tt ?body ?st0] =>
        destruct (emits_for_each
                    (fun e => exists table_name,
                         event_sql e
                         = etl_medallion.count_query PROJECT_ID dataset table_name)
                    xs body
                    ltac:(intros [] table_row; apply verify_table_counts) tt st0)
          as (o & counts & st1 & -> & Htr & Hcounts)
    end.
    cbn in Htr. destruct o as [[] | e].
    + eexists (_ :: counts), st1. split; [reflexivity |].
      split; [rewrite Htr, <- app_assoc; reflexivity |].
      eexists _, counts. auto.
    + eexists (_ :: counts), _. split; [reflexivity |].
      split; [cbn; rewrite Htr, <- app_assoc; reflexivity |].
      eexists _, counts. auto.
  - eexists [_], _. split; [reflexivity |]. cbn.
    repeat split. eexists _, []. split; [reflexivity | constructor].
Qed.

(** [verify_results] always returns, and what it submits is one scan per
    dataset, bronze first. *)
Lemma verify_results_scans (st : State W) :
  exists chunks st',
    etl_medallion.verify_results PROJECT_ID st = (Returned tt, st') /\
    trace st' = trace st ++ concat chunks /\
    Forall2 (dataset_scan PROJECT_ID) ["bronze"; "silver"; "gold"] chunks.
Proof.
  unfold etl_medallion.verify_results, and_then.
  unfold bind at 1. cbn [print].
  match goal with
  | |- context [for_each ?xs tt ?body ?st0] =>
      destruct (for_each_scans (dataset_scan PROJECT_ID) xs body
                  ltac:(intros dataset st1; apply scan_dataset) st0)
        as (chunks & st1 & -> & Htr & Hall)
  end.
  exists chunks, st1. auto.
Qed.
End ScanFacts.

Section OrderFacts.
Context {W : World}.
Variables (PROJECT_ID BUCKET : string).

End OrderFacts.


Lemma dataset_scan_read_only (PROJECT_ID dataset : string) (evs : list event) :
  dataset_scan PROJECT_ID dataset evs ->
  Forall (fun e => is_verify_query PROJECT_ID (event_sql e)) evs.
Proof.
  intros (ok & counts & -> & Hcounts). constructor.
  - left. exists dataset. reflexivity.
  - eapply Forall_impl; [exact Hcounts |].
    intros e [table_name He]. right. eauto.
Qed.

(** X3. [verify_results] returns whatever the warehouse answers: a failed
    query is reported on the console and the scan goes on.  It submits
    one scan per dataset, bronze, silver, gold in this order, each a
    query for the tables of the dataset followed by count queries of that
    dataset, and none of the statements of the three stages. *)
Theorem verify_results_only_reads {W : World} (PROJECT_ID : string)
    (st : State W) :
  exists chunks st',
    etl_medallion.verify_results PROJECT_ID st = (Returned tt, st') /\
    trace st' = trace st ++ concat chunks /\
    Forall2 (dataset_scan PROJECT_ID) ["bronze"; "silver"; "gold"] chunks /\
    forall BUCKET g e,
      In e (concat chunks) ->
      ~ In (event_sql e) (stage_statements PROJECT_ID BUCKET g).
Proof.
  destruct (verify_results_scans PROJECT_ID st)
    as (chunks & st' & Hrun & Htr & Hscans).
  exists chunks, st'. repeat split; try assumption.
  intros BUCKET g e He. apply verify_not_stage.
  assert (Hall : Forall (fun e => is_verify_query PROJECT_ID (event_sql e))
                        (concat chunks)).
  { clear -Hscans. induction Hscans as [| dataset chunk ds cs Hscan _ IH].
    - constructor.
    - cbn [concat]. apply Forall_app. split; [| exact IH].
      eapply dataset_scan_read_only, Hscan. }
  rewrite Forall_forall in Hall. apply Hall. apply list_elem_of_In. exact He.
Qed.

(** ** The detailed verification and the samples *)

Lemma chunks_length {X} (shape : X -> list event -> list string -> Prop)
    (n : nat) (xs : list X) (chunks : list (list event * list string)) :
  Forall2 (fun x chunk => shape x (fst chunk) (snd chunk)) xs chunks ->
  (forall x evs lines, shape x evs lines -> length lines = n) ->
  length (concat (map snd chunks)) = (length xs * n)%nat.
Proof.
  intros Hall Hn. induction Hall as [| x chunk xs chunks Hx _ IH].
  - reflexivity.
  - cbn [map concat length]. rewrite length_app, IH, (Hn _ _ _ Hx).
    reflexivity.
Qed.

Lemma chunks_events {X} (shape : X -> list event -> list string -> Prop)
    (shape' : X -> list event -> Prop)
    (xs : list X) (chunks : list (list event * list string)) :
  Forall2 (fun x chunk => shape x (fst chunk) (snd chunk)) xs chunks ->
  (forall x evs lines, shape x evs lines -> shape' x evs) ->
  Forall2 shape' xs (map fst chunks).
Proof.
  intros Hall Hn. induction Hall as [| x chunk xs chunks Hx _ IH].
  - constructor.
  - cbn [map]. constructor; eauto.
Qed.

Section DetailFacts.
Context {W : World}.
Variable PROJECT_ID : string.

Lemma verify_expected_table_check (dataset table : string) (st : State W) :
  exists evs line st',
    etl_medallion.verify_expected_table PROJECT_ID dataset table st
    = (Returned tt, st') /\
    trace st' = trace st ++ evs /\
    stdout st' = stdout st ++ [line] /\
    table_check PROJECT_ID dataset table evs.
Proof.
  unfold etl_medallion.verify_expected_table, try_except.
  unfold bind at 1. unfold bq_query at 1.
  destruct (w_query W _ (world st)) as [[rows | e] w1].
  2:{ eexists [_], _, _. split; [reflexivity |]. cbn.
      repeat split. left. eauto. }
  unfold bind at 1, lift at 1.
  destruct (first_item rows) as [count_result | e].
  2:{ eexists [_], _, _. split; [reflexivity |]. cbn.
      repeat split. left. eauto. }
  unfold bind at 1, lift at 1.
  destruct (getattr_row count_result "row_count") as [row_count | e].
  2:{ eexists [_], _, _. split; [reflexivity |]. cbn.
      repeat split. left. eauto. }
  unfold bind at 1, bq_query at 1. cbn [world].
  destruct (w_query W _ w1) as [[described | e] w2].
  2:{ eexists [_; _], _, _. split; [reflexivity |]. cbn.
      split; [rewrite <- app_assoc; reflexivity |].
      split; [reflexivity |]. right. eauto. }
  unfold bind at 1, lift at 1.
  destruct (map_outcome _ described) as [columns | e].
  2:{ eexists [_; _], _, _. split; [reflexivity |]. cbn.
      split; [rewrite <- app_assoc; reflexivity |].
      split; [reflexivity |]. right. eauto. }
  unfold bind at 1, lift at 1.
  destruct (format_value_comma row_count) as [shown | e].
  2:{ eexists [_; _], _, _. split; [reflexivity |]. cbn.
      split; [rewrite <- app_assoc; reflexivity |].
      split; [reflexivity |]. right. eauto. }
  unfold bind at 1, lift at 1.
  destruct (join_values ", " (take 3 columns)) as [names | e].
  2:{ eexists [_; _], _, _. split; [reflexivity |]. cbn.
      split; [rewrite <- app_assoc; reflexivity |].
      split; [reflexivity |]. right. eauto. }
  eexists [_; _], _, _. split; [reflexivity |]. cbn.
  split; [rewrite <- app_assoc; reflexivity |].
  split; [reflexivity |]. right. eauto.
Qed.

(** One round of the loop over the datasets: the handler around the loop
    over the tables is never entered, every table has its own. *)
Lemma verify_expected_dataset (expected : string * list string) (st : State W) :
  exists evs lines st',
    (let '(dataset, expected_tables) := expected in
     print (nl +:+ "📊 " +:+ upper dataset +:+ " DATASET:") ;;;
     try_except
       (for_each expected_tables tt
          (fun _ table =>
             etl_medallion.verify_expected_table PROJECT_ID dataset table))
       (fun e =>
          print ("   ❌ Error verificando dataset " +:+ dataset +:+ ": "
                   +:+ str_prefix 50 (str_exn e) +:+ "...")))
      st = (Returned tt, st') /\
    trace st' = trace st ++ evs /\
    stdout st' = stdout st ++ lines /\
    (dataset_check PROJECT_ID expected evs /\
     length lines = S (length (snd expected))).
Proof.
  destruct expected as [dataset expected_tables].
  unfold bind at 1. cbn [print]. unfold try_except.
  match goal with
  | |- context [for_each ?xs tt ?body ?st0] =>
      destruct (for_each_chunks
                  (fun table evs lines =>
                     table_check PROJECT_ID dataset table evs
                     /\ length lines = 1%nat)
                  xs body) with (st := st0)
        as (chunks & st1 & -> & Htr & Hout & Hall)
  end.
  { intros table st0.
    destruct (verify_expected_table_check dataset table st0)
      as (evs & line & st1 & Hrun & Htr & Hout & Hcheck).
    exists evs, [line], st1. auto. }
  eexists (concat (map fst chunks)), (_ :: concat (map snd chunks)), st1.
  split; [reflexivity |]. split; [exact Htr |].
  split; [rewrite Hout; cbn; rewrite <- app_assoc; reflexivity |].
  split.
  - exists (map fst chunks). split; [reflexivity |].
    apply (chunks_events
             (fun table evs lines =>
                table_check PROJECT_ID dataset table evs
                /\ length lines = 1%nat)); [exact Hall |].
    intros ? ? ? [H _]. exact H.
  - cbn [length snd]. f_equal.
    rewrite (chunks_length
               (fun table evs lines =>
                  table_check PROJECT_ID dataset table evs
                  /\ length lines = 1%nat) 1 expected_tables chunks Hall).
    + apply Nat.mul_1_r.
    + intros ? ? ? [_ H]. exact H.
Qed.

Lemma verify_results_detailed_checks (st : State W) :
  exists chunks st',
    etl_medallion.verify_results_detailed PROJECT_ID st = (Returned tt, st') /\
    trace st' = trace st ++ concat (map fst chunks) /\
    stdout st' = stdout st ++ (nl +:+ "🔍 Verificación detallada de resultados...")
                                :: concat (map snd chunks) /\
    Forall2 (fun expected chunk =>
               dataset_check PROJECT_ID expected (fst chunk) /\
               length (snd chunk) = S (length (snd expected)))
            etl_medallion.expected_datasets chunks.
Proof.
  unfold etl_medallion.verify_results_detailed.
  unfold bind at 1. cbn [print].
  match goal with
  | |- context [for_each ?xs tt ?body ?st0] =>
      destruct (for_each_chunks
                  (fun expected evs lines =>
                     dataset_check PROJECT_ID expected evs
                     /\ length lines = S (length (snd expected)))
                  xs body) with (st := st0)
        as (chunks & st1 & -> & Htr & Hout & Hall)
  end.
  { intros expected st0. apply verify_expected_dataset. }
  exists chunks, st1. split; [reflexivity |]. split; [exact Htr |].
  split; [| exact Hall].
  rewrite Hout. cbn. rewrite <- app_assoc. reflexivity.
Qed.

(** A loop that only prints. *)
Lemma print_loop {X} (f : X -> string) (xs : list X)
    (body : unit -> X -> M (State W) unit) :
  (forall x st, body tt x st = (Returned tt, put_line (f x) st)) ->
  forall st, exists st',
    for_each xs tt body st = (Returned tt, st') /\
    world st' = world st /\
    trace st' = trace st /\
    stdout st' = stdout st ++ map f xs /\
    logged st' = logged st.
Proof.
  intros Hbody. induction xs as [| x xs IH]; intros st.
  - exists st. cbn. rewrite app_nil_r. auto.
  - cbn [for_each]. unfold bind at 1. rewrite Hbody.
    destruct (IH (put_line (f x) st)) as (st' & -> & Hw & Htr & Hout & Hlog).
    exists st'. split; [reflexivity |]. cbn in *.
    rewrite Hout, <- app_assoc. auto.
Qed.

Lemma show_sample_check (title query : string) (st : State W) :
  exists ok lines st',
    etl_medallion.show_sample title query st = (Returned tt, st') /\
    trace st' = trace st ++ [Submitted query ok] /\
    stdout st' = stdout st ++ lines /\
    (2 <= length lines <= 5)%nat.
Proof.
  unfold etl_medallion.show_sample, try_except.
  unfold bind at 1. cbn [print].
  unfold bind at 1, bq_query at 1. cbn [world put_line State_console].
  destruct (w_query W query (world st)) as [[[| row rows] | e] w1].
  - eexists true, [_; _], _. split; [reflexivity |]. cbn.
    rewrite <- app_assoc. repeat split; lia.
  - unfold bind at 1.
    match goal with
    | |- context [for_each ?xs tt ?body ?st0] =>
        destruct (print_loop
                    (fun '(i, r) =>
                       "   " +:+ str_int (i + 1) +:+ ". "
                         +:+ str_join " | " (map format_value (row_values r)))
                    xs body) with (st := st0)
          as (st1 & -> & Hw & Htr & Hout & Hlog)
    end.
    { intros [i r] st0. reflexivity. }
    cbn [trace stdout put_line State_console] in Htr, Hout.
    assert (Hlen : (1 <= length (enumerate (take 3 (row :: rows))) <= 3)%nat).
    { unfold enumerate. rewrite length_imap, length_take. cbn [length]. lia. }
    destruct (3 <? length (row :: rows))%nat.
    + eexists true, (_ :: map _ _ ++ [_]), _. split; [reflexivity |].
      cbn [trace stdout put_line State_console].
      split; [exact Htr |]. split.
      * rewrite Hout, <- !app_assoc. reflexivity.
      * cbn [length]. rewrite length_app, length_map. cbn [length]. lia.
    + eexists true, (_ :: map _ _), _. split; [reflexivity |].
      cbn [ret fst snd trace stdout].
      split; [exact Htr |]. split.
      * rewrite Hout, <- !app_assoc. reflexivity.
      * cbn [length]. rewrite length_map. lia.
  - eexists false, [_; _], _. split; [reflexivity |]. cbn.
    rewrite <- app_assoc. repeat split; lia.
Qed.

Lemma show_sample_data_checks (st : State W) :
  exists evs lines st',
    etl_medallion.show_sample_data PROJECT_ID st = (Returned tt, st') /\
    trace st' = trace st ++ evs /\
    stdout st' = stdout st ++ lines /\
    sample_events PROJECT_ID evs /\
    (7 <= length lines <= 16)%nat.
Proof.
  unfold etl_medallion.show_sample_data.
  unfold bind at 1. cbn [print].
  match goal with
  | |- context [for_each ?xs tt ?body ?st0] =>
      destruct (for_each_chunks
                  (fun (sample : string * string) evs lines =>
                     (exists ok, evs = [Submitted (snd sample) ok])
                     /\ (2 <= length lines <= 5)%nat)
                  xs body) with (st := st0)
        as (chunks & st1 & -> & Htr & Hout & Hall)
  end.
  { intros [title query] st0.
    destruct (show_sample_check title query st0)
      as (ok & lines & st1 & Hrun & Htr & Hout & Hlen).
    exists [Submitted query ok], lines, st1. eauto 10. }
  unfold etl_medallion.sample_queries in Hall.
  apply Forall2_cons_inv_l in Hall.
  destruct Hall as (c1 & chunks1 & [[ok1 H1] L1] & Hall & ->).
  apply Forall2_cons_inv_l in Hall.
  destruct Hall as (c2 & chunks2 & [[ok2 H2] L2] & Hall & ->).
  apply Forall2_cons_inv_l in Hall.
  destruct Hall as (c3 & chunks3 & [[ok3 H3] L3] & Hall & ->).
  apply Forall2_nil_inv_l in Hall. subst chunks3.
  cbn [map concat] in Htr, Hout. rewrite H1, H2, H3 in Htr.
  eexists _, (_ :: _), st1. split; [reflexivity |].
  split; [exact Htr |]. split; [| split].
  - rewrite Hout. cbn. rewrite <- app_assoc. reflexivity.
  - reflexivity.
  - cbn [length]. rewrite !length_app. cbn [length]. lia.
Qed.

Lemma verify_results_detailed_report (st : State W) :
  exists parts lines st',
    etl_medallion.verify_results_detailed PROJECT_ID st = (Returned tt, st') /\
    trace st' = trace st ++ concat parts /\
    stdout st' = stdout st ++ lines /\
    length lines = 13%nat /\
    Forall2 (dataset_check PROJECT_ID) etl_medallion.expected_datasets parts.
Proof.
  destruct (verify_results_detailed_checks st)
    as (chunks & st' & Hrun & Htr & Hout & Hall).
  eexists (map fst chunks), (_ :: concat (map snd chunks)), st'.
  split; [exact Hrun |]. split; [exact Htr |]. split; [exact Hout |].
  split.
  - clear -Hall. unfold etl_medallion.expected_datasets in Hall.
    apply Forall2_cons_inv_l in Hall.
    destruct Hall as (c1 & chunks1 & [_ L1] & Hall & ->).
    apply Forall2_cons_inv_l in Hall.
    destruct Hall as (c2 & chunks2 & [_ L2] & Hall & ->).
    apply Forall2_cons_inv_l in Hall.
    destruct Hall as (c3 & chunks3 & [_ L3] & Hall & ->).
    apply Forall2_nil_inv_l in Hall. subst chunks3.
    cbn [map concat length snd] in *. rewrite !length_app, L1, L2, L3.
    reflexivity.
  - apply (chunks_events
             (fun expected evs lines =>
                dataset_check PROJECT_ID expected evs
                /\ length lines = S (length (snd expected)))); [exact Hall |].
    intros ? ? ? [H _]. exact H.
Qed.
End DetailFacts.

(** X4. [verify_results_detailed] returns whatever the warehouse answers.
    It goes through the nine expected tables in their fixed order and for
    each submits the count query, followed by the query for the columns
    only when the count was answered; a table that fails does not stop
    the others.  It makes thirteen [print] calls in every run, and submits
    none of the statements of the three stages. *)
Theorem verify_results_detailed_never_raises {W : World} (PROJECT_ID : string)
    (st : State W) :
  exists parts lines st',
    etl_medallion.verify_results_detailed PROJECT_ID st = (Returned tt, st') /\
    trace st' = trace st ++ concat parts /\
    stdout st' = stdout st ++ lines /\
    length lines = 13%nat /\
    Forall2 (dataset_check PROJECT_ID) etl_medallion.expected_datasets parts /\
    (9 <= length (concat parts) <= 18)%nat.
Proof.
  destruct (verify_results_detailed_report PROJECT_ID st)
    as (parts & lines & st' & Hrun & Htr & Hout & Hlen & Hall).
  exists parts, lines, st'. repeat split; try assumption.
  all: clear -Hall; unfold etl_medallion.expected_datasets in Hall.
  all: repeat match goal with
         | H : Forall2 _ (_ :: _) _ |- _ =>
             apply Forall2_cons_inv_l in H;
             let c := fresh "c" in
             let cs := fresh "cs" in
             let Hc := fresh "Hc" in
             destruct H as (c & cs & Hc & H & ->)
         | H : Forall2 _ [] _ |- _ => apply Forall2_nil_inv_l in H; subst
         | H : dataset_check _ _ _ |- _ =>
             let ps := fresh "ps" in
             destruct H as (ps & -> & H); cbn [fst snd] in H
         | H : table_check _ _ _ ?c |- _ =>
             assert (1 <= length c <= 2)%nat
               by (destruct H as [[? ->] | [? ->]]; cbn; lia);
             clear H
         end.
  all: cbn [concat]; rewrite ?length_app; cbn [length]; lia.
Qed.

(** X5. [show_sample_data] returns whatever the warehouse answers and
    submits exactly its three queries, in their order: a query that fails
    is reported on the console and the next one follows.  Of each result
    at most three rows are shown, so a run makes between seven and
    sixteen [print] calls. *)
Theorem show_sample_data_never_raises {W : World} (PROJECT_ID : string)
    (st : State W) :
  exists evs lines st',
    etl_medallion.show_sample_data PROJECT_ID st = (Returned tt, st') /\
    trace st' = trace st ++ evs /\
    stdout st' = stdout st ++ lines /\
    map event_sql evs = map snd (etl_medallion.sample_queries PROJECT_ID) /\
    (7 <= length lines <= 16)%nat.
Proof. apply show_sample_data_checks. Qed.

(** ** The read-only endpoints *)

(** X6. [/verify-results] answers 200 with status [success] whatever the
    warehouse does, also when every query failed: the handler that
    answers 500 is never entered.  The failures appear only inside
    [verification_details], which holds the thirteen captured lines, and
    nothing is printed to the standard output of the process. *)
Theorem verify_results_endpoint_always_200 {W : World} (PROJECT_ID : string)
    (st : State W) :
  exists r lines st',
    main.verify_results_endpoint PROJECT_ID st = (Returned r, st') /\
    status_code r = 200 /\
    body_field "status" r = Some (JString "success") /\
    body_field "verification_details" r = Some (JString (getvalue lines)) /\
    length lines = 13%nat /\
    stdout st' = stdout st.
Proof.
  unfold main.verify_results_endpoint, try_except.
  unfold bind at 1. cbn [logger_record].
  unfold bind at 1, redirect_stdout at 1.
  match goal with
  | |- context [etl_medallion.verify_results_detailed PROJECT_ID ?s0] =>
      destruct (verify_results_detailed_report PROJECT_ID s0)
        as (parts & lines & st1 & -> & Htr & Hout & Hlen & Hall)
  end.
  cbn [stdout app] in Hout. rewrite Hout.
  unfold bind at 1, utcnow_isoformat at 1. cbn [world].
  destruct (w_utcnow W (world st1)) as [now w'].
  eexists _, lines, _. split; [reflexivity |]. cbn. auto.
Qed.

(** X7. [/sample-data] answers 200 with status [success] whatever the
    warehouse does; it submits the three sample queries and nothing else,
    and what [show_sample_data] printed is returned as [sample_data]
    instead of reaching the standard output of the process. *)
Theorem sample_data_endpoint_always_200 {W : World} (PROJECT_ID : string)
    (st : State W) :
  exists r evs lines st',
    main.sample_data_endpoint PROJECT_ID st = (Returned r, st') /\
    status_code r = 200 /\
    body_field "status" r = Some (JString "success") /\
    body_field "sample_data" r = Some (JString (getvalue lines)) /\
    (7 <= length lines <= 16)%nat /\
    trace st' = trace st ++ evs /\
    map event_sql evs = map snd (etl_medallion.sample_queries PROJECT_ID) /\
    stdout st' = stdout st.
Proof.
  unfold main.sample_data_endpoint, try_except.
  unfold bind at 1. cbn [logger_record].
  unfold bind at 1, redirect_stdout at 1.
  match goal with
  | |- context [etl_medallion.show_sample_data PROJECT_ID ?s0] =>
      destruct (show_sample_data_checks PROJECT_ID s0)
        as (evs & lines & st1 & -> & Htr & Hout & Hsql & Hlen)
  end.
  cbn [stdout trace app] in Hout, Htr. rewrite Hout.
  unfold bind at 1, utcnow_isoformat at 1. cbn [world].
  destruct (w_utcnow W (world st1)) as [now w'].
  eexists _, evs, lines, _. split; [reflexivity |]. cbn.
  repeat split; try assumption; apply Hlen.
Qed.

(** * Further properties of the generator *)

(** ** Rounding *)

Lemma py_round_within (x : Q) (n : nat) (L H : Z) :
  (inject_Z L <= x * inject_Z (10 ^ Z.of_nat n) <= inject_Z H)%Q ->
  (inject_Z L <= py_round x n * inject_Z (10 ^ Z.of_nat n) <= inject_Z H)%Q.
Proof.
  intros Hx. unfold py_round.
  assert (Hpos : 0 < 10 ^ Z.of_nat n) by (apply Z.pow_pos_nonneg; lia).
  set (scale := 10 ^ Z.of_nat n) in *.
  destruct (round_half_even_between (x * inject_Z scale) L H Hx) as [H1 H2].
  rewrite Zle_Qle in H1, H2.
  assert (Hs : ~ (inject_Z scale == 0)%Q).
  { unfold Qeq. cbn [Qnum Qden inject_Z]. lia. }
  assert (E : (inject_Z (round_half_even (x * inject_Z scale)) / inject_Z scale
               * inject_Z scale
               == inject_Z (round_half_even (x * inject_Z scale)))%Q)
    by (field; exact Hs).
  rewrite E. split; assumption.
Qed.

(** Rounding to one decimal keeps a value between two bounds that have
    one decimal. *)
Lemma py_round_tenths (x : Q) (L H : Z) :
  (inject_Z L <= x * 10 <= inject_Z H)%Q ->
  (inject_Z L <= py_round x 1 * 10 <= inject_Z H)%Q.
Proof. apply (py_round_within x 1). Qed.

(** Rounding to cents moves a value by at most half a cent. *)
Lemma py_round_error (x : Q) :
  (x - (1 # 200) <= py_round x 2 <= x + (1 # 200))%Q.
Proof.
  unfold py_round. change (inject_Z (10 ^ Z.of_nat 2)) with 100%Q.
  set (y := (x * 100)%Q).
  assert (Hr : (y - (1 # 2) <= inject_Z (round_half_even y) <= y + (1 # 2))%Q).
  { unfold round_half_even.
    pose proof (Qfloor_le y) as Hf. pose proof (Qlt_floor y) as Hc.
    rewrite inject_Z_plus in Hc. change (inject_Z 1) with 1%Q in Hc.
    destruct (y - inject_Z (Qfloor y) ?= 1 # 2)%Q eqn:Hcmp.
    - apply Qeq_alt in Hcmp. destruct (Z.even (Qfloor y)).
      + lra.
      + rewrite inject_Z_plus. change (inject_Z 1) with 1%Q. lra.
    - apply Qlt_alt in Hcmp. lra.
    - apply Qgt_alt in Hcmp. rewrite inject_Z_plus. change (inject_Z 1) with 1%Q. lra. }
  subst y. split.
  - apply Qle_shift_div_l; lra.
  - apply Qle_shift_div_r; lra.
Qed.

(** A rounded amount is in whole cents. *)
Lemma py_round_on_grid (x : Q) : on_grid (py_round x 2).
Proof.
  unfold on_grid, py_round. change (inject_Z (10 ^ Z.of_nat 2)) with 100%Q.
  set (n := round_half_even (x * 100)).
  assert (E : (inject_Z n / 100 * 100 == inject_Z n)%Q) by field.
  rewrite (Qfloor_comp _ _ E), Qfloor_Z. symmetry. exact E.
Qed.

(** ** Employees *)

Section ProfileFacts.
Variable C : Chance.

Lemma new_employee_profile (emp_id : Z) :
  yields (data_generator.new_employee C emp_id)
         (fun e => employee_id e = employee_number emp_id /\
                   employee_profile C e /\
                   reports_to_earlier emp_id e).
Proof.
  unfold data_generator.new_employee.
  ystep (apply random_choice_yields; discriminate) as faker Hfaker.
  ystep (apply fake_yields) as first Hfirst.
  ystep (apply fake_yields) as last Hlast.
  ystep (apply random_choice_yields; discriminate) as dept Hdept.
  ystep (apply random_choice_yields; discriminate) as level Hlevel.
  ystep (apply random_choice_yields; discriminate) as place Hplace.
  ystep (apply draw_base_salary_yields; repeat constructor; cbn; lra)
    as base_salary Hdict.
  destruct (Hdict level Hlevel) as (lo & hi & base & Hrange & Hget & Hbase).
  rewrite Hget.
  eapply yields_bind with (P := fun b => b = base);
    [apply yields_lift; reflexivity | intros base' ->].
  ystep (apply (date_between_yields C faker _ _ (today C + -2922) (today C + -1));
         reflexivity) as hired Hhired.
  ystep (apply random_random_yields) as keep Hkeep.
  eapply yields_bind
    with (P := fun promoted => match promoted with
                               | Some d => hired <= d <= today C
                               | None => True
                               end).
  { destruct (Qgtb _ _); [| apply yields_ret; exact I].
    ystep (apply (date_between_yields C faker _ _ hired (today C)); reflexivity)
      as d Hd.
    apply yields_ret. lia. }
  intros last_promotion Hpromotion.
  ystep (apply fake_yields) as job Hjob.
  ystep (apply fake_yields) as phone Hphone.
  eapply yields_bind
    with (P := fun manager => match manager with
                              | Some boss =>
                                  exists j, 1 <= j < emp_id /\
                                            boss = employee_number j
                              | None => True
                              end).
  { destruct (1 <? emp_id) eqn:Hfirst_one; [| apply yields_ret; exact I].
    ystep (apply random_random_yields) as p Hp.
    destruct (Qgtb _ _); [| apply yields_ret; exact I].
    ystep (apply random_randint_yields; lia) as m Hm.
    apply yields_ret. exists m. split; [lia | reflexivity]. }
  intros manager Hmanager.
  ystep (apply random_uniform_yields; lra) as rating Hrating.
  ystep (apply random_choice_yields; discriminate) as active Hactive.
  ystep (apply random_choice_yields; discriminate) as work Hwork.
  ystep (apply datetime_now_yields) as created Hcreated.
  apply yields_ret. split; [reflexivity |]. split; [| exact Hmanager].
  unfold employee_profile.
  cbn [department job_level location work_type hire_date last_promotion_date
       performance_rating].
  repeat (split; [first [assumption | lia] |]).
  destruct (py_round_tenths rating 25 50) as [H1 H2].
  { change (inject_Z 25) with 25%Q. change (inject_Z 50) with 50%Q. lra. }
  change (inject_Z 25) with 25%Q in H1. change (inject_Z 50) with 50%Q in H2.
  lra.
Qed.

Lemma generate_employees_profiles (num_employees : Z) :
  yields (data_generator.generate_employees C num_employees)
         (fun es => Forall2 (fun i e => employee_id e = employee_number i /\
                                        employee_profile C e /\
                                        reports_to_earlier i e)
                            (seqZ 1 num_employees) es).
Proof.
  unfold data_generator.generate_employees.
  eapply yields_weaken.
  - apply (collect_loop (data_generator.new_employee C)
             (fun i e => employee_id e = employee_number i /\
                         employee_profile C e /\
                         reports_to_earlier i e)).
    + reflexivity.
    + apply new_employee_profile.
  - cbv beta. intros es (new & -> & Hnew). exact Hnew.
Qed.
End ProfileFacts.

(** X8. In the list [generate_employees] returns, the manager of an
    employee, when there is one, is an employee placed earlier in the
    list: nobody is their own manager, the chain of managers has no cycle
    and ends, and the first employee has no manager. *)
Theorem generate_employees_managers_precede (C : Chance) (N : Z) (t : nat) :
  exists es t',
    data_generator.generate_employees C N t = (Returned es, t') /\
    forall (k : nat) e boss,
      es !! k = Some e ->
      manager_id e = Some boss ->
      exists (j : nat) m,
        (j < k)%nat /\ es !! j = Some m /\ employee_id m = boss.
Proof.
  destruct (generate_employees_profiles C N t) as (es & t' & Hrun & Hes).
  exists es, t'. split; [exact Hrun |].
  intros k e boss Hk Hboss.
  destruct (Forall2_lookup_r _ _ _ _ _ Hes Hk) as (i & Hi & _ & _ & Hreports).
  apply lookup_seqZ in Hi. destruct Hi as [-> HkN].
  unfold reports_to_earlier in Hreports. rewrite Hboss in Hreports.
  destruct Hreports as (j & Hj & ->).
  assert (Hlook : seqZ 1 N !! Z.to_nat (j - 1) = Some j).
  { apply lookup_seqZ. lia. }
  destruct (Forall2_lookup_l _ _ _ _ _ Hes Hlook) as (m & Hm & Hid & _).
  exists (Z.to_nat (j - 1)), m. split; [lia |]. auto.
Qed.

(** X9. Every employee [generate_employees] returns has a department, a
    job level, a location and a work type of the module's lists, was
    hired before today and at most 2922 days ago, was last promoted, if
    ever, between the hire date and today, and has a rating between 2.5
    and 5. *)
Theorem generate_employees_plausible (C : Chance) (N : Z) (t : nat) :
  exists es t',
    data_generator.generate_employees C N t = (Returned es, t') /\
    Forall (employee_profile C) es.
Proof.
  destruct (generate_employees_profiles C N t) as (es & t' & Hrun & Hes).
  exists es, t'. split; [exact Hrun |].
  clear Hrun. induction Hes as [| i e xs es (_ & He & _) _ IH]; constructor; assumption.
Qed.

(** ** Identifiers *)

Lemma numbered_inj (prefix : string) (width : nat) (i j : Z) :
  0 <= i -> 0 <= j ->
  prefix +:+ format_0d width i = prefix +:+ format_0d width j -> i = j.
Proof.
  intros Hi Hj H. apply append_cancel in H. unfold format_0d in H.
  destruct (i <? 0) eqn:Hi'; [lia |]. destruct (j <? 0) eqn:Hj'; [lia |].
  apply (f_equal decode) in H. rewrite !decode_zfill in H.
  injection H as H. lia.
Qed.

Lemma numbered_NoDup (prefix : string) (width : nat) (N : Z) :
  NoDup (map (fun i => prefix +:+ format_0d width i) (seqZ 1 N)).
Proof.
  apply NoDup_fmap_2_strong; [| apply NoDup_seqZ].
  intros i j Hi Hj. apply elem_of_seqZ in Hi, Hj.
  apply numbered_inj; lia.
Qed.

Lemma numbered_records {R} (P : Z -> R -> Prop) (Q : R -> Prop)
    (id : R -> string) (number : Z -> string) (xs : list Z) (rs : list R) :
  (forall i r, P i r -> id r = number i /\ Q r) ->
  Forall2 P xs rs ->
  map id rs = map number xs /\ Forall Q rs.
Proof.
  intros HP. induction 1 as [| i r xs rs Hr _ [IHids IHall]].
  - split; constructor.
  - destruct (HP _ _ Hr) as [Hid Hq].
    split; [cbn [map]; rewrite Hid, IHids; reflexivity | constructor; assumption].
Qed.

(** ** Products *)

Section ProductFacts.
Variable C : Chance.

(** Every category has its price range: the default of the lookup is
    never used. *)
Lemma price_range_of (category : string) :
  In category data_generator.PRODUCT_CATEGORIES ->
  exists lo hi,
    dict_get_default data_generator.price_ranges category (10, 100)%Q = (lo, hi) /\
    In (category, (lo, hi)) data_generator.price_ranges /\
    (3 <= lo <= hi)%Q /\ on_grid lo /\ on_grid hi.
Proof.
  intros H. unfold data_generator.PRODUCT_CATEGORIES in H. cbn [In] in H.
  in_cases H; subst category; eexists _, _;
    (split; [reflexivity |]);
    (split; [unfold data_generator.price_ranges; cbn [In]; tauto |]);
    (split; [split; vm_compute; discriminate |]);
    split; vm_compute; reflexivity.
Qed.

Lemma new_product_yields (prod_id : Z) :
  yields (data_generator.new_product C prod_id)
         (fun p => product_id p = product_number prod_id /\ product_ok C p).
Proof.
  unfold data_generator.new_product.
  ystep (apply random_choice_yields; discriminate) as chosen Hchosen.
  destruct (price_range_of chosen Hchosen)
    as (lo & hi & -> & Hrange & Hlo & Hglo & Hghi).
  ystep (apply random_uniform_yields; lra) as drawn Hdrawn.
  pose proof (py_round_between drawn lo hi Hglo Hghi Hdrawn) as Hprice.
  ystep (apply fake_yields) as name Hname.
  ystep (apply fake_yields) as word Hword.
  ystep (apply random_uniform_yields; lra) as margin Hmargin.
  ystep (apply fake_yields) as supplier Hsupplier.
  ystep (apply (date_between_yields C en_US _ _ (today C + -1096) (today C));
         reflexivity) as launched Hlaunched.
  ystep (apply random_choice_yields; discriminate) as active Hactive.
  ystep (apply random_randint_yields; lia) as stock Hstock.
  ystep (apply random_uniform_yields; lra) as weight Hweight.
  ystep (apply random_uniform_yields; lra) as stars Hstars.
  ystep (apply random_randint_yields; lia) as reviews Hreviews.
  ystep (apply datetime_now_yields) as created Hcreated.
  apply yields_ret. split; [reflexivity |].
  unfold product_ok.
  cbn [category price cost launch_date stock_quantity weight_kg rating
       reviews_count].
  split; [exists lo, hi; auto |].
  split; [apply py_round_on_grid |].
  split.
  { set (asked := py_round drawn 2) in *.
    assert (H1 : (0 <= (asked - 3) * (margin - 0.3))%Q)
      by (apply Qmult_le_0_compat; lra).
    assert (H2 : (0 <= asked * (1 - margin))%Q)
      by (apply Qmult_le_0_compat; lra).
    destruct (py_round_between (asked * margin) (9 # 10) asked) as [H3 H4].
    - vm_compute. reflexivity.
    - apply py_round_on_grid.
    - split; lra.
    - split; lra. }
  split; [lia |]. split; [lia |].
  split.
  { apply (py_round_between weight 0.1 50); [vm_compute; reflexivity .. | lra]. }
  split; [| lia].
  destruct (py_round_tenths stars 20 50) as [H1 H2].
  { change (inject_Z 20) with 20%Q. change (inject_Z 50) with 50%Q. lra. }
  change (inject_Z 20) with 20%Q in H1. change (inject_Z 50) with 50%Q in H2.
  lra.
Qed.

Lemma generate_products_yields (num_products : Z) :
  yields (data_generator.generate_products C num_products)
         (fun ps => Forall2 (fun i p => product_id p = product_number i /\
                                        product_ok C p)
                            (seqZ 1 num_products) ps).
Proof.
  unfold data_generator.generate_products.
  eapply yields_weaken.
  - apply (collect_loop (data_generator.new_product C)
             (fun i p => product_id p = product_number i /\ product_ok C p)).
    + reflexivity.
    + apply new_product_yields.
  - cbv beta. intros ps (new & -> & Hnew). exact Hnew.
Qed.
End ProductFacts.

(** X10. [generate_products] returns from every state of the oracles, with
    as many products as asked for, numbered from PRD-00001 on and so with
    distinct identifiers.  The price of each lies in the range of its
    category (the default range is never used) and is in whole cents; the
    cost is positive and at most the price; the launch date is at most
    1096 days back and not after today; stock, weight, rating and number
    of reviews lie in their ranges. *)
Theorem generate_products_catalogue (C : Chance) (N : Z) (t : nat) :
  exists ps t',
    data_generator.generate_products C N t = (Returned ps, t') /\
    length ps = Z.to_nat N /\
    map product_id ps = map product_number (seqZ 1 N) /\
    NoDup (map product_id ps) /\
    Forall (product_ok C) ps.
Proof.
  destruct (generate_products_yields C N t) as (ps & t' & Hrun & Hps).
  exists ps, t'. split; [exact Hrun |].
  destruct (numbered_records _ (product_ok C) product_id product_number _ _
              (fun i p H => H) Hps) as [Hids Hall].
  split; [| split; [exact Hids | split; [| exact Hall]]].
  - apply Forall2_length in Hps. rewrite <- Hps. apply length_seqZ.
  - rewrite Hids. apply numbered_NoDup.
Qed.

(** ** Sales *)

(** A multiple of an amount in whole cents is in whole cents. *)
Lemma on_grid_times (l : Q) (q : Z) : on_grid l -> on_grid (l * inject_Z q).
Proof.
  unfold on_grid. intros Hl.
  assert (E : (l * inject_Z q * 100 == inject_Z (Qfloor (l * 100) * q))%Q).
  { rewrite inject_Z_mult, Hl. ring. }
  rewrite (Qfloor_comp _ _ E), Qfloor_Z. symmetry. exact E.
Qed.

Section SaleFacts.
Variable C : Chance.

Lemma new_sale_checks (active : list Product) (sellers : list Employee)
    (sale_id : Z) :
  active <> [] ->
  yields (data_generator.new_sale C active sellers sale_id)
         (fun s => transaction_id s = transaction_number sale_id /\
                   (exists p, In p active /\ sale_of_product p s) /\
                   sale_fields_ok s /\
                   sale_amounts_ok s).
Proof.
  intros Hactive. unfold data_generator.new_sale.
  ystep (apply draw_sale_date_yields) as date Hdate.
  ystep (apply random_choice_yields; exact Hactive) as product Hproduct.
  ystep (eapply random_choices_yields with (total := 100);
         [discriminate | reflexivity | reflexivity | lia]) as qty Hqty.
  ystep (eapply random_choices_yields with (total := 100);
         [discriminate | reflexivity | reflexivity | lia]) as discount Hdiscount.
  ystep (apply random_choice_yields; discriminate) as segment Hsegment.
  eapply yields_bind with (P := fun _ => True).
  { destruct (String.eqb segment "Individual").
    - ystep (apply fake_yields) as name Hname.
      ystep (apply fake_yields) as mail Hmail.
      apply yields_ret. exact I.
    - ystep (apply fake_yields) as name Hname.
      ystep (apply fake_yields) as domain Hdomain.
      apply yields_ret. exact I. }
  intros customer _.
  eapply yields_bind with (P := fun _ => True).
  { destruct sellers as [| e0 rest].
    - apply yields_ret. exact I.
    - ystep (apply random_choice_yields; discriminate) as rep Hrep.
      apply yields_ret. exact I. }
  intros rep _.
  ystep (apply random_choice_yields; discriminate) as sold_by Hchannel.
  ystep (apply random_choice_yields; discriminate) as sold_in Hregion.
  ystep (apply random_choice_yields; discriminate) as paid_by Hpayment.
  ystep (apply random_random_yields) as shipped Hshipped.
  eapply yields_bind with (P := fun cost => (0 <= cost <= 25)%Q).
  { destruct (Qgtb _ _); [| apply yields_ret; lra].
    ystep (apply random_uniform_yields; lra) as x Hx.
    apply yields_ret.
    apply (py_round_between x 0 25); [vm_compute; reflexivity .. | exact Hx]. }
  intros shipping Hshipping.
  ystep (eapply random_choices_yields with (total := 100);
         [discriminate | reflexivity | reflexivity | lia]) as state Hstate.
  ystep (apply datetime_now_yields) as created Hcreated.
  apply yields_ret. split; [reflexivity |].
  split; [exists product; repeat split; assumption |].
  split; [repeat split; assumption || apply Hshipping |].
  split; reflexivity.
Qed.

Lemma generate_sales_checks (num_sales : Z) (employees : list Employee)
    (products : list Product) :
  active_of products <> [] ->
  yields (data_generator.generate_sales C num_sales employees products)
         (fun sales =>
            Forall2 (fun i s =>
                       transaction_id s = transaction_number i /\
                       (exists p, In p (active_of products) /\
                                  sale_of_product p s) /\
                       sale_fields_ok s /\
                       sale_amounts_ok s)
                    (seqZ 1 num_sales) sales).
Proof.
  intros Hactive. unfold data_generator.generate_sales.
  eapply yields_weaken.
  - apply (collect_loop
             (data_generator.new_sale C (active_of products) (sellers_of employees))
             (fun i s =>
                transaction_id s = transaction_number i /\
                (exists p, In p (active_of products) /\ sale_of_product p s) /\
                sale_fields_ok s /\
                sale_amounts_ok s)).
    + reflexivity.
    + intros sale_id. apply new_sale_checks. exact Hactive.
  - cbv beta. intros sales (new & -> & Hnew). exact Hnew.
Qed.

(** With no active product the first sale already fails. *)
Lemma generate_sales_raises (num_sales : Z) (employees : list Employee)
    (products : list Product) (t : nat) :
  0 < num_sales ->
  active_of products = [] ->
  fst (data_generator.generate_sales C num_sales employees products t)
  = Raised (Exn "IndexError" "Cannot choose from an empty sequence").
Proof.
  intros Hpos Hactive.
  unfold data_generator.generate_sales. fold (active_of products).
  rewrite Hactive, (seqZ_cons 1 num_sales Hpos). cbn [for_each].
  unfold bind at 1, bind at 1.
  pose proof (new_sale_raises C
                (filter (fun e => str_in (department e)
                                         ["Sales"; "Customer Success"] = true)
                        employees) 1 t) as Hraise.
  destruct (data_generator.new_sale C [] _ 1 t) as [[s | e] t'];
    cbn [fst] in Hraise; [discriminate | injection Hraise as ->; reflexivity].
Qed.
End SaleFacts.

Lemma sale_amount_bounds (p : Product) (s : Sale) :
  sale_of_product p s -> sale_fields_ok s -> sale_amounts_ok s ->
  on_grid (price p) -> (0 <= price p)%Q ->
  amounts_in_bounds s.
Proof.
  intros (_ & _ & _ & Hprice) (Hqty & Hdiscount & _) [Hfinal Htotal] Hgrid Hpos.
  unfold amounts_in_bounds. rewrite Hfinal, Htotal. unfold discounted.
  rewrite Hprice. clear Hfinal Htotal Hprice.
  set (u := price p) in *.
  set (k := (1 - inject_Z (discount_pct s) / 100)%Q).
  assert (Hk : (8 # 10 <= k <= 1)%Q).
  { subst k. cbn [In] in Hdiscount.
    in_cases Hdiscount; rewrite <- Hdiscount; split; vm_compute; discriminate. }
  clearbody k.
  assert (Hq : (1 <= inject_Z (quantity s))%Q).
  { cbn [In] in Hqty.
    in_cases Hqty; rewrite <- Hqty; vm_compute; discriminate. }
  set (q := inject_Z (quantity s)) in *.
  assert (Huk : (0 <= u * k)%Q) by (apply Qmult_le_0_compat; lra).
  assert (Hu1k : (0 <= u * (1 - k))%Q) by (apply Qmult_le_0_compat; lra).
  assert (Hukq : (0 <= u * k * q)%Q) by (apply Qmult_le_0_compat; lra).
  assert (Hu1kq : (0 <= u * (1 - k) * q)%Q) by (apply Qmult_le_0_compat; lra).
  pose proof (py_round_error (u * k)) as [E1 E2].
  pose proof (py_round_error (u * k * q)) as [E3 E4].
  set (f := py_round (u * k) 2) in *.
  set (total := py_round (u * k * q) 2) in *.
  assert (Hf : (0 <= f <= u)%Q).
  { apply (py_round_between (u * k) 0 u);
      [vm_compute; reflexivity | exact Hgrid | split; lra]. }
  assert (Ht : (0 <= total <= u * q)%Q).
  { apply (py_round_between (u * k * q) 0 (u * q));
      [vm_compute; reflexivity | apply on_grid_times; exact Hgrid | split; lra]. }
  assert (Hd1 : (0 <= (f - (u * k - (1 # 200))) * q)%Q)
    by (apply Qmult_le_0_compat; lra).
  assert (Hd2 : (0 <= (u * k + (1 # 200) - f) * q)%Q)
    by (apply Qmult_le_0_compat; lra).
  split; [exact Hf |]. split; [exact Ht |].
  split.
  - apply Qle_shift_div_r; lra.
  - apply Qle_shift_div_l; lra.
Qed.



Lemma Forall2_right {X Y} (P : X -> Y -> Prop) (Q : Y -> Prop)
    (xs : list X) (ys : list Y) :
  (forall x y, P x y -> Q y) -> Forall2 P xs ys -> Forall Q ys.
Proof. intros HPQ. induction 1; constructor; eauto. Qed.

(** X11. When the product list has an active product, the sales
    [generate_sales] returns are numbered from TXN-00000001 on, so their
    identifiers are distinct.  Every sale copies the identifier, the
    name, the category and the price of one active product of the list;
    its quantity, discount, segment, channel, region, payment method and
    status are of the fixed lists, and its shipping cost lies between 0
    and 25. *)
Theorem generate_sales_records (C : Chance) (num_sales : Z)
    (employees : list Employee) (products : list Product) (t : nat) :
  active_of products <> [] ->
  exists sales t',
    data_generator.generate_sales C num_sales employees products t
      = (Returned sales, t') /\
    map transaction_id sales = map transaction_number (seqZ 1 num_sales) /\
    NoDup (map transaction_id sales) /\
    Forall (fun s =>
              sale_fields_ok s /\
              exists p, In p products /\ product_is_active p = true /\
                        sale_of_product p s)
           sales.
Proof.
  intros Hactive.
  destruct (generate_sales_checks C num_sales employees products Hactive t)
    as (sales & t' & Hrun & Hall).
  exists sales, t'. split; [exact Hrun |].
  destruct (numbered_records
              (fun i s =>
                 transaction_id s = transaction_number i /\
                 (exists p, In p (active_of products) /\ sale_of_product p s) /\
                 sale_fields_ok s /\
                 sale_amounts_ok s)
              (fun s => sale_fields_ok s /\
                        exists p, In p products /\ product_is_active p = true /\
                                  sale_of_product p s)
              transaction_id transaction_number (seqZ 1 num_sales) sales)
    as [Hids Hok]; [| exact Hall |].
  { intros i s (Hid & (p & Hp & Hcopy) & Hfields & _).
    apply active_of_In in Hp as [Hin Hact].
    split; [exact Hid |]. split; [exact Hfields |]. exists p. auto. }
  split; [exact Hids |]. split; [| exact Hok].
  rewrite Hids. apply numbered_NoDup.
Qed.

Lemma generate_sales_records_witness :
  active_of catalogue <> [] /\
  exists sales t',
    data_generator.generate_sales demo 3 staff catalogue 0%nat
      = (Returned sales, t') /\
    map transaction_id sales = map transaction_number (seqZ 1 3) /\
    NoDup (map transaction_id sales) /\
    Forall (fun s =>
              sale_fields_ok s /\
              exists p, In p catalogue /\ product_is_active p = true /\
                        sale_of_product p s)
           sales.
Proof.
  assert (H : active_of catalogue <> []) by (vm_compute; discriminate).
  split; [exact H |].
  exact (generate_sales_records demo 3 staff catalogue 0%nat H).
Defined.

(** X12. When the prices of the products are non-negative amounts in whole
    cents and one product is active, every sale [generate_sales] returns
    has a unit price after discount between 0 and the list price, and a
    total between 0 and the list price times the quantity.  The total is
    rounded from the unrounded discounted price, so it can differ from
    the rounded unit price times the quantity, by at most half a cent per
    unit and half a cent more.  (Amounts are read as exact numbers.) *)
Theorem generate_sales_amounts (C : Chance) (num_sales : Z)
    (employees : list Employee) (products : list Product) (t : nat) :
  Forall (fun p => on_grid (price p) /\ (0 <= price p)%Q) products ->
  active_of products <> [] ->
  exists sales t',
    data_generator.generate_sales C num_sales employees products t
      = (Returned sales, t') /\
    Forall amounts_in_bounds sales.
Proof.
  intros Hprices Hactive.
  destruct (generate_sales_checks C num_sales employees products Hactive t)
    as (sales & t' & Hrun & Hall).
  exists sales, t'. split; [exact Hrun |].
  eapply Forall2_right; [| exact Hall].
  intros i s (_ & (p & Hp & Hcopy) & Hfields & Hamounts).
  apply active_of_In in Hp as [Hin _].
  rewrite Forall_forall in Hprices.
  destruct (Hprices p (proj2 (list_elem_of_In _ _) Hin)) as [Hgrid Hpos].
  eapply sale_amount_bounds; eassumption.
Qed.

Lemma generate_sales_amounts_witness :
  Forall (fun p => on_grid (price p) /\ (0 <= price p)%Q) catalogue /\
  active_of catalogue <> [] /\
  exists sales t',
    data_generator.generate_sales demo 3 staff catalogue 0%nat
      = (Returned sales, t') /\
    Forall amounts_in_bounds sales.
Proof.
  assert (H1 : Forall (fun p => on_grid (price p) /\ (0 <= price p)%Q) catalogue).
  { repeat constructor; vm_compute; (reflexivity || discriminate). }
  assert (H2 : active_of catalogue <> []) by (vm_compute; discriminate).
  split; [exact H1 |]. split; [exact H2 |].
  exact (generate_sales_amounts demo 3 staff catalogue 0%nat H1 H2).
Defined.


(** * The batch job *)

Section BatchFacts.
Variable L : ClientLibrary.
Context {S : Storage L}.

Lemma save_to_csv_effect {R} `{Keys R} (data : list R) (filename : string)
    (fieldnames : option (list string)) (j : Job S) :
  exists saved j',
    data_generator.save_to_csv L data filename fieldnames j = (Returned saved, j') /\
    tick j' = tick j /\
    environ (host j') = environ (host j) /\
    effects j' = effects j
                   ++ written filename (csv_header fieldnames) (length data) saved /\
    (data = [] -> saved = false /\ store j' = store j).
Proof.
  unfold data_generator.save_to_csv. destruct data as [| r data].
  - eexists false, _. split; [reflexivity |]. cbn. rewrite app_nil_r. auto.
  - unfold try_except, bind at 1, write_csv at 1.
    destruct (s_write_csv S filename _ _ (store j)) as [[[] | e] st].
    + eexists true, _. split; [reflexivity |]. cbn.
      repeat (split; [reflexivity |]). discriminate.
    + eexists false, _. split; [reflexivity |]. cbn.
      repeat (split; [reflexivity |]). discriminate.
Qed.

Lemma upload_to_gcs_effect (bucket source_file destination_blob : string)
    (j : Job S) :
  exists ok j',
    data_generator.upload_to_gcs L bucket source_file destination_blob j
      = (Returned ok, j') /\
    tick j' = tick j /\
    environ (host j') = environ (host j) /\
    match new_default L (environ (host j)) with
    | Returned _ =>
        effects j' = effects j ++ [Uploaded bucket source_file destination_blob ok]
    | Raised _ => ok = false /\ effects j' = effects j /\ store j' = store j
    end.
Proof.
  unfold data_generator.upload_to_gcs, try_except.
  unfold bind at 1, on_host at 1, client_default at 1.
  destruct (new_default L (environ (host j))) as [c | e].
  - unfold bind at 1, upload_blob at 1. cbn [store host tick effects].
    destruct (s_upload S c bucket source_file destination_blob (store j))
      as [[[] | e] st].
    + eexists true, _. split; [reflexivity |]. cbn. auto.
    + eexists false, _. split; [reflexivity |]. cbn. auto.
  - eexists false, _. split; [reflexivity |]. cbn. auto.
Qed.
End BatchFacts.

(** X14. [save_to_csv] never raises.  An empty data set is refused: it
    answers [False] and the disk is not touched.  Otherwise it writes the
    file once, with the field names given or, when none or an empty list
    is given, the keys of the records, and answers whether the write
    succeeded. *)
Theorem save_to_csv_never_raises (L : ClientLibrary) {S : Storage L} {R}
    `{Keys R} (data : list R) (filename : string)
    (fieldnames : option (list string)) (j : Job S) :
  exists saved j',
    data_generator.save_to_csv L data filename fieldnames j = (Returned saved, j') /\
    match data with
    | [] => saved = false /\ effects j' = effects j /\ store j' = store j
    | _ :: _ =>
        effects j' = effects j
                       ++ [Wrote filename
                                 (match fieldnames with
                                  | Some (name :: names) => name :: names
                                  | _ => keys
                                  end)
                                 (length data) saved]
    end.
Proof.
  destruct (save_to_csv_effect L data filename fieldnames j)
    as (saved & j' & Hrun & _ & _ & Heff & Hempty).
  exists saved, j'. split; [exact Hrun |].
  destruct data as [| r data].
  - destruct (Hempty eq_refl) as [-> Hstore].
    cbn in Heff. rewrite app_nil_r in Heff. auto.
  - exact Heff.
Qed.

(** X15. [upload_to_gcs] never raises, and answers whether the file was
    uploaded.  It builds its own default client from the environment on
    every call; when that fails no upload is attempted. *)
Theorem upload_to_gcs_never_raises (L : ClientLibrary) {S : Storage L}
    (bucket source_file destination_blob : string) (j : Job S) :
  exists ok j',
    data_generator.upload_to_gcs L bucket source_file destination_blob j
      = (Returned ok, j') /\
    match new_default L (environ (host j)) with
    | Returned _ =>
        effects j' = effects j ++ [Uploaded bucket source_file destination_blob ok]
    | Raised _ => ok = false /\ effects j' = effects j /\ store j' = store j
    end.
Proof.
  destruct (upload_to_gcs_effect L bucket source_file destination_blob j)
    as (ok & j' & Hrun & _ & _ & Heff).
  exists ok, j'. auto.
Qed.

Section MainFacts.
Variable C : Chance.
Variable L : ClientLibrary.
Variable path_exists : string -> bool.
Context {S : Storage L}.

(** The generator's resolution of credentials, as a function of the
    environment. *)
Lemma generator_setup_resolves (h : Host) :
  exists h',
    data_generator.setup_gcp_credentials L path_exists h
      = (client_of_source L false (credential_source path_exists (environ h))
                          (environ h), h') /\
    environ h' = environ_after (credential_source path_exists (environ h))
                               (environ h).
Proof.
  unfold data_generator.setup_gcp_credentials.
  apply reraise_keeps.
  unfold credential_source, candidate_files, bind at 1, os_getenv at 1.
  destruct (truthy (environ h !! "K_SERVICE")) eqn:Hmarker; [cbn; eauto |].
  unfold bind at 1, candidate_paths, bind at 1, os_getenv at 1. cbn [ret].
  rewrite scan_paths_find.
  destruct (List.find path_exists _) as [path |]; [cbn; eauto |].
  unfold bind at 1, os_getenv at 1.
  destruct (environ h !! "GOOGLE_CREDENTIALS_JSON") as [[| c blob] |];
    cbn [usable truthy client_of_source environ_after raise];
    eauto.
  unfold bind at 1, lift at 1.
  destruct (json_loads L (String c blob)) as [info | e]; cbn [and_then];
    [| eauto].
  unfold bind at 1, lift at 1.
  destruct (from_service_account_info L info) as [creds | e]; cbn [and_then];
    [| eauto].
  unfold bind at 1. cbn [print]. unfold lift. eauto.
Qed.

Lemma generate_sales_length (num_sales : Z) (employees : list Employee)
    (products : list Product) (t t' : nat) (sales : list Sale) :
  data_generator.generate_sales C num_sales employees products t
    = (Returned sales, t') ->
  length sales = Z.to_nat num_sales.
Proof.
  intros Hrun.
  destruct (active_of products) as [| p0 rest] eqn:Hactive.
  - destruct (Z.ltb_spec 0 num_sales) as [Hpos | Hle].
    + pose proof (generate_sales_raises C num_sales employees products t
                    Hpos Hactive) as Hraise.
      rewrite Hrun in Hraise. discriminate.
    + unfold data_generator.generate_sales in Hrun.
      rewrite seqZ_nil in Hrun by lia. cbn in Hrun.
      injection Hrun as <- _. cbn. lia.
  - assert (Hne : active_of products <> []) by (rewrite Hactive; discriminate).
    destruct (generate_sales_checks C num_sales employees products Hne t)
      as (sales' & t2 & Hsales & Hall).
    rewrite Hrun in Hsales. injection Hsales as <- _.
    apply Forall2_length in Hall. rewrite <- Hall. apply length_seqZ.
Qed.

Lemma upload_loop (bucket : string) (files : list (string * string)) (acc : Z)
    (j : Job S) :
  exists n oks j',
    for_each files acc
      (fun upload_success '(local_file, gcs_path) =>
         uploaded <- data_generator.upload_to_gcs L bucket local_file gcs_path ;;
         ret (if uploaded then upload_success + 1 else upload_success)) j
      = (Returned n, j') /\
    length oks = length files /\
    environ (host j') = environ (host j) /\
    effects j' = effects j
                   ++ match new_default L (environ (host j)) with
                      | Returned _ =>
                          zip_with (fun f ok => Uploaded bucket (fst f) (snd f) ok)
                                   files oks
                      | Raised _ => []
                      end.
Proof.
  revert acc j. induction files as [| [local_file gcs_path] files IH];
    intros acc j.
  - exists acc, [], j. cbn. destruct (new_default L _); rewrite app_nil_r; auto.
  - cbn [for_each]. unfold bind at 1, bind at 1.
    destruct (upload_to_gcs_effect L bucket local_file gcs_path j)
      as (ok & j1 & -> & _ & Henv & Heff).
    cbn [ret].
    destruct (IH (if ok then acc + 1 else acc) j1)
      as (n & oks & j2 & -> & Hlen & Henv2 & Heff2).
    exists n, (ok :: oks), j2. split; [reflexivity |].
    split; [cbn; lia |]. split; [congruence |].
    rewrite Heff2, Henv.
    destruct (new_default L (environ (host j))).
    + rewrite Heff, <- app_assoc. reflexivity.
    + destruct Heff as (_ & -> & _). reflexivity.
Qed.

Lemma main_run (config : Config) (j : Job S) :
  exists o j',
    data_generator.main C L path_exists config j = (o, j') /\
    match o with
    | Raised _ => effects j' = effects j
    | Returned _ =>
        exists s1 s2 s3 ok1 ok2 ok3,
          effects j'
          = effects j
              ++ (written "employees.csv" (keys (R := Employee))
                          (Z.to_nat (num_employees config)) s1
                    ++ written "products.csv" (keys (R := Product))
                               (Z.to_nat (num_products config)) s2
                    ++ written "sales.csv" (keys (R := Sale))
                               (Z.to_nat (num_sales config)) s3)
              ++ match new_default L
                         (environ_after
                            (credential_source path_exists (environ (host j)))
                            (environ (host j))) with
                 | Returned _ =>
                     uploaded (bucket_name config) "employees.csv" s1 ok1
                       ++ uploaded (bucket_name config) "products.csv" s2 ok2
                       ++ uploaded (bucket_name config) "sales.csv" s3 ok3
                 | Raised _ => []
                 end /\
          (s1 = true -> 0 < num_employees config) /\
          (s2 = true -> 0 < num_products config) /\
          (s3 = true -> 0 < num_sales config)
    end.
Proof.
  unfold data_generator.main.
  unfold bind at 1. cbn [print]. unfold bind at 1. cbn [print].
  unfold bind at 1, on_host at 1.
  cbn [host put_line Job_console].
  match goal with
  | |- context [data_generator.setup_gcp_credentials L path_exists ?h] =>
      destruct (generator_setup_resolves h) as (h1 & -> & Henv)
  end.
  cbn [environ put_line Host_console] in *.
  set (src := credential_source path_exists (environ (host j))) in *.
  destruct (client_of_source L false src (environ (host j))) as [client0 | e].
  2:{ eexists _, _. split; [reflexivity |]. reflexivity. }
  unfold bind at 1. cbn [print].
  unfold bind at 1, on_chance at 1. cbn [tick put_line Job_console].
  destruct (generate_employees_yields C (num_employees config) (tick j))
    as (employees & t1 & -> & Hemployees).
  apply Forall2_length in Hemployees. rewrite length_seqZ in Hemployees.
  unfold bind at 1. cbn [print].
  unfold bind at 1, on_chance at 1. cbn [tick put_line Job_console].
  destruct (generate_products_yields C (num_products config) t1)
    as (products & t2 & -> & Hproducts).
  apply Forall2_length in Hproducts. rewrite length_seqZ in Hproducts.
  unfold bind at 1. cbn [print].
  unfold bind at 1, on_chance at 1. cbn [tick put_line Job_console].
  destruct (data_generator.generate_sales C (num_sales config) employees products t2)
    as [[sales | e] t3] eqn:Hsales.
  2:{ eexists _, _. split; [reflexivity |]. reflexivity. }
  apply generate_sales_length in Hsales.
  unfold bind at 1. cbn [print].
  unfold bind at 1.
  match goal with
  | |- context [data_generator.save_to_csv L employees _ None ?j0] =>
      destruct (save_to_csv_effect L employees "employees.csv" None j0)
        as (s1 & j1 & -> & _ & He1 & Hf1 & Hz1)
  end.
  assert (Hs1 : s1 = true -> 0 < num_employees config).
  { intros ->. destruct employees; [destruct (Hz1 eq_refl); discriminate |].
    cbn [length] in Hemployees. lia. }
  clear Hz1.
  unfold bind at 1.
  destruct (save_to_csv_effect L products "products.csv" None j1)
    as (s2 & j2 & -> & _ & He2 & Hf2 & Hz2).
  assert (Hs2 : s2 = true -> 0 < num_products config).
  { intros ->. destruct products; [destruct (Hz2 eq_refl); discriminate |].
    cbn [length] in Hproducts. lia. }
  clear Hz2.
  unfold bind at 1.
  destruct (save_to_csv_effect L sales "sales.csv" None j2)
    as (s3 & j3 & -> & _ & He3 & Hf3 & Hz3).
  assert (Hs3 : s3 = true -> 0 < num_sales config).
  { intros ->. destruct sales; [destruct (Hz3 eq_refl); discriminate |].
    cbn [length] in Hsales. lia. }
  clear Hz3.
  unfold bind at 1. cbn [print].
  unfold bind at 1.
  match goal with
  | |- context [for_each ?files 0 _ ?j0] =>
      destruct (upload_loop (bucket_name config) files 0 j0)
        as (n & oks & j4 & -> & Hlen & _ & Hf4)
  end.
  cbn [host environ effects put_line Job_console Host_console] in He1, Hf1, Hf4.
  rewrite He3, He2, He1, Henv in Hf4.
  rewrite Hf3, Hf2, Hf1 in Hf4. clear Hf1 Hf2 Hf3 He1 He2 He3.
  unfold csv_header in Hf4.
  rewrite <- Hemployees, <- Hproducts, Hsales in Hf4.
  repeat (unfold bind at 1; cbn [print]).
  assert (Heffects :
            exists ok1 ok2 ok3,
              effects j4
              = effects j
                  ++ (written "employees.csv" (keys (R := Employee))
                              (Z.to_nat (num_employees config)) s1
                        ++ written "products.csv" (keys (R := Product))
                                   (Z.to_nat (num_products config)) s2
                        ++ written "sales.csv" (keys (R := Sale))
                                   (Z.to_nat (num_sales config)) s3)
                  ++ match new_default L (environ_after src (environ (host j))) with
                     | Returned _ =>
                         uploaded (bucket_name config) "employees.csv" s1 ok1
                           ++ uploaded (bucket_name config) "products.csv" s2 ok2
                           ++ uploaded (bucket_name config) "sales.csv" s3 ok3
                     | Raised _ => []
                     end).
  { rewrite Hf4, <- !app_assoc. clear Hf4.
    destruct s1, s2, s3; cbn [length app] in Hlen;
      repeat (destruct oks as [| ? oks]; cbn [length] in Hlen; try lia);
      cbn [zip_with app fst snd uploaded];
      first [ exists false, false, false; rewrite <- ?app_assoc; reflexivity
            | exists false, false; eexists _; rewrite <- ?app_assoc; reflexivity
            | exists false; eexists _; exists false;
              rewrite <- ?app_assoc; reflexivity
            | eexists _; exists false, false; rewrite <- ?app_assoc; reflexivity
            | exists false; eexists _, _; rewrite <- ?app_assoc; reflexivity
            | eexists _; exists false; eexists _; rewrite <- ?app_assoc; reflexivity
            | eexists _, _; exists false; rewrite <- ?app_assoc; reflexivity
            | eexists _, _, _; rewrite <- ?app_assoc; reflexivity ]. }
  destruct Heffects as (ok1 & ok2 & ok3 & Heffects).
  destruct (n =? _);
    repeat (unfold bind at 1; cbn [print]);
    (eexists (Returned tt), _; split; [reflexivity |]);
    exists s1, s2, s3, ok1, ok2, ok3;
    cbn [effects put_line Job_console]; auto.
Qed.

Lemma main_without_credentials (config : Config) (j : Job S) (e : exn) :
  client_of_source L false (credential_source path_exists (environ (host j)))
                   (environ (host j)) = Raised e ->
  exists j',
    data_generator.main C L path_exists config j = (Raised e, j') /\
    tick j' = tick j /\ store j' = store j /\ effects j' = effects j.
Proof.
  intros Hraise. unfold data_generator.main.
  unfold bind at 1. cbn [print]. unfold bind at 1. cbn [print].
  unfold bind at 1, on_host at 1.
  cbn [host put_line Job_console].
  match goal with
  | |- context [data_generator.setup_gcp_credentials L path_exists ?h] =>
      destruct (generator_setup_resolves h) as (h1 & -> & Henv)
  end.
  cbn [environ put_line Host_console] in *. rewrite Hraise.
  eexists. split; [reflexivity |]. cbn. auto.
Qed.

Lemma main_without_products (config : Config) (j : Job S) (c : client L) :
  client_of_source L false (credential_source path_exists (environ (host j)))
                   (environ (host j)) = Returned c ->
  num_products config <= 0 ->
  0 < num_sales config ->
  exists j',
    data_generator.main C L path_exists config j
      = (Raised (Exn "IndexError" "Cannot choose from an empty sequence"), j') /\
    store j' = store j /\ effects j' = effects j.
Proof.
  intros Hclient Hnone Hsome. unfold data_generator.main.
  unfold bind at 1. cbn [print]. unfold bind at 1. cbn [print].
  unfold bind at 1, on_host at 1.
  cbn [host put_line Job_console].
  match goal with
  | |- context [data_generator.setup_gcp_credentials L path_exists ?h] =>
      destruct (generator_setup_resolves h) as (h1 & -> & Henv)
  end.
  cbn [environ put_line Host_console] in *. rewrite Hclient.
  unfold bind at 1. cbn [print].
  unfold bind at 1, on_chance at 1. cbn [tick put_line Job_console].
  destruct (generate_employees_yields C (num_employees config) (tick j))
    as (employees & t1 & -> & _).
  unfold bind at 1. cbn [print].
  unfold bind at 1, on_chance at 1. cbn [tick put_line Job_console].
  unfold data_generator.generate_products at 1.
  rewrite seqZ_nil by lia. cbn [for_each ret].
  unfold bind at 1. cbn [print].
  unfold bind at 1, on_chance at 1. cbn [tick put_line Job_console].
  pose proof (generate_sales_raises C (num_sales config) employees [] t1
                Hsome eq_refl) as Hraise.
  destruct (data_generator.generate_sales C (num_sales config) employees [] t1)
    as [o t2].
  cbn [fst] in Hraise. subst o.
  eexists. split; [reflexivity |]. cbn. auto.
Qed.
End MainFacts.

(** X16. [main] writes all its files before it uploads any, and leaves
    nothing behind when it fails.  If it raises, no file was written and
    none uploaded.  If it returns, it has written, in this order, the
    employees, products and sales files (one per data set asked for, with
    its keys as header and its number of records), and has then uploaded
    to [landing/] those it wrote successfully, in the same order.  The
    uploads use a default client built from the environment as credential
    resolution left it, not the client that resolution returned: when no
    default client can be built, nothing is uploaded. *)
Theorem main_writes_then_uploads (C : Chance) (L : ClientLibrary)
    (path_exists : string -> bool) {S : Storage L} (config : Config)
    (j : Job S) :
  exists o j',
    data_generator.main C L path_exists config j = (o, j') /\
    match o with
    | Raised _ => effects j' = effects j
    | Returned _ =>
        exists s1 s2 s3 ok1 ok2 ok3,
          effects j'
          = effects j
              ++ (written "employees.csv" (keys (R := Employee))
                          (Z.to_nat (num_employees config)) s1
                    ++ written "products.csv" (keys (R := Product))
                               (Z.to_nat (num_products config)) s2
                    ++ written "sales.csv" (keys (R := Sale))
                               (Z.to_nat (num_sales config)) s3)
              ++ match new_default L
                         (environ_after
                            (credential_source path_exists (environ (host j)))
                            (environ (host j))) with
                 | Returned _ =>
                     uploaded (bucket_name config) "employees.csv" s1 ok1
                       ++ uploaded (bucket_name config) "products.csv" s2 ok2
                       ++ uploaded (bucket_name config) "sales.csv" s3 ok3
                 | Raised _ => []
                 end /\
          (s1 = true -> 0 < num_employees config) /\
          (s2 = true -> 0 < num_products config) /\
          (s3 = true -> 0 < num_sales config)
    end.
Proof. apply main_run. Qed.

(** X17. When credential resolution fails, [main] raises the same
    exception at once: nothing is drawn from the oracles, nothing is
    written and nothing is uploaded. *)
Theorem main_stops_without_credentials (C : Chance) (L : ClientLibrary)
    (path_exists : string -> bool) {S : Storage L} (config : Config)
    (j : Job S) (e : exn) :
  client_of_source L false (credential_source path_exists (environ (host j)))
                   (environ (host j)) = Raised e ->
  exists j',
    data_generator.main C L path_exists config j = (Raised e, j') /\
    tick j' = tick j /\ store j' = store j /\ effects j' = effects j.
Proof. apply main_without_credentials. Qed.

Lemma main_stops_without_credentials_witness :
  client_of_source describing false
                   (credential_source (fun _ => false) (environ (host (bare_job ∅))))
                   (environ (host (bare_job ∅)))
  = Raised (Exn "Exception" "No se encontraron credenciales") /\
  exists j',
    data_generator.main demo describing (fun _ => false) data_generator.CONFIG
                        (bare_job ∅)
    = (Raised (Exn "Exception" "No se encontraron credenciales"), j') /\
    tick j' = tick (bare_job ∅) /\ store j' = store (bare_job ∅) /\
    effects j' = effects (bare_job ∅).
Proof.
  assert (H : client_of_source describing false
                (credential_source (fun _ => false) (environ (host (bare_job ∅))))
                (environ (host (bare_job ∅)))
              = Raised (Exn "Exception" "No se encontraron credenciales"))
    by reflexivity.
  split; [exact H |].
  exact (main_stops_without_credentials demo describing (fun _ => false)
           data_generator.CONFIG (bare_job ∅) _ H).
Defined.

(** X18. With credentials in place, a configuration that asks for sales
    and for no product makes [main] fail with [IndexError] after the
    employees were generated and before any file is written. *)
Theorem main_needs_a_product (C : Chance) (L : ClientLibrary)
    (path_exists : string -> bool) {S : Storage L} (config : Config)
    (j : Job S) (c : client L) :
  client_of_source L false (credential_source path_exists (environ (host j)))
                   (environ (host j)) = Returned c ->
  num_products config <= 0 ->
  0 < num_sales config ->
  exists j',
    data_generator.main C L path_exists config j
      = (Raised (Exn "IndexError" "Cannot choose from an empty sequence"), j') /\
    store j' = store j /\ effects j' = effects j.
Proof. apply main_without_products. Qed.

Lemma main_needs_a_product_witness :
  client_of_source describing false
    (credential_source (fun _ => false)
       (environ (host (bare_job {[ "K_SERVICE" := "etl" ]}))))
    (environ (host (bare_job {[ "K_SERVICE" := "etl" ]})))
  = Returned (BuiltDefault None) /\
  num_products no_products <= 0 /\
  0 < num_sales no_products /\
  exists j',
    data_generator.main demo describing (fun _ => false) no_products
                        (bare_job {[ "K_SERVICE" := "etl" ]})
    = (Raised (Exn "IndexError" "Cannot choose from an empty sequence"), j') /\
    store j' = store (bare_job {[ "K_SERVICE" := "etl" ]}) /\
    effects j' = effects (bare_job {[ "K_SERVICE" := "etl" ]}).
Proof.
  assert (H1 : client_of_source describing false
                 (credential_source (fun _ => false)
                    (environ (host (bare_job {[ "K_SERVICE" := "etl" ]}))))
                 (environ (host (bare_job {[ "K_SERVICE" := "etl" ]})))
               = Returned (BuiltDefault None)) by reflexivity.
  assert (H2 : num_products no_products <= 0) by (cbn; lia).
  assert (H3 : 0 < num_sales no_products) by (cbn; lia).
  split; [exact H1 |]. split; [exact H2 |]. split; [exact H3 |].
  exact (main_needs_a_product demo describing (fun _ => false) no_products
           (bare_job {[ "K_SERVICE" := "etl" ]}) _ H1 H2 H3).
Defined.

(** * Credential resolution, once more *)

Section ResolutionAgain.
Variable L : ClientLibrary.
Variable path_exists : string -> bool.

Lemma warehouse_setup_resolves (h : Host) :
  exists h',
    etl_medallion.setup_gcp_credentials L path_exists h
      = (client_of_source L true (credential_source path_exists (environ h))
                          (environ h), h') /\
    environ h' = environ_after (credential_source path_exists (environ h))
                               (environ h).
Proof.
  unfold etl_medallion.setup_gcp_credentials.
  apply reraise_keeps.
  unfold credential_source, candidate_files, bind at 1, os_getenv at 1.
  destruct (truthy (environ h !! "K_SERVICE")) eqn:Hmarker; [cbn; eauto |].
  unfold bind at 1, candidate_paths, bind at 1, os_getenv at 1. cbn [ret].
  rewrite scan_paths_find.
  destruct (List.find path_exists _) as [path |]; [cbn; eauto |].
  unfold bind at 1, os_getenv at 1.
  destruct (environ h !! "GOOGLE_CREDENTIALS_JSON") as [[| c blob] |];
    cbn [usable truthy client_of_source environ_after raise];
    eauto.
  unfold bind at 1. cbn [print]. unfold bind at 1, lift at 1.
  destruct (json_loads L (String c blob)) as [info | e]; cbn [and_then];
    [| eauto].
  unfold bind at 1, lift at 1.
  destruct (from_service_account_info L info) as [creds | e]; cbn [and_then];
    [| eauto].
  unfold bind at 1, lift at 1.
  destruct (info_get L info "project_id") as [project_id | e]; cbn [and_then];
    unfold lift; eauto.
Qed.

(** The variable that resolution sets does not change what it resolves. *)
Lemma credential_source_again (env : gmap string string) :
  credential_source path_exists
    (environ_after (credential_source path_exists env) env)
  = credential_source path_exists env.
Proof.
  unfold credential_source at 2.
  destruct (truthy (env !! "K_SERVICE")) eqn:Hmarker; [reflexivity |].
  destruct (List.find path_exists (candidate_files env)) as [path |] eqn:Hfind.
  2:{ destruct (usable (env !! "GOOGLE_CREDENTIALS_JSON")); reflexivity. }
  cbn [environ_after]. unfold credential_source.
  rewrite lookup_insert_ne by discriminate. rewrite Hmarker.
  unfold candidate_files in *. rewrite lookup_insert_eq.
  assert (Hsame : List.find path_exists
                    (omap usable [ Some "service-account-key.json";
                                   Some "./service-account-key.json";
                                   Some path ])
                  = Some path); [| rewrite Hsame, Hfind; reflexivity].
  simpl in Hfind |- *.
  destruct (path_exists "service-account-key.json") eqn:H1; [exact Hfind |].
  destruct (path_exists "./service-account-key.json") eqn:H2; [exact Hfind |].
  destruct (env !! "GOOGLE_APPLICATION_CREDENTIALS") as [[| c p] |];
    simpl in Hfind; try discriminate.
  destruct (path_exists (String c p)) eqn:H3; [| discriminate].
  injection Hfind as <-. simpl. rewrite H3. reflexivity.
Qed.

Lemma client_of_source_again (with_project : bool) (env : gmap string string) :
  client_of_source L with_project (credential_source path_exists env)
    (environ_after (credential_source path_exists env) env)
  = client_of_source L with_project (credential_source path_exists env) env.
Proof.
  destruct (credential_source path_exists env) as [| path | blob |];
    try reflexivity.
  cbn [client_of_source environ_after]. rewrite insert_insert_eq. reflexivity.
Qed.
End ResolutionAgain.

(** X19. Credential resolution can be repeated: in both modules a second
    call, made in the environment the first call left, returns or raises
    what the first did and leaves the environment as it is.  The path
    that a call writes into GOOGLE_APPLICATION_CREDENTIALS does not change
    which source the next call takes. *)
Theorem setup_gcp_credentials_again (L : ClientLibrary)
    (path_exists : string -> bool) (h : Host) :
  (exists o h1 h2,
      etl_medallion.setup_gcp_credentials L path_exists h = (o, h1) /\
      etl_medallion.setup_gcp_credentials L path_exists h1 = (o, h2) /\
      environ h2 = environ h1) /\
  (exists o h1 h2,
      data_generator.setup_gcp_credentials L path_exists h = (o, h1) /\
      data_generator.setup_gcp_credentials L path_exists h1 = (o, h2) /\
      environ h2 = environ h1).
Proof.
  split.
  - destruct (warehouse_setup_resolves L path_exists h) as (h1 & Hrun1 & Henv1).
    destruct (warehouse_setup_resolves L path_exists h1) as (h2 & Hrun2 & Henv2).
    rewrite Henv1, credential_source_again in Hrun2, Henv2.
    rewrite client_of_source_again in Hrun2.
    eexists _, h1, h2. split; [exact Hrun1 |]. split; [exact Hrun2 |].
    rewrite Henv2, Henv1.
    destruct (credential_source path_exists (environ h)); try reflexivity.
    cbn [environ_after]. apply insert_insert_eq.
  - destruct (generator_setup_resolves L path_exists h) as (h1 & Hrun1 & Henv1).
    destruct (generator_setup_resolves L path_exists h1) as (h2 & Hrun2 & Henv2).
    rewrite Henv1, credential_source_again in Hrun2, Henv2.
    rewrite client_of_source_again in Hrun2.
    eexists _, h1, h2. split; [exact Hrun1 |]. split; [exact Hrun2 |].
    rewrite Henv2, Henv1.
    destruct (credential_source path_exists (environ h)); try reflexivity.
    cbn [environ_after]. apply insert_insert_eq.
Qed.

Section JsonVariable.
Variable L : ClientLibrary.
Variable path_exists : string -> bool.

Lemma json_source (env : gmap string string) (blob : string) :
  credential_source path_exists env = JsonBlob blob ->
  truthy (env !! "K_SERVICE") = false /\
  List.find path_exists
    (omap usable [ Some "service-account-key.json";
                   Some "./service-account-key.json";
                   env !! "GOOGLE_APPLICATION_CREDENTIALS" ]) = None /\
  env !! "GOOGLE_CREDENTIALS_JSON" = Some blob /\
  truthy (Some blob) = true.
Proof.
  unfold credential_source, candidate_files.
  destruct (truthy (env !! "K_SERVICE")); [discriminate |].
  destruct (List.find path_exists _); [discriminate |].
  destruct (env !! "GOOGLE_CREDENTIALS_JSON") as [[| c b] |]; cbn;
    try discriminate.
  intros H. injection H as <-. auto.
Qed.

Lemma unreadable_json (h : Host) (blob : string) (e : exn) :
  credential_source path_exists (environ h) = JsonBlob blob ->
  json_loads L blob = Raised e ->
  etl_medallion.setup_gcp_credentials L path_exists h
  = (Raised e,
     mkHost (environ h)
            (console h
               ++ [ "✅ Credenciales desde variable de entorno";
                    "❌ Error configurando credenciales: " +:+ str_exn e;
                    "💡 Crear 'service-account-key.json' en raíz del proyecto" ])) /\
  data_generator.setup_gcp_credentials L path_exists h
  = (Raised e,
     mkHost (environ h)
            (console h
               ++ [ "❌ Error configurando credenciales: " +:+ str_exn e;
                    "💡 Verifica que existe 'service-account-key.json' en tu proyecto" ])).
Proof.
  intros Hsrc Hjson.
  destruct (json_source _ _ Hsrc) as (Hmarker & Hfind & Hblob & Htruthy).
  unfold etl_medallion.setup_gcp_credentials,
    data_generator.setup_gcp_credentials, try_except.
  split.
  - unfold bind at 1, os_getenv at 1. rewrite Hmarker.
    unfold bind at 1, candidate_paths, bind at 1, os_getenv at 1. cbn [ret].
    rewrite scan_paths_find, Hfind.
    unfold bind at 1, os_getenv at 1. rewrite Hblob, Htruthy.
    unfold bind at 1. cbn [print]. unfold bind at 1, lift at 1.
    rewrite Hjson. unfold bind, print, raise, put_line, Host_console.
    cbn [environ console]. rewrite <- ?app_assoc. reflexivity.
  - unfold bind at 1, os_getenv at 1. rewrite Hmarker.
    unfold bind at 1, candidate_paths, bind at 1, os_getenv at 1. cbn [ret].
    rewrite scan_paths_find, Hfind.
    unfold bind at 1, os_getenv at 1. rewrite Hblob, Htruthy.
    unfold bind at 1, lift at 1.
    rewrite Hjson. unfold bind, print, raise, put_line, Host_console.
    cbn [environ console]. rewrite <- ?app_assoc. reflexivity.
Qed.
End JsonVariable.

(** X20. When the credentials come from GOOGLE_CREDENTIALS_JSON and the
    document cannot be parsed, both modules raise the parser's exception
    after their two error lines and leave the environment alone.  The
    warehouse module has by then already printed its line of success for
    this source, which it prints before parsing; the generator prints its
    line only after the credentials were built, so not in this case. *)
Theorem unreadable_json_variable (L : ClientLibrary)
    (path_exists : string -> bool) (h : Host) (blob : string) (e : exn) :
  credential_source path_exists (environ h) = JsonBlob blob ->
  json_loads L blob = Raised e ->
  etl_medallion.setup_gcp_credentials L path_exists h
  = (Raised e,
     mkHost (environ h)
            (console h
               ++ [ "✅ Credenciales desde variable de entorno";
                    "❌ Error configurando credenciales: " +:+ str_exn e;
                    "💡 Crear 'service-account-key.json' en raíz del proyecto" ])) /\
  data_generator.setup_gcp_credentials L path_exists h
  = (Raised e,
     mkHost (environ h)
            (console h
               ++ [ "❌ Error configurando credenciales: " +:+ str_exn e;
                    "💡 Verifica que existe 'service-account-key.json' en tu proyecto" ])).
Proof. apply unreadable_json. Qed.

Lemma unreadable_json_variable_witness :
  credential_source (fun _ => false)
    (environ (mkHost {[ "GOOGLE_CREDENTIALS_JSON" := "{" ]} []))
  = JsonBlob "{" /\
  json_loads unreadable "{" = Raised (Exn "JSONDecodeError" "Expecting value") /\
  etl_medallion.setup_gcp_credentials unreadable (fun _ => false)
    (mkHost {[ "GOOGLE_CREDENTIALS_JSON" := "{" ]} [])
  = (Raised (Exn "JSONDecodeError" "Expecting value"),
     mkHost {[ "GOOGLE_CREDENTIALS_JSON" := "{" ]}
            ([] ++ [ "✅ Credenciales desde variable de entorno";
                     "❌ Error configurando credenciales: "
                       +:+ str_exn (Exn "JSONDecodeError" "Expecting value");
                     "💡 Crear 'service-account-key.json' en raíz del proyecto" ])) /\
  data_generator.setup_gcp_credentials unreadable (fun _ => false)
    (mkHost {[ "GOOGLE_CREDENTIALS_JSON" := "{" ]} [])
  = (Raised (Exn "JSONDecodeError" "Expecting value"),
     mkHost {[ "GOOGLE_CREDENTIALS_JSON" := "{" ]}
            ([] ++ [ "❌ Error configurando credenciales: "
                       +:+ str_exn (Exn "JSONDecodeError" "Expecting value");
                     "💡 Verifica que existe 'service-account-key.json' en tu proyecto" ])).
Proof.
  assert (H1 : credential_source (fun _ => false)
                 (environ (mkHost {[ "GOOGLE_CREDENTIALS_JSON" := "{" ]} []))
               = JsonBlob "{") by reflexivity.
  assert (H2 : json_loads unreadable "{"
               = Raised (Exn "JSONDecodeError" "Expecting value")) by reflexivity.
  split; [exact H1 |]. split; [exact H2 |].
  exact (unreadable_json_variable unreadable (fun _ => false)
           (mkHost {[ "GOOGLE_CREDENTIALS_JSON" := "{" ]} []) _ _ H1 H2).
Defined.

(** * The two programs together *)

(** X21. [/trigger-etl] answers 500 only when the body of the request
    cannot be read, and then nothing is submitted to the warehouse.  In
    every other case it runs the pipeline and answers 200 with status
    [success] and the three stages listed as processed, also when a stage
    failed and the later stages were never run. *)
Theorem trigger_etl_endpoint_answers {W : World} (PROJECT_ID BUCKET : string)
    (request : Request) (st : State W) :
  exists response st',
    main.trigger_etl_endpoint PROJECT_ID BUCKET request st
      = (Returned response, st') /\
    match get_json request with
    | Returned _ =>
        status_code response = 200 /\
        body_field "status" response = Some (JString "success") /\
        body_field "layers_processed" response
          = Some (JList ["bronze"; "silver"; "gold"]) /\
        exists ok evs checks,
          trace st' = trace st ++ evs ++ checks /\
          stages_shape PROJECT_ID BUCKET [Bronze; Silver; Gold] evs ok /\
          (ok = false -> checks = [])
    | Raised e =>
        status_code response = 500 /\
        body_field "status" response = Some (JString "error") /\
        body_field "message" response = Some (JString (str_exn e)) /\
        trace st' = trace st
    end.
Proof.
  unfold main.trigger_etl_endpoint, try_except.
  unfold bind at 1. cbn [logger_record]. unfold bind at 1. unfold lift at 1.
  destruct (get_json request) as [parsed | e].
  - unfold bind at 1. cbn [logger_record]. unfold bind at 1.
    match goal with
    | |- context [etl_medallion.run_etl _ _ ?st0] =>
        destruct (run_etl_trace PROJECT_ID BUCKET st0)
          as (ok & evs & checks & st1 & -> & Htr & Hshape & Hchecks)
    end.
    cbn [trace] in Htr.
    unfold bind at 1, utcnow_isoformat at 1.
    destruct (w_utcnow W (world st1)) as [now w'].
    unfold bind at 1. cbn [logger_record ret].
    eexists _, _. split; [reflexivity |].
    repeat (split; [reflexivity |]).
    exists ok, evs, checks. cbn [trace]. split; [exact Htr |].
    split; [exact Hshape |].
    intros ->. apply Hchecks.
  - unfold bind at 1. cbn [logger_record].
    unfold bind at 1, utcnow_isoformat at 1. cbn [world].
    destruct (w_utcnow W (world st)) as [now w'].
    cbn [ret]. eexists _, _. split; [reflexivity |]. repeat split.
Qed.

(** X22. What the generator uploads is what the bronze stage loads: every
    object [main] uploads goes to the bucket of its configuration, under
    the address of one of the three files that [bronze_layer] reads when
    [BUCKET] names the same bucket, as it does by default. *)
Theorem main_uploads_feed_bronze (C : Chance) (L : ClientLibrary)
    (path_exists : string -> bool) {S : Storage L} (config : Config)
    (j : Job S) :
  Forall (fun e =>
            match uploaded_uri e with
            | Some uri =>
                In uri (map snd (etl_medallion.bronze_tables (bucket_name config)))
            | None => True
            end)
         (new_effects (data_generator.main C L path_exists config) j) /\
  bucket_name data_generator.CONFIG = default_bucket.
Proof.
  split; [| reflexivity].
  unfold new_effects.
  destruct (main_run C L path_exists config j) as (o & j' & -> & Ho).
  cbn [snd]. destruct o as [[] | e].
  - destruct Ho as (s1 & s2 & s3 & ok1 & ok2 & ok3 & -> & _).
    rewrite drop_app_length.
    apply Forall_app. split.
    + unfold written.
      destruct (Z.to_nat (num_employees config)),
               (Z.to_nat (num_products config)),
               (Z.to_nat (num_sales config));
        cbn [app]; repeat (constructor; [exact I |]); constructor.
    + destruct (new_default L _); [| constructor].
      unfold uploaded, etl_medallion.bronze_tables.
      cbn [map snd].
      destruct s1, s2, s3; cbn [app];
        repeat (constructor;
                [cbn [uploaded_uri In];
                 first [ left; reflexivity
                       | right; left; reflexivity
                       | right; right; left; reflexivity ] |]);
        constructor.
  - rewrite Ho, drop_all. constructor.
Qed.

(** ** A run that is asked for nothing *)

Section EmptyRun.
Variable C : Chance.
Variable L : ClientLibrary.
Variable path_exists : string -> bool.
Context {S : Storage L}.

Lemma main_with_nothing (config : Config) (j : Job S) (c : client L) :
  client_of_source L false (credential_source path_exists (environ (host j)))
                   (environ (host j)) = Returned c ->
  num_employees config <= 0 ->
  num_products config <= 0 ->
  num_sales config <= 0 ->
  exists j' before,
    data_generator.main C L path_exists config j = (Returned tt, j') /\
    store j' = store j /\ effects j' = effects j /\
    console (host j')
    = before ++ [ "📁 Archivos CSV: 0";
                  "☁️ Subidos a GCS: 0/0";
                  "🎉 ¡Todos los archivos subidos exitosamente!";
                  "🔗 Revisa tu bucket: https://console.cloud.google.com/storage/browser/"
                    +:+ bucket_name config ].
Proof.
  intros Hclient He Hp Hs. unfold data_generator.main.
  unfold bind at 1. cbn [print]. unfold bind at 1. cbn [print].
  unfold bind at 1, on_host at 1.
  cbn [host put_line Job_console].
  match goal with
  | |- context [data_generator.setup_gcp_credentials L path_exists ?h] =>
      destruct (generator_setup_resolves L path_exists h) as (h1 & -> & Henv)
  end.
  cbn [environ put_line Host_console] in *. rewrite Hclient.
  unfold data_generator.generate_employees, data_generator.generate_products,
    data_generator.generate_sales.
  rewrite !seqZ_nil by lia.
  eexists _, _. split; [reflexivity |].
  split; [reflexivity |]. split; [reflexivity |].
  cbn. do 3 rewrite <- app_assoc. reflexivity.
Qed.
End EmptyRun.

(** X23. With credentials in place, a configuration that asks for no
    records makes [main] write nothing and upload nothing, and still end
    with the message that all files were uploaded: it counts 0 uploads
    out of 0 files as a success. *)
Theorem main_reports_success_for_nothing (C : Chance) (L : ClientLibrary)
    (path_exists : string -> bool) {S : Storage L} (config : Config)
    (j : Job S) (c : client L) :
  client_of_source L false (credential_source path_exists (environ (host j)))
                   (environ (host j)) = Returned c ->
  num_employees config <= 0 ->
  num_products config <= 0 ->
  num_sales config <= 0 ->
  exists j' before,
    data_generator.main C L path_exists config j = (Returned tt, j') /\
    store j' = store j /\ effects j' = effects j /\
    console (host j')
    = before ++ [ "📁 Archivos CSV: 0";
                  "☁️ Subidos a GCS: 0/0";
                  "🎉 ¡Todos los archivos subidos exitosamente!";
                  "🔗 Revisa tu bucket: https://console.cloud.google.com/storage/browser/"
                    +:+ bucket_name config ].
Proof. apply main_with_nothing. Qed.

Lemma main_reports_success_for_nothing_witness :
  client_of_source describing false
    (credential_source (fun _ => false)
       (environ (host (bare_job {[ "K_SERVICE" := "etl" ]}))))
    (environ (host (bare_job {[ "K_SERVICE" := "etl" ]})))
  = Returned (BuiltDefault None) /\
  num_employees nothing_asked <= 0 /\
  num_products nothing_asked <= 0 /\
  num_sales nothing_asked <= 0 /\
  exists j' before,
    data_generator.main demo describing (fun _ => false) nothing_asked
                        (bare_job {[ "K_SERVICE" := "etl" ]})
    = (Returned tt, j') /\
    store j' = store (bare_job {[ "K_SERVICE" := "etl" ]}) /\
    effects j' = effects (bare_job {[ "K_SERVICE" := "etl" ]}) /\
    console (host j')
    = before ++ [ "📁 Archivos CSV: 0";
                  "☁️ Subidos a GCS: 0/0";
                  "🎉 ¡Todos los archivos subidos exitosamente!";
                  "🔗 Revisa tu bucket: https://console.cloud.google.com/storage/browser/"
                    +:+ bucket_name nothing_asked ].
Proof.
  assert (H1 : client_of_source describing false
                 (credential_source (fun _ => false)
                    (environ (host (bare_job {[ "K_SERVICE" := "etl" ]}))))
                 (environ (host (bare_job {[ "K_SERVICE" := "etl" ]})))
               = Returned (BuiltDefault None)) by reflexivity.
  assert (H2 : num_employees nothing_asked <= 0) by (cbn; lia).
  assert (H3 : num_products nothing_asked <= 0) by (cbn; lia).
  assert (H4 : num_sales nothing_asked <= 0) by (cbn; lia).
  split; [exact H1 |]. split; [exact H2 |]. split; [exact H3 |].
  split; [exact H4 |].
  exact (main_reports_success_for_nothing demo describing (fun _ => false)
           nothing_asked (bare_job {[ "K_SERVICE" := "etl" ]}) _ H1 H2 H3 H4).
Defined.
